(** * autoteve: a shallow embedding of [main.py]

    The script logs into teveclub.hu, feeds and teaches the camel, logs out
    and mails the operator when something goes wrong.  Python values are
    modelled as follows:

    - a [str] is the list of its Unicode code points;
    - the result of a call that may raise is a [result];
    - the network, the mail relay and the terminal are an explicit [World]
      that answers every call, and every observable action is appended to a
      [trace] kept in the program state;
    - the [World] also answers for the parts of the libraries that are not
      modelled: the HTML parser, the header parser of the [email] package
      and the attributes of a session other than its seven verbs. *)

From Stdlib Require Import List String Ascii Bool Arith NArith ZArith Lia.
Import ListNotations.

#[local] Set Warnings "-register-all".

(* ------------------------------------------------------------------ *)
(** * Python strings *)
(* ------------------------------------------------------------------ *)

Module PyStr.

(** A Python [str]: a sequence of code points. *)
Definition str := list N.

Definition bytes_of (s : string) : list N :=
  map N_of_ascii (list_ascii_of_string s).

(** The source file is UTF-8 ([# coding=utf-8]); a literal of the script is
    written here as the same bytes and decoded to code points. *)
Fixpoint utf8_decode (bs : list N) : str :=
  match bs with
  | [] => []
  | b :: rest =>
      if (b <? 128)%N then b :: utf8_decode rest
      else if (b <? 224)%N then
        match rest with
        | c1 :: r => ((b - 192) * 64 + (c1 - 128))%N :: utf8_decode r
        | [] => []
        end
      else if (b <? 240)%N then
        match rest with
        | c1 :: c2 :: r =>
            ((b - 224) * 4096 + (c1 - 128) * 64 + (c2 - 128))%N :: utf8_decode r
        | _ => []
        end
      else
        match rest with
        | c1 :: c2 :: c3 :: r =>
            ((b - 240) * 262144 + (c1 - 128) * 4096 + (c2 - 128) * 64
             + (c3 - 128))%N :: utf8_decode r
        | _ => []
        end
  end.

Definition py (s : string) : str := utf8_decode (bytes_of s).

Definition LF : N := 10%N.
Definition CR : N := 13%N.

Fixpoint str_eqb (a b : str) : bool :=
  match a, b with
  | [], [] => true
  | x :: a', y :: b' => (x =? y)%N && str_eqb a' b'
  | _, _ => false
  end.

(** [needle in haystack] *)
Definition contains (needle haystack : str) : Prop :=
  exists pre post, haystack = pre ++ needle ++ post.

(** [str.splitlines()]: the line boundaries of Python's [str] type. *)
Definition is_linebreak (c : N) : bool :=
  existsb (N.eqb c) [10; 11; 12; 13; 28; 29; 30; 133; 8232; 8233]%N.

Fixpoint splitlines_aux (cur : str) (s : str) : list str :=
  match s with
  | [] => match cur with [] => [] | _ => [rev cur] end
  | c :: s' =>
      if is_linebreak c then
        match s' with
        | d :: s'' =>
            if (c =? CR)%N && (d =? LF)%N
            then rev cur :: splitlines_aux [] s''
            else rev cur :: splitlines_aux [] s'
        | [] => [rev cur]
        end
      else splitlines_aux (c :: cur) s'
  end.

Definition splitlines (s : str) : list str := splitlines_aux [] s.

(** [str(n)] for an [int]. *)
Fixpoint digits_of_pos (fuel : nat) (n : N) (acc : str) : str :=
  match fuel with
  | O => acc
  | S fuel' =>
      let acc' := (48 + n mod 10)%N :: acc in
      if (n / 10 =? 0)%N then acc' else digits_of_pos fuel' (n / 10)%N acc'
  end.

Definition str_of_N (n : N) : str := digits_of_pos (S (N.to_nat (N.log2 n))) n [].

Definition str_of_int (z : Z) : str :=
  if (z <? 0)%Z then 45%N :: str_of_N (Z.to_N (- z)) else str_of_N (Z.to_N z).

(** ["{}\n\n{}".format(a, b)] *)
Definition format_two_paragraphs (a b : str) : str := a ++ [LF; LF] ++ b.

(** ["{}/{}".format(a, b)] *)
Definition format_slash (a b : str) : str := a ++ [47%N] ++ b.

End PyStr.
Import PyStr.

(* ------------------------------------------------------------------ *)
(** * Exceptions and results *)
(* ------------------------------------------------------------------ *)

(** The exception classes the script can meet; all of them derive from
    [Exception].  [OtherException] stands for whatever else the network,
    the mail relay or the terminal raises. *)
Inductive exn_class :=
| AttributeError
| ValueError
| HTTPError
| EOFError
| SyntaxError
| ConnectionError
| SMTPException
| SMTPServerDisconnected
| OtherException (name : str).

(** An exception object: its class and [str(exc)]. *)
Record exn := Exn { exn_cls : exn_class; exn_str : str }.

Inductive result (A : Type) :=
| Ok (a : A)
| Raise (e : exn).
Arguments Ok {A} a.
Arguments Raise {A} e.

Definition is_ok {A} (r : result A) : bool :=
  match r with Ok _ => true | Raise _ => false end.

(* ------------------------------------------------------------------ *)
(** * The regular expressions of the classifiers *)
(* ------------------------------------------------------------------ *)

Module Re.

(** The patterns of the script use literal characters, [.] and [*] only. *)
Inductive atom := Lit (c : N) | Dot.
Inductive item := One (a : atom) | Star (a : atom).

Definition atom_matches (a : atom) (c : N) : bool :=
  match a with
  | Lit x => (x =? c)%N
  | Dot => negb (c =? LF)%N
  end.

Definition atom_of (c : N) : atom := if (c =? 46)%N then Dot else Lit c.

Fixpoint parse (p : str) : list item :=
  match p with
  | [] => []
  | c :: p' =>
      match p' with
      | s :: p'' => if (s =? 42)%N then Star (atom_of c) :: parse p''
                    else One (atom_of c) :: parse p'
      | [] => [One (atom_of c)]
      end
  end.

(** Backtracking match of [p] at the start of [t]; the length matched, a
    star taking as much as it can. *)
Fixpoint match_here (p : list item) (t : str) {struct p} : option nat :=
  match p with
  | [] => Some O
  | One a :: p' =>
      match t with
      | c :: t' => if atom_matches a c then option_map S (match_here p' t') else None
      | [] => None
      end
  | Star a :: p' =>
      (fix star (t : str) : option nat :=
         match t with
         | c :: t' =>
             if atom_matches a c then
               match star t' with
               | Some n => Some (S n)
               | None => match_here p' t
               end
             else match_here p' t
         | [] => match_here p' []
         end) t
  end.

(** A match object: its span. *)
Record Match := { m_start : nat; m_end : nat }.

Fixpoint search_from (p : list item) (t : str) (i : nat) : option Match :=
  match match_here p t with
  | Some n => Some {| m_start := i; m_end := i + n |}
  | None =>
      match t with
      | [] => None
      | _ :: t' => search_from p t' (S i)
      end
  end.

(** [re.search(pattern, text)] *)
Definition search (pattern text : str) : option Match :=
  search_from (parse pattern) text 0.

Definition literal (s : str) : list item := map (fun c => One (Lit c)) s.

End Re.

(** Python values the classifiers hand back. *)
Inductive pyval :=
| VBool (b : bool)
| VNone
| VMatch (m : Re.Match).

Definition of_search (o : option Re.Match) : pyval :=
  match o with Some m => VMatch m | None => VNone end.

(** Truth value testing: [None] and [False] are false, a match object is
    true. *)
Definition truthy (v : pyval) : bool :=
  match v with
  | VBool b => b
  | VNone => false
  | VMatch _ => true
  end.

(** [not v] *)
Definition py_not (v : pyval) : pyval := VBool (negb (truthy v)).

(* ------------------------------------------------------------------ *)
(** * Responses and the classifiers *)
(* ------------------------------------------------------------------ *)

(** [requests.models.Response], as far as the script looks at it. *)
Record PageType := {
  status_code : Z;
  reason : str;
  url : str;
  text : str
}.

Definition _page_text (page : PageType) : str := text page.

Definition login_failure_pattern : str := py "Valami baj van!".
Definition teach_success_pattern : str := py "A tevédet ma már tanítottad".
Definition feeding_is_still_possible : str := py "Adok neki .* napra elég ennivalót".

Definition _parse_login_status (response : PageType) : pyval :=
  py_not (of_search (Re.search login_failure_pattern (_page_text response))).

Definition _parse_teach_success (response : PageType) : pyval :=
  of_search (Re.search teach_success_pattern (_page_text response)).

Definition _parse_feed_success (response : PageType) : pyval :=
  py_not (of_search (Re.search feeding_is_still_possible (_page_text response))).

(* ------------------------------------------------------------------ *)
(** * The parse tree of BeautifulSoup *)
(* ------------------------------------------------------------------ *)

(** A [dict] with [str] keys and values, in insertion order. *)
Definition form := list (str * str).

Fixpoint dict_get (d : form) (k : str) : option str :=
  match d with
  | [] => None
  | (k', v) :: d' => if str_eqb k' k then Some v else dict_get d' k
  end.

(** [d[k] = v] *)
Fixpoint dict_set (d : form) (k v : str) : form :=
  match d with
  | [] => [(k, v)]
  | (k', v') :: d' =>
      if str_eqb k' k then (k', v) :: d' else (k', v') :: dict_set d' k v
  end.

Module Soup.

(** What the parser builds: strings, comments and tags with their attribute
    dictionary and contents. *)
Inductive node :=
| NavigableString (s : str)
| Comment (s : str)
| Tag (name : str) (attrs : form) (contents : list node).

(** [tag.descendants]: every node below [n], in document order. *)
Fixpoint descendants (n : node) : list node :=
  match n with
  | Tag _ _ cs =>
      (fix go (l : list node) : list node :=
         match l with
         | [] => []
         | c :: l' => c :: descendants c ++ go l'
         end) cs
  | _ => []
  end.

(** [tag.text]: the strings below [n] joined, comments left out. *)
Fixpoint get_text (n : node) : str :=
  match n with
  | NavigableString s => s
  | Comment _ => []
  | Tag _ _ cs =>
      (fix go (l : list node) : str :=
         match l with
         | [] => []
         | c :: l' => get_text c ++ go l'
         end) cs
  end.

Definition has_attr (key value : str) (n : node) : bool :=
  match n with
  | Tag _ attrs _ =>
      match dict_get attrs key with
      | Some v => str_eqb v value
      | None => false
      end
  | _ => false
  end.

Definition is_tag_named (name : str) (n : node) : bool :=
  match n with
  | Tag nm _ _ => str_eqb nm name
  | _ => false
  end.

(** [soup.find(attrs={key: value})]: the first tag below [n] carrying that
    attribute value, or [None]. *)
Definition find_attrs (n : node) (key value : str) : option node :=
  List.find (has_attr key value) (descendants n).

(** [tag.find_all(name)]: every tag of that name below [n]. *)
Definition find_all (n : node) (name : str) : list node :=
  filter (is_tag_named name) (descendants n).

End Soup.

(* ------------------------------------------------------------------ *)
(** * Builtins: [int] and [max] *)
(* ------------------------------------------------------------------ *)

Module Builtins.

(** [Py_ISSPACE]: the whitespace of the C locale. *)
Definition is_space (c : N) : bool :=
  ((9 <=? c) && (c <=? 13) || (c =? 32))%N.

(** [Py_UNICODE_ISSPACE] from code point 127 on, in Unicode 14.0, the
    version CPython 3.11 is built with. *)
Definition is_unicode_space (c : N) : bool :=
  ((c =? 133) || (c =? 160) || (c =? 5760)
   || (8192 <=? c) && (c <=? 8202) || (c =? 8232) || (c =? 8233)
   || (c =? 8239) || (c =? 8287) || (c =? 12288))%N.

(** The digit zero of every script but ASCII that has decimal digits; the
    nine code points after a zero are the digits one to nine. *)
Definition decimal_zeros : list N :=
  [1632; 1776; 1984; 2406; 2534; 2662; 2790; 2918; 3046; 3174; 3302; 3430;
   3558; 3664; 3792; 3872; 4160; 4240; 6112; 6160; 6470; 6608; 6784; 6800;
   6992; 7088; 7232; 7248; 42528; 43216; 43264; 43472; 43504; 43600; 44016;
   65296; 66720; 68912; 69734; 69872; 69942; 70096; 70384; 70736; 70864;
   71248; 71360; 71472; 71904; 72016; 72784; 73040; 73120; 92768; 92864;
   93008; 120782; 120792; 120802; 120812; 120822; 123200; 123632; 125264;
   130032]%N.

(** [Py_UNICODE_TODECIMAL] from code point 127 on. *)
Definition to_decimal (c : N) : option N :=
  match find (fun z => (z <=? c) && (c <? z + 10))%N decimal_zeros with
  | Some z => Some (c - z)%N
  | None => None
  end.

Definition is_ascii (s : str) : bool := forallb (fun c => (c <? 128)%N) s.

(** [_PyUnicode_TransformDecimalAndSpaceToASCII]: an ASCII string is taken
    as it is; otherwise whitespace becomes a space and a decimal digit its
    ASCII digit, and the result ends with a question mark at the first code
    point from 127 on that is neither. *)
Fixpoint transform_chars (s : str) : str :=
  match s with
  | [] => []
  | c :: s' =>
      if (c <? 127)%N then c :: transform_chars s'
      else if is_unicode_space c then 32%N :: transform_chars s'
      else
        match to_decimal c with
        | Some d => (48 + d)%N :: transform_chars s'
        | None => [63%N]
        end
  end.

Definition transform_decimal_and_space_to_ascii (s : str) : str :=
  if is_ascii s then s else transform_chars s.

Definition is_digit (c : N) : bool := ((48 <=? c) && (c <=? 57))%N.

(** The whitespace [PyLong_FromString] skips before the number, and after
    it. *)
Fixpoint lstrip (s : str) : str :=
  match s with
  | c :: s' => if is_space c then lstrip s' else s
  | [] => []
  end.

Definition strip (s : str) : str := rev (lstrip (rev (lstrip s))).

(** Decimal digits, single underscores allowed between two digits. *)
Fixpoint digits_value (acc : Z) (after_digit : bool) (s : str) : option Z :=
  match s with
  | [] => if after_digit then Some acc else None
  | c :: s' =>
      if is_digit c then digits_value (10 * acc + Z.of_N (c - 48)) true s'
      else if (c =? 95)%N && after_digit then digits_value acc false s'
      else None
  end.

(** [PyLong_FromUnicodeObject(s, 10)]: whitespace, an optional sign, the
    digits, whitespace, and nothing else. *)
Definition parse_int (s : str) : option Z :=
  match strip (transform_decimal_and_space_to_ascii s) with
  | c :: s' =>
      if (c =? 45)%N then option_map Z.opp (digits_value 0 false s')
      else if (c =? 43)%N then digits_value 0 false s'
      else digits_value 0 false (c :: s')
  | [] => None
  end.

Definition hex_digit (d : N) : N := (if d <? 10 then 48 + d else 87 + d)%N.

(** The last [width] hexadecimal digits of [v], in lower case. *)
Fixpoint hex (width : nat) (v : N) : str :=
  match width with
  | O => []
  | S width' => hex width' (v / 16)%N ++ [hex_digit (v mod 16)%N]
  end.

(** The code points from 128 on that [str.isprintable] refuses in
    Unicode 14.0, as ranges with both ends included. *)
Definition nonprintable : list (N * N) :=
  [(128, 160); (173, 173); (888, 889); (896, 899); (907, 907); (909, 909);
   (930, 930); (1328, 1328); (1367, 1368); (1419, 1420); (1424, 1424);
   (1480, 1487); (1515, 1518); (1525, 1541); (1564, 1564); (1757, 1757);
   (1806, 1807); (1867, 1868); (1970, 1983); (2043, 2044); (2094, 2095);
   (2111, 2111); (2140, 2141); (2143, 2143); (2155, 2159); (2191, 2199);
   (2274, 2274); (2436, 2436); (2445, 2446); (2449, 2450); (2473, 2473);
   (2481, 2481); (2483, 2485); (2490, 2491); (2501, 2502); (2505, 2506);
   (2511, 2518); (2520, 2523); (2526, 2526); (2532, 2533); (2559, 2560);
   (2564, 2564); (2571, 2574); (2577, 2578); (2601, 2601); (2609, 2609);
   (2612, 2612); (2615, 2615); (2618, 2619); (2621, 2621); (2627, 2630);
   (2633, 2634); (2638, 2640); (2642, 2648); (2653, 2653); (2655, 2661);
   (2679, 2688); (2692, 2692); (2702, 2702); (2706, 2706); (2729, 2729);
   (2737, 2737); (2740, 2740); (2746, 2747); (2758, 2758); (2762, 2762);
   (2766, 2767); (2769, 2783); (2788, 2789); (2802, 2808); (2816, 2816);
   (2820, 2820); (2829, 2830); (2833, 2834); (2857, 2857); (2865, 2865);
   (2868, 2868); (2874, 2875); (2885, 2886); (2889, 2890); (2894, 2900);
   (2904, 2907); (2910, 2910); (2916, 2917); (2936, 2945); (2948, 2948);
   (2955, 2957); (2961, 2961); (2966, 2968); (2971, 2971); (2973, 2973);
   (2976, 2978); (2981, 2983); (2987, 2989); (3002, 3005); (3011, 3013);
   (3017, 3017); (3022, 3023); (3025, 3030); (3032, 3045); (3067, 3071);
   (3085, 3085); (3089, 3089); (3113, 3113); (3130, 3131); (3141, 3141);
   (3145, 3145); (3150, 3156); (3159, 3159); (3163, 3164); (3166, 3167);
   (3172, 3173); (3184, 3190); (3213, 3213); (3217, 3217); (3241, 3241);
   (3252, 3252); (3258, 3259); (3269, 3269); (3273, 3273); (3278, 3284);
   (3287, 3292); (3295, 3295); (3300, 3301); (3312, 3312); (3315, 3327);
   (3341, 3341); (3345, 3345); (3397, 3397); (3401, 3401); (3408, 3411);
   (3428, 3429); (3456, 3456); (3460, 3460); (3479, 3481); (3506, 3506);
   (3516, 3516); (3518, 3519); (3527, 3529); (3531, 3534); (3541, 3541);
   (3543, 3543); (3552, 3557); (3568, 3569); (3573, 3584); (3643, 3646);
   (3676, 3712); (3715, 3715); (3717, 3717); (3723, 3723); (3748, 3748);
   (3750, 3750); (3774, 3775); (3781, 3781); (3783, 3783); (3790, 3791);
   (3802, 3803); (3808, 3839); (3912, 3912); (3949, 3952); (3992, 3992);
   (4029, 4029); (4045, 4045); (4059, 4095); (4294, 4294); (4296, 4300);
   (4302, 4303); (4681, 4681); (4686, 4687); (4695, 4695); (4697, 4697);
   (4702, 4703); (4745, 4745); (4750, 4751); (4785, 4785); (4790, 4791);
   (4799, 4799); (4801, 4801); (4806, 4807); (4823, 4823); (4881, 4881);
   (4886, 4887); (4955, 4956); (4989, 4991); (5018, 5023); (5110, 5111);
   (5118, 5119); (5760, 5760); (5789, 5791); (5881, 5887); (5910, 5918);
   (5943, 5951); (5972, 5983); (5997, 5997); (6001, 6001); (6004, 6015);
   (6110, 6111); (6122, 6127); (6138, 6143); (6158, 6158); (6170, 6175);
   (6265, 6271); (6315, 6319); (6390, 6399); (6431, 6431); (6444, 6447);
   (6460, 6463); (6465, 6467); (6510, 6511); (6517, 6527); (6572, 6575);
   (6602, 6607); (6619, 6621); (6684, 6685); (6751, 6751); (6781, 6782);
   (6794, 6799); (6810, 6815); (6830, 6831); (6863, 6911); (6989, 6991);
   (7039, 7039); (7156, 7163); (7224, 7226); (7242, 7244); (7305, 7311);
   (7355, 7356); (7368, 7375); (7419, 7423); (7958, 7959); (7966, 7967);
   (8006, 8007); (8014, 8015); (8024, 8024); (8026, 8026); (8028, 8028);
   (8030, 8030); (8062, 8063); (8117, 8117); (8133, 8133); (8148, 8149);
   (8156, 8156); (8176, 8177); (8181, 8181); (8191, 8207); (8232, 8239);
   (8287, 8303); (8306, 8307); (8335, 8335); (8349, 8351); (8385, 8399);
   (8433, 8447); (8588, 8591); (9255, 9279); (9291, 9311); (11124, 11125);
   (11158, 11158); (11508, 11512); (11558, 11558); (11560, 11564);
   (11566, 11567); (11624, 11630); (11633, 11646); (11671, 11679);
   (11687, 11687); (11695, 11695); (11703, 11703); (11711, 11711);
   (11719, 11719); (11727, 11727); (11735, 11735); (11743, 11743);
   (11870, 11903); (11930, 11930); (12020, 12031); (12246, 12271);
   (12284, 12288); (12352, 12352); (12439, 12440); (12544, 12548);
   (12592, 12592); (12687, 12687); (12772, 12783); (12831, 12831);
   (42125, 42127); (42183, 42191); (42540, 42559); (42744, 42751);
   (42955, 42959); (42962, 42962); (42964, 42964); (42970, 42993);
   (43053, 43055); (43066, 43071); (43128, 43135); (43206, 43213);
   (43226, 43231); (43348, 43358); (43389, 43391); (43470, 43470);
   (43482, 43485); (43519, 43519); (43575, 43583); (43598, 43599);
   (43610, 43611); (43715, 43738); (43767, 43776); (43783, 43784);
   (43791, 43792); (43799, 43807); (43815, 43815); (43823, 43823);
   (43884, 43887); (44014, 44015); (44026, 44031); (55204, 55215);
   (55239, 55242); (55292, 63743); (64110, 64111); (64218, 64255);
   (64263, 64274); (64280, 64284); (64311, 64311); (64317, 64317);
   (64319, 64319); (64322, 64322); (64325, 64325); (64451, 64466);
   (64912, 64913); (64968, 64974); (64976, 65007); (65050, 65055);
   (65107, 65107); (65127, 65127); (65132, 65135); (65141, 65141);
   (65277, 65280); (65471, 65473); (65480, 65481); (65488, 65489);
   (65496, 65497); (65501, 65503); (65511, 65511); (65519, 65531);
   (65534, 65535); (65548, 65548); (65575, 65575); (65595, 65595);
   (65598, 65598); (65614, 65615); (65630, 65663); (65787, 65791);
   (65795, 65798); (65844, 65846); (65935, 65935); (65949, 65951);
   (65953, 65999); (66046, 66175); (66205, 66207); (66257, 66271);
   (66300, 66303); (66340, 66348); (66379, 66383); (66427, 66431);
   (66462, 66462); (66500, 66503); (66518, 66559); (66718, 66719);
   (66730, 66735); (66772, 66775); (66812, 66815); (66856, 66863);
   (66916, 66926); (66939, 66939); (66955, 66955); (66963, 66963);
   (66966, 66966); (66978, 66978); (66994, 66994); (67002, 67002);
   (67005, 67071); (67383, 67391); (67414, 67423); (67432, 67455);
   (67462, 67462); (67505, 67505); (67515, 67583); (67590, 67591);
   (67593, 67593); (67638, 67638); (67641, 67643); (67645, 67646);
   (67670, 67670); (67743, 67750); (67760, 67807); (67827, 67827);
   (67830, 67834); (67868, 67870); (67898, 67902); (67904, 67967);
   (68024, 68027); (68048, 68049); (68100, 68100); (68103, 68107);
   (68116, 68116); (68120, 68120); (68150, 68151); (68155, 68158);
   (68169, 68175); (68185, 68191); (68256, 68287); (68327, 68330);
   (68343, 68351); (68406, 68408); (68438, 68439); (68467, 68471);
   (68498, 68504); (68509, 68520); (68528, 68607); (68681, 68735);
   (68787, 68799); (68851, 68857); (68904, 68911); (68922, 69215);
   (69247, 69247); (69290, 69290); (69294, 69295); (69298, 69375);
   (69416, 69423); (69466, 69487); (69514, 69551); (69580, 69599);
   (69623, 69631); (69710, 69713); (69750, 69758); (69821, 69821);
   (69827, 69839); (69865, 69871); (69882, 69887); (69941, 69941);
   (69960, 69967); (70007, 70015); (70112, 70112); (70133, 70143);
   (70162, 70162); (70207, 70271); (70279, 70279); (70281, 70281);
   (70286, 70286); (70302, 70302); (70314, 70319); (70379, 70383);
   (70394, 70399); (70404, 70404); (70413, 70414); (70417, 70418);
   (70441, 70441); (70449, 70449); (70452, 70452); (70458, 70458);
   (70469, 70470); (70473, 70474); (70478, 70479); (70481, 70486);
   (70488, 70492); (70500, 70501); (70509, 70511); (70517, 70655);
   (70748, 70748); (70754, 70783); (70856, 70863); (70874, 71039);
   (71094, 71095); (71134, 71167); (71237, 71247); (71258, 71263);
   (71277, 71295); (71354, 71359); (71370, 71423); (71451, 71452);
   (71468, 71471); (71495, 71679); (71740, 71839); (71923, 71934);
   (71943, 71944); (71946, 71947); (71956, 71956); (71959, 71959);
   (71990, 71990); (71993, 71994); (72007, 72015); (72026, 72095);
   (72104, 72105); (72152, 72153); (72165, 72191); (72264, 72271);
   (72355, 72367); (72441, 72703); (72713, 72713); (72759, 72759);
   (72774, 72783); (72813, 72815); (72848, 72849); (72872, 72872);
   (72887, 72959); (72967, 72967); (72970, 72970); (73015, 73017);
   (73019, 73019); (73022, 73022); (73032, 73039); (73050, 73055);
   (73062, 73062); (73065, 73065); (73103, 73103); (73106, 73106);
   (73113, 73119); (73130, 73439); (73465, 73647); (73649, 73663);
   (73714, 73726); (74650, 74751); (74863, 74863); (74869, 74879);
   (75076, 77711); (77811, 77823); (78895, 82943); (83527, 92159);
   (92729, 92735); (92767, 92767); (92778, 92781); (92863, 92863);
   (92874, 92879); (92910, 92911); (92918, 92927); (92998, 93007);
   (93018, 93018); (93026, 93026); (93048, 93052); (93072, 93759);
   (93851, 93951); (94027, 94030); (94088, 94094); (94112, 94175);
   (94181, 94191); (94194, 94207); (100344, 100351); (101590, 101631);
   (101641, 110575); (110580, 110580); (110588, 110588); (110591, 110591);
   (110883, 110927); (110931, 110947); (110952, 110959); (111356, 113663);
   (113771, 113775); (113789, 113791); (113801, 113807); (113818, 113819);
   (113824, 118527); (118574, 118575); (118599, 118607); (118724, 118783);
   (119030, 119039); (119079, 119080); (119155, 119162); (119275, 119295);
   (119366, 119519); (119540, 119551); (119639, 119647); (119673, 119807);
   (119893, 119893); (119965, 119965); (119968, 119969); (119971, 119972);
   (119975, 119976); (119981, 119981); (119994, 119994); (119996, 119996);
   (120004, 120004); (120070, 120070); (120075, 120076); (120085, 120085);
   (120093, 120093); (120122, 120122); (120127, 120127); (120133, 120133);
   (120135, 120137); (120145, 120145); (120486, 120487); (120780, 120781);
   (121484, 121498); (121504, 121504); (121520, 122623); (122655, 122879);
   (122887, 122887); (122905, 122906); (122914, 122914); (122917, 122917);
   (122923, 123135); (123181, 123183); (123198, 123199); (123210, 123213);
   (123216, 123535); (123567, 123583); (123642, 123646); (123648, 124895);
   (124903, 124903); (124908, 124908); (124911, 124911); (124927, 124927);
   (125125, 125126); (125143, 125183); (125260, 125263); (125274, 125277);
   (125280, 126064); (126133, 126208); (126270, 126463); (126468, 126468);
   (126496, 126496); (126499, 126499); (126501, 126502); (126504, 126504);
   (126515, 126515); (126520, 126520); (126522, 126522); (126524, 126529);
   (126531, 126534); (126536, 126536); (126538, 126538); (126540, 126540);
   (126544, 126544); (126547, 126547); (126549, 126550); (126552, 126552);
   (126554, 126554); (126556, 126556); (126558, 126558); (126560, 126560);
   (126563, 126563); (126565, 126566); (126571, 126571); (126579, 126579);
   (126584, 126584); (126589, 126589); (126591, 126591); (126602, 126602);
   (126620, 126624); (126628, 126628); (126634, 126634); (126652, 126703);
   (126706, 126975); (127020, 127023); (127124, 127135); (127151, 127152);
   (127168, 127168); (127184, 127184); (127222, 127231); (127406, 127461);
   (127491, 127503); (127548, 127551); (127561, 127567); (127570, 127583);
   (127590, 127743); (128728, 128732); (128749, 128751); (128765, 128767);
   (128884, 128895); (128985, 128991); (129004, 129007); (129009, 129023);
   (129036, 129039); (129096, 129103); (129114, 129119); (129160, 129167);
   (129198, 129199); (129202, 129279); (129620, 129631); (129646, 129647);
   (129653, 129655); (129661, 129663); (129671, 129679); (129709, 129711);
   (129723, 129727); (129734, 129743); (129754, 129759); (129768, 129775);
   (129783, 129791); (129939, 129939); (129995, 130031); (130042, 131071);
   (173792, 173823); (177977, 177983); (178206, 178207); (183970, 183983);
   (191457, 194559); (195102, 196607); (201547, 917759); (918000, 1114111)]%N.

(** [Py_UNICODE_ISPRINTABLE] from code point 128 on. *)
Definition isprintable (c : N) : bool :=
  negb (existsb (fun r => (fst r <=? c) && (c <=? snd r))%N nonprintable).

(** One character of [repr(s)] between the quotes. *)
Definition repr_char (quote c : N) : str :=
  if ((c =? quote) || (c =? 92))%N then [92%N; c]
  else if (c =? 9)%N then [92; 116]%N
  else if (c =? 10)%N then [92; 110]%N
  else if (c =? 13)%N then [92; 114]%N
  else if ((c <? 32) || (c =? 127))%N then [92; 120]%N ++ hex 2 c
  else if (c <? 127)%N then [c]
  else if isprintable c then [c]
  else if (c <=? 255)%N then [92; 120]%N ++ hex 2 c
  else if (c <=? 65535)%N then [92; 117]%N ++ hex 4 c
  else [92; 85]%N ++ hex 8 c.

(** [repr(s)] for a [str]: double quotes when [s] has a single quote and no
    double quote, single quotes otherwise. *)
Definition repr (s : str) : str :=
  let quote :=
    if existsb (N.eqb 39) s && negb (existsb (N.eqb 34) s) then 34%N else 39%N in
  [quote] ++ flat_map (repr_char quote) s ++ [quote].

(** [int(s)] for a [str]: base 10; the message holds the first 200
    characters of [repr(s)]. *)
Definition int (s : str) : result Z :=
  match parse_int s with
  | Some z => Ok z
  | None =>
      Raise (Exn ValueError
               (py "invalid literal for int() with base 10: "
                ++ firstn 200 (repr s)))
  end.

(** [max(l)] for a list of [int]. *)
Definition max (l : list Z) : result Z :=
  match l with
  | [] => Raise (Exn ValueError (py "max() arg is an empty sequence"))
  | x :: l' => Ok (fold_left Z.max l' x)
  end.

(** [[f(x) for x in l]]: the first exception stops the comprehension. *)
Fixpoint comprehension {A B} (f : A -> result B) (l : list A) : result (list B) :=
  match l with
  | [] => Ok []
  | x :: l' =>
      match f x with
      | Raise e => Raise e
      | Ok y =>
          match comprehension f l' with
          | Raise e => Raise e
          | Ok ys => Ok (y :: ys)
          end
      end
  end.

End Builtins.

(* ------------------------------------------------------------------ *)
(** * The world, the state and the monad of the script *)
(* ------------------------------------------------------------------ *)

Inductive http_method := GET | POST | PUT | DELETE | HEAD | OPTIONS | PATCH.

(** What [getattr(cls.SESSION, method)] finds: one of the seven verbs of a
    session, or another attribute of the object. *)
Inductive attribute :=
| Verb (m : http_method)
| Other (name : str).

(** [email.message.EmailMessage]: the body given to [set_content] and the
    headers in the order they were set. *)
Record EmailMessage := {
  content : str;
  headers : form
}.

(** Everything the script does that can be seen from outside. *)
Inductive event :=
| EStartSession
| ECloseSession
| ESessionExit
| ERequest (method : http_method) (link_url : str)
           (hdrs : option form) (data : option form)
| ECall (name : str) (link_url : str)
        (hdrs : option form) (data : option form)
| ESmtpConnect
| ESmtpLogin (sender password : str)
| ESendMessage (msg : EmailMessage)
| ESmtpQuit
| EPrint (s : str)
| EInput (prompt : str)
| EGetpass.

Definition trace := list event.

(** The surroundings of the script.  Every answer may depend on all that
    happened so far; the call being answered is the last event of the
    trace. *)
Inductive Session := LiveSession.

Record World := {
  (** [BeautifulSoup(text, "html.parser")] *)
  html_parser : str -> Soup.node;
  (** a session method: a response, or the exception it raises *)
  http_answer : trace -> result PageType;
  (** the mail relay: [None] when the call goes through *)
  smtp_answer : trace -> option exn;
  (** [getpass()] *)
  getpass_answer : trace -> result str;
  (** the header parser of the [email] package on a value of one line under
      a header name: the exception it raises, [None] when it takes the
      value *)
  header_answer : str -> str -> option exn;
  (** [getattr(obj, name)] for [obj] the value of [SESSION] and a name that
      is none of the seven verbs: does the object have the attribute (which
      ones a session has depends on the version of requests) *)
  has_attribute : option Session -> str -> bool;
  (** such an attribute called with the arguments of [request]: a response,
      or the exception of the call or, for a value that is no response, of
      [raise_for_status] on it *)
  call_answer : trace -> result PageType
}.

Record State := {
  SESSION : option Session;      (* TeveClubLink.SESSION *)
  LOGIN_FORM : form;             (* Teve.LOGIN_FORM *)
  logged_in : bool;              (* self.logged_in *)
  stdin : list (result str);     (* what input() is going to read *)
  log : trace
}.

Definition M (A : Type) : Type := World -> State -> result A * State.

Definition ret {A} (a : A) : M A := fun _ s => (Ok a, s).

Definition bind {A B} (m : M A) (k : A -> M B) : M B :=
  fun w s =>
    match m w s with
    | (Ok a, s') => k a w s'
    | (Raise e, s') => (Raise e, s')
    end.

Definition raise {A} (e : exn) : M A := fun _ s => (Raise e, s).

Definition lift {A} (r : result A) : M A := fun _ s => (r, s).

(** [try: m  except Exception as e: h e] *)
Definition try_except {A} (m : M A) (h : exn -> M A) : M A :=
  fun w s =>
    match m w s with
    | (Ok a, s') => (Ok a, s')
    | (Raise e, s') => h e w s'
    end.

Declare Scope py_scope.
Delimit Scope py_scope with py_m.
Notation "x <- m ;; k" := (bind m (fun x => k))
  (at level 61, m at next level, right associativity) : py_scope.
Notation "m ;; k" := (bind m (fun _ => k))
  (at level 61, right associativity) : py_scope.
Local Open Scope py_scope.

(** The state after one more observable action. *)
Definition push (s : State) (e : event) : State :=
  {| SESSION := SESSION s; LOGIN_FORM := LOGIN_FORM s;
     logged_in := logged_in s; stdin := stdin s; log := log s ++ [e] |}.

Definition emit (e : event) : M unit := fun _ s => (Ok tt, push s e).

Definition set_SESSION (v : option Session) : M unit :=
  fun _ s =>
    (Ok tt, {| SESSION := v; LOGIN_FORM := LOGIN_FORM s;
               logged_in := logged_in s; stdin := stdin s; log := log s |}).

Definition set_LOGIN_FORM (v : form) : M unit :=
  fun _ s =>
    (Ok tt, {| SESSION := SESSION s; LOGIN_FORM := v;
               logged_in := logged_in s; stdin := stdin s; log := log s |}).

Definition set_logged_in (v : bool) : M unit :=
  fun _ s =>
    (Ok tt, {| SESSION := SESSION s; LOGIN_FORM := LOGIN_FORM s;
               logged_in := v; stdin := stdin s; log := log s |}).

Definition gets {A} (f : State -> A) : M A := fun _ s => (Ok (f s), s).

(** [print(s, end=end_)] *)
Definition print (s end_ : str) : M unit := emit (EPrint (s ++ end_)).
Definition println (s : str) : M unit := print s [LF].

(** A call answered by the network. *)
Definition ask_http (e : event) : M PageType :=
  emit e ;; fun w s => (http_answer w (log s), s).

(** The call of an attribute of the session that is none of its verbs. *)
Definition ask_call (e : event) : M PageType :=
  emit e ;; fun w s => (call_answer w (log s), s).

(** A call answered by the mail relay. *)
Definition ask_smtp (e : event) : M unit :=
  emit e ;;
  fun w s =>
    match smtp_answer w (log s) with
    | None => (Ok tt, s)
    | Some x => (Raise x, s)
    end.

(** [getpass()] *)
Definition getpass : M str :=
  emit EGetpass ;; fun w s => (getpass_answer w (log s), s).

(** [BeautifulSoup(markup, "html.parser")] *)
Definition BeautifulSoup (markup : str) : M Soup.node :=
  fun w s => (Ok (html_parser w markup), s).

(* ------------------------------------------------------------------ *)
(** * Library calls the script relies on *)
(* ------------------------------------------------------------------ *)

(** [response.raise_for_status()] of requests: [HTTPError] for a status in
    400..599, nothing otherwise. *)
Definition http_error_msg (kind : str) (r : PageType) : str :=
  str_of_int (status_code r) ++ kind ++ reason r ++ py " for url: " ++ url r.

Definition http_error (r : PageType) : option exn :=
  if ((400 <=? status_code r) && (status_code r <? 500))%Z
  then Some (Exn HTTPError (http_error_msg (py " Client Error: ") r))
  else if ((500 <=? status_code r) && (status_code r <? 600))%Z
  then Some (Exn HTTPError (http_error_msg (py " Server Error: ") r))
  else None.

Definition raise_for_status (r : PageType) : M unit :=
  match http_error r with
  | Some e => raise e
  | None => ret tt
  end.

(** [msg[name] = value] on a message that has no such header yet: the
    default policy of [EmailMessage] refuses a value of more than one line
    and hands any other value to the header parser, which may raise as
    well. *)
Definition set_header (name value : str) (msg : EmailMessage) : M EmailMessage :=
  if (1 <? List.length (splitlines value))%nat
  then raise (Exn ValueError
                (py "Header values may not contain linefeed or carriage return characters"))
  else
    fun w s =>
      match header_answer w name value with
      | Some x => (Raise x, s)
      | None =>
          (Ok {| content := content msg; headers := headers msg ++ [(name, value)] |}, s)
      end.

(** The class [except SMTPServerDisconnected] catches. *)
Definition is_disconnected (e : exn) : bool :=
  match exn_cls e with
  | SMTPServerDisconnected => true
  | _ => false
  end.

(** [with smtplib.SMTP_SSL(...) as server: body], once the connection is
    made.  [SMTP.__exit__] sends QUIT whether the body raised or not; an
    [SMTPServerDisconnected] of it is swallowed, any other exception of it,
    the [SMTPResponseException] for a reply other than 221 among them, leaves
    the block in place of the exception of the body. *)
Definition SMTP_with {A} (body : M A) : M A :=
  fun w s =>
    let (r, s1) := body w s in
    let s2 := push s1 ESmtpQuit in
    match smtp_answer w (log s2) with
    | None => (r, s2)
    | Some x => if is_disconnected x then (r, s2) else (Raise x, s2)
    end.

(** [msg.set_content(body)] on a fresh message. *)
Definition set_content (body : str) : EmailMessage :=
  {| content := body; headers := [] |}.

(** [input(prompt)]: the next line of standard input, [EOFError] at its
    end. *)
Definition input_line (lines : list (result str)) : result str * list (result str) :=
  match lines with
  | [] => (Raise (Exn EOFError (py "EOF when reading a line")), [])
  | r :: rest => (r, rest)
  end.

(* ------------------------------------------------------------------ *)
(** * Configuration *)
(* ------------------------------------------------------------------ *)

(** The [mail] table of the configuration file. *)
Record MailCfg := {
  sender : str;
  mail_pass : str;
  recipient : str
}.

(** The configuration file: tables [teve] and [mail]. *)
Record Config := {
  teve_name : option str;
  teve_pass : option str;
  mail : MailCfg
}.

(* ------------------------------------------------------------------ *)
(** * The script *)
(* ------------------------------------------------------------------ *)

Definition _mail_error (cfg : MailCfg) (error_message subject : str)
    (page : option PageType) : M unit :=
  let sender := sender cfg in
  ask_smtp ESmtpConnect ;;
  SMTP_with
    (ask_smtp (ESmtpLogin sender (mail_pass cfg)) ;;
     let msg :=
       match page with
       | None => set_content error_message
       | Some p => set_content (format_two_paragraphs error_message (_page_text p))
       end in
     msg <- set_header (py "Subject") subject msg ;;
     msg <- set_header (py "From") sender msg ;;
     msg <- set_header (py "To") (recipient cfg) msg ;;
     ask_smtp (ESendMessage msg)).

Module TeveClubLink.

Definition HEADER : form :=
  [(py "User-Agent",
    py "Mozilla/5.0 (X11; Linux x86_64) AppleWebKit/537.36"
    ++ py " (KHTML, like Gecko) Chrome/51.0.2704.103 Safari/537.36")].
Definition SERVER_URL : str := py "https://teveclub.hu".
Definition TEVE_LINK : str := py "myteve.pet".
Definition TEACH_LINK : str := py "tanit.pet".
Definition LOGOUT_LINK : str := py "logout.pet".

(** The verbs of a [requests.Session]. *)
Definition session_methods : list (str * http_method) :=
  [(py "get", GET); (py "post", POST); (py "put", PUT);
   (py "delete", DELETE); (py "head", HEAD); (py "options", OPTIONS);
   (py "patch", PATCH)].

Fixpoint lookup_method (l : list (str * http_method)) (name : str) : option http_method :=
  match l with
  | [] => None
  | (k, m) :: l' => if str_eqb k name then Some m else lookup_method l' name
  end.

(** The [AttributeError] of [getattr] on an object without the
    attribute. *)
Definition no_attribute (session : option Session) (name : str) : exn :=
  Exn AttributeError
    (match session with
     | None => py "'NoneType' object has no attribute '"
     | Some _ => py "'Session' object has no attribute '"
     end ++ name ++ py "'").

(** [getattr(cls.SESSION, method)]: [None] has none of the verbs and a
    session has them all; for any other name the world tells whether the
    object has the attribute. *)
Definition getattr_SESSION (method : str) : M attribute :=
  session <- gets SESSION ;;
  match lookup_method session_methods method with
  | Some m =>
      match session with
      | None => raise (no_attribute session method)
      | Some _ => ret (Verb m)
      end
  | None =>
      fun w s =>
        if has_attribute w session method then (Ok (Other method), s)
        else (Raise (no_attribute session method), s)
  end.

(** [session_method(link_url, **params)] *)
Definition call (session_method : attribute) (link_url : str)
    (hdrs data : option form) : M PageType :=
  match session_method with
  | Verb m => ask_http (ERequest m link_url hdrs data)
  | Other name => ask_call (ECall name link_url hdrs data)
  end.

Definition request (link : option str) (use_headers : bool) (method : str)
    (data : option form) : M PageType :=
  session_method <- getattr_SESSION method ;;
  let server_url := SERVER_URL in
  let link_url :=
    match link with
    | None => server_url
    | Some l => format_slash server_url l
    end in
  let hdrs := if use_headers then Some HEADER else None in
  response <- call session_method link_url hdrs data ;;
  raise_for_status response ;;
  ret response.

Definition start_session : M unit :=
  emit EStartSession ;;
  set_SESSION (Some LiveSession).

Definition close_session : M unit :=
  emit ECloseSession ;;
  session <- gets SESSION ;;
  match session with
  | Some _ => emit ESessionExit
  | None => ret tt
  end.

End TeveClubLink.

Definition _ensure_login (mail_cfg : MailCfg) (response : PageType) : M unit :=
  let logged_in := _parse_login_status response in
  if truthy logged_in
  then println (py "Bent vagyunk! :)")
  else _mail_error mail_cfg (py "Nem sikerült bejelentkezni!?")
         (py "Automatikus belépési hiba!!!") (Some response).

(** The loop of [_get_name], one round per line read. *)
Fixpoint _get_name_loop (lines : list (result str)) (tr : trace)
  : result str * list (result str) * trace :=
  let tr1 := tr ++ [EInput (py "Teve neve: ")] in
  let again := EPrint (py "Kérlek adj meg egy igazi nevet" ++ [LF]) in
  match lines with
  | [] => (fst (input_line []), [], tr1)
  | Ok name :: rest =>
      match name with
      | [] => _get_name_loop rest (tr1 ++ [again])
      | _ => (Ok name, rest, tr1)
      end
  | Raise e :: rest =>
      match exn_cls e with
      | SyntaxError => _get_name_loop rest (tr1 ++ [again])
      | _ => (Raise e, rest, tr1)
      end
  end.

Definition _get_name : M str :=
  fun _ s =>
    let '(r, rest, tr) := _get_name_loop (stdin s) (log s) in
    (r, {| SESSION := SESSION s; LOGIN_FORM := LOGIN_FORM s;
           logged_in := logged_in s; stdin := rest; log := tr |}).

Definition _get_from_user_if_none (maybe_none_value : option str)
    (get_from_user_function : M str) : M str :=
  match maybe_none_value with
  | None => get_from_user_function
  | Some value => ret value
  end.

Module Teve.

Definition LOGIN_FORM_0 : form :=
  [(py "x", py "26"); (py "y", py "22"); (py "login", py "Gyere!")].
Definition NAME_FIELD : str := py "tevenev".
Definition PASSWORD_FIELD : str := py "pass".

(** The attributes of an instance that never change. *)
Record self_t := {
  name : option str;
  password : option str;
  mail_cfg : MailCfg
}.

Definition __init__ (config : Config) : M self_t :=
  set_logged_in false ;;
  ret {| name := teve_name config; password := teve_pass config;
         mail_cfg := mail config |}.

Definition __exit__ (self : self_t) : M unit :=
  li <- gets logged_in ;;
  (if li : bool then
     TeveClubLink.request (Some TeveClubLink.LOGOUT_LINK) true (py "get") None ;;
     set_logged_in false ;;
     println (py "Kijelentkeztem! :)")
   else ret tt) ;;
  TeveClubLink.close_session.

Definition __enter__ (self : self_t) : M unit :=
  try_except
    (TeveClubLink.start_session ;;
     v <- _get_from_user_if_none (name self) _get_name ;;
     f <- gets LOGIN_FORM ;;
     set_LOGIN_FORM (dict_set f NAME_FIELD v) ;;
     v <- _get_from_user_if_none (password self) getpass ;;
     f <- gets LOGIN_FORM ;;
     set_LOGIN_FORM (dict_set f PASSWORD_FIELD v) ;;
     print (py "Bejelentkezés... ") [] ;;
     f <- gets LOGIN_FORM ;;
     response <- TeveClubLink.request None true (py "post") (Some f) ;;
     raise_for_status response ;;
     _ensure_login (mail_cfg self) response ;;
     set_logged_in true)
    (fun e => __exit__ self ;; raise e).

Definition _max_option (soup : Soup.node) (name : str) : result Z :=
  match Soup.find_attrs soup (py "name") name with
  | None => Ok 0%Z
  | Some options =>
      match Builtins.comprehension
              (fun option => Builtins.int (Soup.get_text option))
              (Soup.find_all options (py "option")) with
      | Raise e => Raise e
      | Ok l => Builtins.max l
      end
  end.

Definition _print_page_error (page : PageType) : M unit :=
  println (py "ERROR: " ++ _page_text page).

Definition etet (self : self_t) : M unit :=
  print (py "Etetés... ") [] ;;
  response <- TeveClubLink.request (Some TeveClubLink.TEVE_LINK) true (py "get") None ;;
  soup <- BeautifulSoup (_page_text response) ;;
  max_kaja <- lift (_max_option soup (py "kaja")) ;;
  max_pia <- lift (_max_option soup (py "pia")) ;;
  if ((max_kaja =? 0) && (max_pia =? 0))%Z
  then println (py "OK (nem éhes és nem is szomjas)")
  else
    let form_data :=
      [(py "kaja", str_of_int max_kaja);
       (py "pia", str_of_int max_pia);
       (py "etet", py "Mehet!")] in
    response <- TeveClubLink.request (Some TeveClubLink.TEVE_LINK) true (py "post")
                  (Some form_data) ;;
    let success := _parse_feed_success response in
    if truthy success
    then println (py "OK")
    else
      _print_page_error response ;;
      _mail_error (mail_cfg self) (py "Nem sikerült az etetés!")
        (py "Automatikus etetési kalamajka!") (Some response).

Definition tanit (self : self_t) : M unit :=
  print (py "Tanítás... ") [] ;;
  let form_data :=
    [(py "farmdoit", py "tanit"); (py "learn", py "Tanulj teve!")] in
  response <- TeveClubLink.request (Some TeveClubLink.TEACH_LINK) true (py "post")
                (Some form_data) ;;
  let success := _parse_teach_success response in
  if truthy success
  then println (py "OK")
  else
    _print_page_error response ;;
    _mail_error (mail_cfg self) (py "Nem sikerült a tanítás!")
      (py "Automatikus tanítási fennforgattyú!") (Some response).

(** [with self: body]: [__exit__] returns [None], so an exception of the
    body is raised again after it; an exception of [__exit__] itself takes
    its place. *)
Definition with_ (self : self_t) (body : M unit) : M unit :=
  __enter__ self ;;
  fun w s =>
    match body w s with
    | (Ok _, s') => __exit__ self w s'
    | (Raise e, s') =>
        match __exit__ self w s' with
        | (Ok _, s'') => (Raise e, s'')
        | (Raise e', s'') => (Raise e', s'')
        end
    end.

End Teve.

(** The subject the top-level handler builds:
    ["Elpusztult az egész!!! ÁÁÁÁ!!!\n\n{}".format(exc)]. *)
Definition fatal_subject (exc : exn) : str :=
  format_two_paragraphs (py "Elpusztult az egész!!! ÁÁÁÁ!!!") (exn_str exc).

Definition fatal_message : str := py "Ismeretlen fatálas hiba történt!!!".

(** The workflow inside the [try] of the main block. *)
Definition workflow (config : Config) : M unit :=
  teve <- Teve.__init__ config ;;
  Teve.with_ teve (Teve.etet teve ;; Teve.tanit teve).

(** The main block, after the arguments and the configuration are read. *)
Definition main (config : Config) : M unit :=
  try_except
    (workflow config)
    (fun exc =>
       _mail_error (mail config) fatal_message (fatal_subject exc) None ;;
       raise exc).

(** The state the interpreter starts the main block in. *)
Definition initial_state (lines : list (result str)) : State :=
  {| SESSION := None; LOGIN_FORM := Teve.LOGIN_FORM_0; logged_in := false;
     stdin := lines; log := [] |}.

(* ================================================================== *)
(** * Vocabulary of the properties *)
(* ================================================================== *)

Local Open Scope Z_scope.

(** ** Observing a run *)

(** Requests made through a session method. *)
Definition is_request (e : event) : bool :=
  match e with ERequest _ _ _ _ => true | _ => false end.

(** Starting and releasing the session. *)
Definition is_session_event (e : event) : bool :=
  match e with
  | EStartSession | ECloseSession | ESessionExit => true
  | _ => false
  end.

(** The addresses the script talks to. *)
Definition login_url : str := TeveClubLink.SERVER_URL.

Definition pet_url : str :=
  format_slash TeveClubLink.SERVER_URL TeveClubLink.TEVE_LINK.

Definition teach_url : str :=
  format_slash TeveClubLink.SERVER_URL TeveClubLink.TEACH_LINK.

Definition logout_url : str :=
  format_slash TeveClubLink.SERVER_URL TeveClubLink.LOGOUT_LINK.

(** [link_url] in [request]. *)
Definition link_url_of (link : option str) : str :=
  match link with
  | None => TeveClubLink.SERVER_URL
  | Some l => format_slash TeveClubLink.SERVER_URL l
  end.

(** The call of the session method that [request] makes. *)
Definition request_event (m : http_method) (link : option str) (uh : bool)
    (data : option form) : event :=
  ERequest m (link_url_of link) (if uh then Some TeveClubLink.HEADER else None) data.

(** What the wrapper hands back for an answer of the session method. *)
Definition request_outcome (a : result PageType) : result PageType :=
  match a with
  | Ok r =>
      match http_error r with
      | Some x => Raise x
      | None => Ok r
      end
  | Raise x => Raise x
  end.

Definition method_is_get (m : http_method) : bool :=
  match m with GET => true | _ => false end.

(** The GET to the logout sub-link. *)
Definition is_logout_request (e : event) : bool :=
  match e with
  | ERequest m u _ _ => str_eqb u logout_url && method_is_get m
  | _ => false
  end.

(** A call of [close_session]. *)
Definition is_close_session (e : event) : bool :=
  match e with ECloseSession => true | _ => false end.

(** A call of [server.send_message]. *)
Definition is_send_message (e : event) : bool :=
  match e with ESendMessage _ => true | _ => false end.


Definition logout_event : event :=
  request_event GET (Some TeveClubLink.LOGOUT_LINK) true None.

(** How often a kind of event occurs in a trace. *)
Definition count (p : event -> bool) (tr : trace) : nat :=
  List.length (filter p tr).

(** The instance [Teve(config)] builds. *)
Definition self_of (config : Config) : Teve.self_t :=
  {| Teve.name := teve_name config; Teve.password := teve_pass config;
     Teve.mail_cfg := mail config |}.

Definition push_all (s : State) (evs : list event) : State :=
  fold_left push evs s.

(** The form the feed step submits. *)
Definition feed_form (max_kaja max_pia : Z) : form :=
  [(py "kaja", str_of_int max_kaja);
   (py "pia", str_of_int max_pia);
   (py "etet", py "Mehet!")].

(** The form the teach step submits. *)
Definition teach_form : form :=
  [(py "farmdoit", py "tanit"); (py "learn", py "Tanulj teve!")].

(** How the feed step begins, and the teach step. *)
Definition feed_begins : list event :=
  [EPrint (py "Etetés... ");
   request_event GET (Some TeveClubLink.TEVE_LINK) true None].

Definition teach_begins : list event :=
  [EPrint (py "Tanítás... ");
   request_event POST (Some TeveClubLink.TEACH_LINK) true (Some teach_form)].

(** The statements of [__enter__] that come before [_ensure_login]: the
    session is started, name and password are obtained and the login form
    is posted. *)
Definition login_step (self : Teve.self_t) : M PageType :=
  TeveClubLink.start_session ;;
  v <- _get_from_user_if_none (Teve.name self) _get_name ;;
  f <- gets LOGIN_FORM ;;
  set_LOGIN_FORM (dict_set f Teve.NAME_FIELD v) ;;
  v <- _get_from_user_if_none (Teve.password self) getpass ;;
  f <- gets LOGIN_FORM ;;
  set_LOGIN_FORM (dict_set f Teve.PASSWORD_FIELD v) ;;
  print (py "Bejelentkezés... ") [] ;;
  f <- gets LOGIN_FORM ;;
  response <- TeveClubLink.request None true (py "post") (Some f) ;;
  raise_for_status response ;;
  ret response.

(** A header value the message policy accepts. *)
Definition single_line (v : str) : bool :=
  negb (1 <? List.length (splitlines v))%nat.

(** The message [_mail_error] composes. *)
Definition mail_of (cfg : MailCfg) (error_message subject : str)
    (page : option PageType) : EmailMessage :=
  {| content :=
       match page with
       | None => error_message
       | Some p => format_two_paragraphs error_message (text p)
       end;
     headers := [(py "Subject", subject); (py "From", sender cfg);
                 (py "To", recipient cfg)] |}.

(** The message about a refused login. *)
Definition login_failure_mail (cfg : MailCfg) (response : PageType) : EmailMessage :=
  mail_of cfg (py "Nem sikerült bejelentkezni!?")
    (py "Automatikus belépési hiba!!!") (Some response).

(** The three calls of the body of [_mail_error] to the mail relay, and
    all four with the QUIT on leaving the [with] block. *)
Definition mail_calls (cfg : MailCfg) (msg : EmailMessage) : list event :=
  [ESmtpConnect; ESmtpLogin (sender cfg) (mail_pass cfg); ESendMessage msg].

Definition mail_events (cfg : MailCfg) (msg : EmailMessage) : list event :=
  mail_calls cfg msg ++ [ESmtpQuit].

(** An answer to QUIT that lets the [with] block end as its body did: no
    exception, or [SMTPServerDisconnected]. *)
Definition quit_passes (answer : option exn) : bool :=
  match answer with
  | None => true
  | Some x => is_disconnected x
  end.

(** The exception that leaves the [with] block when its body raised [e]. *)
Definition after_quit (answer : option exn) (e : exn) : exn :=
  match answer with
  | None => e
  | Some x => if is_disconnected x then e else x
  end.

(** The relay lets the three calls through, from trace [tr] on, and the
    QUIT after them passes. *)
Definition mail_goes_through (w : World) (tr : trace) (cfg : MailCfg)
    (msg : EmailMessage) : Prop :=
  smtp_answer w (tr ++ firstn 1 (mail_calls cfg msg)) = None
  /\ smtp_answer w (tr ++ firstn 2 (mail_calls cfg msg)) = None
  /\ smtp_answer w (tr ++ mail_calls cfg msg) = None
  /\ quit_passes (smtp_answer w (tr ++ mail_events cfg msg)) = true.

(** The exception of a header value of more than one line. *)
Definition header_error : exn :=
  Exn ValueError
    (py "Header values may not contain linefeed or carriage return characters").

(** What [msg[name] = value] raises, if anything. *)
Definition header_refusal (w : World) (name value : str) : option exn :=
  if single_line value then header_answer w name value else Some header_error.

(** The exception of the first of the three header assignments of
    [_mail_error] that raises. *)
Definition headers_refusal (w : World) (cfg : MailCfg) (subject : str) : option exn :=
  match header_refusal w (py "Subject") subject with
  | Some x => Some x
  | None =>
      match header_refusal w (py "From") (sender cfg) with
      | Some x => Some x
      | None => header_refusal w (py "To") (recipient cfg)
      end
  end.

(** The message policy and the header parser take subject, sender and
    recipient. *)
Definition headers_accepted (w : World) (cfg : MailCfg) (subject : str) : Prop :=
  headers_refusal w cfg subject = None.

(** What stops the body of the [with] block of [_mail_error] before it
    sends: the exception of the login at the relay (the trace given ends
    with that call), or else of a header assignment. *)
Definition stopped_before_sending (w : World) (tr : trace) (cfg : MailCfg)
    (subject : str) : option exn :=
  match smtp_answer w tr with
  | Some x => Some x
  | None => headers_refusal w cfg subject
  end.

(** The texts of the [option] elements below a control, converted. *)
Definition option_values (options : Soup.node) : result (list Z) :=
  Builtins.comprehension
    (fun option => Builtins.int (Soup.get_text option))
    (Soup.find_all options (py "option")).

(** [m] is the greatest element of [values]. *)
Definition is_maximum (m : Z) (values : list Z) : Prop :=
  In m values /\ Forall (fun v => v <= m) values.

(** ** Two statements as the specification words them *)

(** The teaching classifier as the specification words it: a boolean that is
    true exactly when the phrase occurs. *)
Definition teach_success_is_bool (response : PageType) : Prop :=
  exists b : bool,
    _parse_teach_success response = VBool b
    /\ (b = true <-> contains teach_success_pattern (text response)).




(** ** Frames *)

Definition no_request (e : event) : bool := negb (is_request e).

Definition any_event (e : event) : bool := true.

(** Anything but the logout request and the call of [close_session]. *)
Definition workflow_event (e : event) : bool :=
  negb (is_logout_request e) && negb (is_close_session e).

(** [s'] comes after [s] by a step that keeps the login flag and the
    session and records events satisfying [P] only. *)
Definition frame (P : event -> bool) (s s' : State) : Prop :=
  logged_in s' = logged_in s /\ SESSION s' = SESSION s
  /\ exists evs, log s' = log s ++ evs /\ forallb P evs = true.

(** A computation all of whose runs are such steps. *)
Definition quiet (P : event -> bool) {A} (m : M A) : Prop :=
  forall w s, frame P s (snd (m w s)).

(** A computation that leaves the session alone, records workflow events
    only and, when it returns, has set [logged_in]. *)
Definition sets_flag {A} (m : M A) : Prop :=
  forall w s,
    let r := m w s in
    SESSION (snd r) = SESSION s
    /\ logged_in (snd r) = (if is_ok (fst r) then true else logged_in s)
    /\ exists evs, log (snd r) = log s ++ evs /\ forallb workflow_event evs = true.

(** ** Concrete surroundings for the examples *)

(** A response with a status, an address and a body. *)
Definition page (code : Z) (link : str) (body : str) : PageType :=
  {| status_code := code; reason := py "OK"; url := link; text := body |}.

(** The request a trace ends with. *)
Definition last_request (tr : trace) : option (http_method * str) :=
  match rev tr with
  | ERequest m u _ _ :: _ => Some (m, u)
  | _ => None
  end.

(** The configuration of the example in the help text. *)
Definition demo_config : Config :=
  {| teve_name := Some (py "Macska");
     teve_pass := Some (py "SoseTudodMeg");
     mail := {| sender := py "xyz@mail.com";
                mail_pass := py "NemMondomEl";
                recipient := py "mokus@mail.com" |} |}.

Definition demo_self : Teve.self_t := self_of demo_config.

(** [<option value=v>v</option>], [<select name=...>] and a document. *)
Definition option_tag (v : str) : Soup.node :=
  Soup.Tag (py "option") [(py "value", v)] [Soup.NavigableString v].

Definition select_tag (name : str) (options : list Soup.node) : Soup.node :=
  Soup.Tag (py "select") [(py "name", name)] options.

Definition document (contents : list Soup.node) : Soup.node :=
  Soup.Tag (py "[document]") [] contents.

(** A pet page that offers food 1..3 and water 1..2. *)
Definition hungry_page : Soup.node :=
  document
    [Soup.Tag (py "form") [(py "name", py "etet")]
       [select_tag (py "kaja") [option_tag (py "1"); option_tag (py "2"); option_tag (py "3")];
        select_tag (py "pia") [option_tag (py "1"); option_tag (py "2")]]].

(** The food control of [hungry_page]. *)
Definition kaja_select : Soup.node :=
  select_tag (py "kaja") [option_tag (py "1"); option_tag (py "2"); option_tag (py "3")].

(** A pet page whose food control is there but empty. *)
Definition empty_control_page : Soup.node :=
  document
    [Soup.Tag (py "form") [(py "name", py "etet")]
       [select_tag (py "kaja") [];
        select_tag (py "pia") [option_tag (py "1")]]].

(** A pet page without feeding controls. *)
Definition sated_page : Soup.node :=
  document [Soup.Tag (py "p") [] [Soup.NavigableString (py "Jóllakott a tevéd.")]].

(** The header parser as the examples meet it: it takes their subjects and
    addresses, and on the address "<" it raises [IndexError]. *)
Definition known_header_answer (name value : str) : option exn :=
  if (str_eqb name (py "From") || str_eqb name (py "To")) && str_eqb value (py "<")
  then Some (Exn (OtherException (py "IndexError")) (py "string index out of range"))
  else None.

(** A site where everything works and the camel has been taught.  The runs
    of the examples look up the verbs [get] and [post] only. *)
Definition friendly_world : World :=
  {| html_parser := fun _ => hungry_page;
     http_answer := fun tr =>
       match last_request tr with
       | Some (_, u) => Ok (page 200 u (py "A tevédet ma már tanítottad"))
       | None => Raise (Exn ConnectionError [])
       end;
     smtp_answer := fun _ => None;
     getpass_answer := fun _ => Ok (py "SoseTudodMeg");
     header_answer := known_header_answer;
     has_attribute := fun _ _ => false;
     call_answer := fun _ => Raise (Exn (OtherException (py "TypeError")) []) |}.

(** The same site, answering 304 to every request. *)
Definition not_modified_world : World :=
  {| html_parser := html_parser friendly_world;
     http_answer := fun tr =>
       match last_request tr with
       | Some (_, u) => Ok (page 304 u [])
       | None => Raise (Exn ConnectionError [])
       end;
     smtp_answer := fun _ => None;
     getpass_answer := getpass_answer friendly_world;
     header_answer := header_answer friendly_world;
     has_attribute := has_attribute friendly_world;
     call_answer := call_answer friendly_world |}.

(** A site that refuses the login and serves its pages all the same. *)
Definition refused_login_world : World :=
  {| html_parser := html_parser friendly_world;
     http_answer := fun tr =>
       match last_request tr with
       | Some (POST, u) =>
           if str_eqb u login_url then Ok (page 200 u (py "Valami baj van!"))
           else Ok (page 200 u (py "A tevédet ma már tanítottad"))
       | Some (_, u) => Ok (page 200 u (py "A tevédet ma már tanítottad"))
       | None => Raise (Exn ConnectionError [])
       end;
     smtp_answer := fun _ => None;
     getpass_answer := getpass_answer friendly_world;
     header_answer := header_answer friendly_world;
     has_attribute := has_attribute friendly_world;
     call_answer := call_answer friendly_world |}.

(** The site that refuses the login, with a mail relay that cannot be
    reached. *)
Definition relay_down_world : World :=
  {| html_parser := html_parser friendly_world;
     http_answer := http_answer refused_login_world;
     smtp_answer := fun _ =>
       Some (Exn (OtherException (py "ConnectionRefusedError"))
               (py "[Errno 111] Connection refused"));
     getpass_answer := getpass_answer friendly_world;
     header_answer := header_answer friendly_world;
     has_attribute := has_attribute friendly_world;
     call_answer := call_answer friendly_world |}.

(** A network that goes down right after the login. *)
Definition offline_after_login_world : World :=
  {| html_parser := html_parser friendly_world;
     http_answer := fun tr =>
       match last_request tr with
       | Some (POST, u) =>
           if str_eqb u login_url then Ok (page 200 u (py "Szia!"))
           else Raise (Exn ConnectionError (py "Connection aborted."))
       | _ => Raise (Exn ConnectionError (py "Connection aborted."))
       end;
     smtp_answer := fun _ => None;
     getpass_answer := getpass_answer friendly_world;
     header_answer := header_answer friendly_world;
     has_attribute := has_attribute friendly_world;
     call_answer := call_answer friendly_world |}.

(** A site whose pet page answers 500. *)
Definition broken_pet_page_world : World :=
  {| html_parser := html_parser friendly_world;
     http_answer := fun tr =>
       match last_request tr with
       | Some (GET, u) =>
           if str_eqb u pet_url then Ok (page 500 u (py "Internal Server Error"))
           else Ok (page 200 u (py "Szia!"))
       | Some (_, u) => Ok (page 200 u (py "Szia!"))
       | None => Raise (Exn ConnectionError [])
       end;
     smtp_answer := fun _ => None;
     getpass_answer := getpass_answer friendly_world;
     header_answer := header_answer friendly_world;
     has_attribute := has_attribute friendly_world;
     call_answer := call_answer friendly_world |}.

(** The friendly site, with that page. *)
Definition sated_world : World :=
  {| html_parser := fun _ => sated_page;
     http_answer := http_answer friendly_world;
     smtp_answer := smtp_answer friendly_world;
     getpass_answer := getpass_answer friendly_world;
     header_answer := header_answer friendly_world;
     has_attribute := has_attribute friendly_world;
     call_answer := call_answer friendly_world |}.

(** The friendly site, with the page whose food control is empty. *)
Definition empty_control_world : World :=
  {| html_parser := fun _ => empty_control_page;
     http_answer := http_answer friendly_world;
     smtp_answer := smtp_answer friendly_world;
     getpass_answer := getpass_answer friendly_world;
     header_answer := header_answer friendly_world;
     has_attribute := has_attribute friendly_world;
     call_answer := call_answer friendly_world |}.

(** The state once the session is started. *)
Definition live_state : State :=
  snd (TeveClubLink.start_session friendly_world (initial_state [])).

(** The state the feed step fetches the pet page in, and the one it has
    fetched it in. *)
Definition entered_state (w : World) : State :=
  snd (Teve.__enter__ demo_self w (initial_state [])).

Definition fetched_state (w : World) : State :=
  snd (TeveClubLink.request (Some TeveClubLink.TEVE_LINK) true (py "get") None w
         (snd (print (py "Etetés... ") [] w (entered_state w)))).

(** What the friendly site answers for the pet page. *)
Definition pet_page_response : PageType :=
  page 200 pet_url (py "A tevédet ma már tanítottad").

(** What the refusing site answers to the login. *)
Definition refused_login_response : PageType :=
  page 200 login_url (py "Valami baj van!").

(** A response whose body is the phrase of the teaching classifier. *)
Definition already_taught_page : PageType :=
  {| status_code := 200; reason := py "OK";
     url := py "https://teveclub.hu/tanit.pet";
     text := py "A tevédet ma már tanítottad" |}.

(** ** Vocabulary of the further properties *)

(** The two literal parts of the pattern of the feed classifier. *)
Definition feed_offer_head : str := py "Adok neki ".

Definition feed_offer_tail : str := py " napra elég ennivalót".

(** The body offers to feed again: the two parts occur in this order with
    no line feed between them. *)
Definition offers_feeding (body : str) : Prop :=
  exists pre mid post,
    body = pre ++ feed_offer_head ++ mid ++ feed_offer_tail ++ post
    /\ ~ In LF mid.

(** The prompt of [_get_name] and its complaint about an empty answer. *)
Definition name_prompt : event := EInput (py "Teve neve: ").

Definition name_complaint : event :=
  EPrint (py "Kérlek adj meg egy igazi nevet" ++ [LF]).

(** A line [_get_name] does not accept: an empty answer, or a
    [SyntaxError] of [input]. *)
Definition skipped_line (r : result str) : bool :=
  match r with
  | Ok [] => true
  | Ok (_ :: _) => false
  | Raise e =>
      match exn_cls e with
      | SyntaxError => true
      | _ => false
      end
  end.

(** What [_get_name] shows for [n] lines it does not accept. *)
Fixpoint rounds (n : nat) : list event :=
  match n with
  | O => []
  | S n' => name_prompt :: name_complaint :: rounds n'
  end.

(** The state after reading from standard input. *)
Definition after_input (s : State) (rest : list (result str)) (tr : trace) : State :=
  {| SESSION := SESSION s; LOGIN_FORM := LOGIN_FORM s;
     logged_in := logged_in s; stdin := rest; log := tr |}.

Definition three_answers : list (result str) :=
  [Ok []; Raise (Exn SyntaxError []); Ok (py "Macska"); Ok (py "Kutya")].

(** The login form after [__enter__] has put name and password into it. *)
Definition login_form_of (f : form) (n p : str) : form :=
  dict_set (dict_set f Teve.NAME_FIELD n) Teve.PASSWORD_FIELD p.

(** How the entry step begins when the configuration gives both name and
    password. *)
Definition login_begins (f : form) (n p : str) : list event :=
  [EStartSession;
   EPrint (py "Bejelentkezés... ");
   ERequest POST login_url (Some TeveClubLink.HEADER) (Some (login_form_of f n p))].

(** The greeting after an accepted login. *)
Definition login_greeting : event := EPrint (py "Bent vagyunk! :)" ++ [LF]).

(** The state in which the login form has been posted. *)
Definition login_posted (s : State) (n p : str) : State :=
  {| SESSION := Some LiveSession;
     LOGIN_FORM := login_form_of (LOGIN_FORM s) n p;
     logged_in := logged_in s;
     stdin := stdin s;
     log := log s ++ login_begins (LOGIN_FORM s) n p |}.

(** What the steps print. *)
Definition ok_line : event := EPrint (py "OK" ++ [LF]).

Definition error_line (page : PageType) : event :=
  EPrint ((py "ERROR: " ++ text page) ++ [LF]).

(** The messages about a failed teaching and a failed feeding. *)
Definition teach_failure_mail (cfg : MailCfg) (response : PageType) : EmailMessage :=
  mail_of cfg (py "Nem sikerült a tanítás!")
    (py "Automatikus tanítási fennforgattyú!") (Some response).

Definition feed_failure_mail (cfg : MailCfg) (response : PageType) : EmailMessage :=
  mail_of cfg (py "Nem sikerült az etetés!")
    (py "Automatikus etetési kalamajka!") (Some response).

(** The POST of the feed form. *)
Definition feed_post (max_kaja max_pia : Z) : event :=
  request_event POST (Some TeveClubLink.TEVE_LINK) true
    (Some (feed_form max_kaja max_pia)).

(** The farewell of [__exit__]. *)
Definition goodbye_line : event := EPrint (py "Kijelentkeztem! :)" ++ [LF]).

(** The trace of a run in which everything works, up to the feed request,
    up to the teach request, up to the logout request, and whole. *)
Definition trace_to_feed (n p : str) : trace :=
  login_begins Teve.LOGIN_FORM_0 n p ++ [login_greeting] ++ feed_begins.

Definition trace_to_teach (n p : str) (k q : Z) : trace :=
  trace_to_feed n p ++ [feed_post k q; ok_line] ++ teach_begins.

Definition trace_to_logout (n p : str) (k q : Z) : trace :=
  trace_to_teach n p k q ++ [ok_line; logout_event].

Definition whole_trace (n p : str) (k q : Z) : trace :=
  trace_to_logout n p k q ++ [goodbye_line; ECloseSession; ESessionExit].

(** An instance without a name in its configuration. *)
Definition nameless_self : Teve.self_t :=
  {| Teve.name := None; Teve.password := Some (py "SoseTudodMeg");
     Teve.mail_cfg := mail demo_config |}.

(** A site that goes on offering food after the feed form. *)
Definition still_hungry_world : World :=
  {| html_parser := html_parser friendly_world;
     http_answer := fun tr =>
       match last_request tr with
       | Some (POST, u) =>
           if str_eqb u pet_url
           then Ok (page 200 u (py "Adok neki 2 napra elég ennivalót"))
           else Ok (page 200 u (py "Szia!"))
       | Some (_, u) => Ok (page 200 u (py "Szia!"))
       | None => Raise (Exn ConnectionError [])
       end;
     smtp_answer := fun _ => None;
     getpass_answer := getpass_answer friendly_world;
     header_answer := header_answer friendly_world;
     has_attribute := has_attribute friendly_world;
     call_answer := call_answer friendly_world |}.

(** A food control whose first option is the Arabic-Indic digit three and
    whose second is no number and ends with a line feed. *)
Definition odd_select : Soup.node :=
  select_tag (py "kaja")
    [option_tag (py "٣"); option_tag (py "sok" ++ [LF]); option_tag (py "3")].

Definition odd_page : Soup.node := document [odd_select].

(** What the friendly site answers at an address. *)
Definition friendly_answer (link : str) : PageType :=
  page 200 link (py "A tevédet ma már tanítottad").

Definition greeting_page (link : str) : PageType := page 200 link (py "Szia!").

Definition offer_page : PageType :=
  page 200 pet_url (py "Adok neki 2 napra elég ennivalót").

(* ================================================================== *)
(** * Properties *)
(* ================================================================== *)

(** ** Strings and patterns *)

Section Patterns.

Import Re.

Lemma match_here_literal_prefix (s post : str) :
  match_here (literal s) (s ++ post) = Some (List.length s).
Proof.
  induction s as [|c s IH]; simpl; [reflexivity|].
  rewrite N.eqb_refl, IH. reflexivity.
Qed.

Lemma match_here_literal_inv (s t : str) (n : nat) :
  match_here (literal s) t = Some n ->
  n = List.length s /\ exists post, t = s ++ post.
Proof.
  revert t n. induction s as [|c s IH]; simpl; intros t n H.
  - injection H as <-. split; [reflexivity|]. now exists t.
  - destruct t as [|x t]; [discriminate|].
    destruct (N.eqb_spec c x) as [->|_]; [|discriminate].
    destruct (match_here (literal s) t) as [k|] eqn:E; [|discriminate].
    injection H as <-. destruct (IH _ _ E) as [-> [post ->]].
    split; [reflexivity|]. now exists post.
Qed.

Lemma search_from_literal_found (s pre post : str) (i : nat) :
  search_from (literal s) (pre ++ s ++ post) i <> None.
Proof.
  revert i. induction pre as [|c pre IH]; intros i; simpl.
  - destruct (s ++ post) eqn:E; simpl;
      rewrite <- E, match_here_literal_prefix; discriminate.
  - destruct (match_here (literal s) (c :: pre ++ s ++ post)); [discriminate|].
    apply IH.
Qed.

Lemma search_from_literal_contains (s t : str) (i : nat) (m : Match) :
  search_from (literal s) t i = Some m -> contains s t.
Proof.
  revert i. induction t as [|c t IH]; intros i; simpl.
  - destruct (match_here (literal s) []) as [n|] eqn:E; [|discriminate].
    intros _. destruct (match_here_literal_inv _ _ _ E) as [_ [post Hp]].
    exists [], post. exact Hp.
  - destruct (match_here (literal s) (c :: t)) as [n|] eqn:E.
    + intros _. destruct (match_here_literal_inv _ _ _ E) as [_ [post Hp]].
      exists [], post. exact Hp.
    + intros H. destruct (IH _ H) as [pre [post ->]].
      now exists (c :: pre), post.
Qed.

(** Searching for a pattern without metacharacters is a substring test. *)
Lemma search_literal (pattern t : str) :
  parse pattern = literal pattern ->
  (search pattern t <> None <-> contains pattern t).
Proof.
  intros Hp. unfold search. rewrite Hp. split.
  - destruct (search_from (literal pattern) t 0) eqn:E; [|congruence].
    intros _. eapply search_from_literal_contains; eauto.
  - intros [pre [post ->]]. apply search_from_literal_found.
Qed.

Lemma login_failure_pattern_literal :
  parse login_failure_pattern = literal login_failure_pattern.
Proof. vm_compute. reflexivity. Qed.

Lemma teach_success_pattern_literal :
  parse teach_success_pattern = literal teach_success_pattern.
Proof. vm_compute. reflexivity. Qed.

End Patterns.

(** C8.  For every response the login classifier returns [False] exactly
    when the body contains the failure phrase "Valami baj van!" and [True]
    exactly when it does not.  The classifier is a function of the body
    text alone: it reads no state and records no event. *)
Theorem login_status_false_iff_failure_phrase (response : PageType) :
  (_parse_login_status response = VBool false
   <-> contains login_failure_pattern (text response))
  /\ (_parse_login_status response = VBool true
      <-> ~ contains login_failure_pattern (text response)).
Proof.
  pose proof (search_literal _ (text response) login_failure_pattern_literal) as H.
  unfold _parse_login_status, _page_text, py_not.
  destruct (Re.search login_failure_pattern (text response)) as [m|]; simpl; split; split.
  - intros _. apply H. discriminate.
  - reflexivity.
  - discriminate.
  - intros Hn. exfalso. apply Hn, H. discriminate.
  - discriminate.
  - intros Hc. apply H in Hc. congruence.
  - intros _ Hc. apply H in Hc. congruence.
  - reflexivity.
Qed.

(** C9, as stated, fails: on a body that is the phrase itself the classifier
    returns the match object of [re.search], not a boolean. *)
Lemma teach_success_not_bool_counterexample :
  _parse_teach_success already_taught_page
    = VMatch {| Re.m_start := 0; Re.m_end := 27 |}
  /\ ~ teach_success_is_bool already_taught_page.
Proof.
  assert (E : _parse_teach_success already_taught_page
              = VMatch {| Re.m_start := 0; Re.m_end := 27 |})
    by (vm_compute; reflexivity).
  split; [exact E|].
  intros [b [Hb _]]. rewrite E in Hb. discriminate.
Qed.

(** C9, amended.  For every response the teaching classifier returns what
    [re.search] returns, a match object or [None] and never a boolean; its
    truth value is true exactly when the body contains the phrase
    "A tevédet ma már tanítottad". *)
Theorem teach_success_truthy_iff_phrase (response : PageType) :
  (truthy (_parse_teach_success response) = true
   <-> contains teach_success_pattern (text response))
  /\ ((exists m, _parse_teach_success response = VMatch m)
      \/ _parse_teach_success response = VNone)
  /\ (forall b, _parse_teach_success response <> VBool b).
Proof.
  pose proof (search_literal _ (text response) teach_success_pattern_literal) as H.
  unfold _parse_teach_success, _page_text.
  destruct (Re.search teach_success_pattern (text response)) as [m|]; simpl.
  - split; [|split].
    + split; [intros _; apply H; discriminate | reflexivity].
    + left. now exists m.
    + discriminate.
  - split; [|split].
    + split; [discriminate | intros Hc; apply H in Hc; congruence].
    + now right.
    + discriminate.
Qed.

(** ** The maximum option *)

Lemma fold_left_max_spec (l : list Z) (x : Z) :
  let m := fold_left Z.max l x in
  In m (x :: l) /\ Forall (fun v => v <= m) (x :: l).
Proof.
  revert x. induction l as [|y l IH]; intros x; simpl.
  - split; [now left|]. constructor; [lia|constructor].
  - destruct (IH (Z.max x y)) as [Hin Hall]. simpl in Hin.
    inversion Hall as [|? ? Hm Hl]; subst. split.
    + destruct Hin as [Hin|Hin]; [|now right; right].
      rewrite <- Hin. destruct (Z.max_spec x y) as [[_ ->]|[_ ->]]; auto.
    + constructor; [lia|]. constructor; [lia|exact Hl].
Qed.

(** C3.  When the page has no element whose [name] attribute is the given
    name, the computed value is 0.  When it has one (the first in document
    order is taken) and the texts of its [option] elements all convert to
    integers, at least one of them, the computed value is the greatest of
    these integers. *)
Theorem max_option_is_maximum (soup : Soup.node) (name : str) :
  (Soup.find_attrs soup (py "name") name = None ->
   Teve._max_option soup name = Ok 0)
  /\ (forall options values,
        Soup.find_attrs soup (py "name") name = Some options ->
        option_values options = Ok values ->
        values <> [] ->
        exists m, Teve._max_option soup name = Ok m /\ is_maximum m values).
Proof.
  unfold Teve._max_option, option_values. split.
  - intros ->. reflexivity.
  - intros options values -> -> Hne.
    destruct values as [|x l]; [congruence|]. simpl.
    exists (fold_left Z.max l x). split; [reflexivity|].
    apply fold_left_max_spec.
Qed.

(** ** Frames: what a step of the workflow may touch *)

Section Frames.

Variable P : event -> bool.

Lemma frame_refl (s : State) : frame P s s.
Proof.
  repeat split. exists []. now rewrite app_nil_r.
Qed.

Lemma frame_trans (s1 s2 s3 : State) : frame P s1 s2 -> frame P s2 s3 -> frame P s1 s3.
Proof.
  intros (Hl1 & Hs1 & evs1 & He1 & Hp1) (Hl2 & Hs2 & evs2 & He2 & Hp2).
  split; [congruence|]. split; [congruence|].
  exists (evs1 ++ evs2). rewrite He2, He1, <- app_assoc. split; [reflexivity|].
  rewrite forallb_app, Hp1, Hp2. reflexivity.
Qed.

Lemma quiet_ret {A} (a : A) : quiet P (ret a).
Proof. intros w s. apply frame_refl. Qed.

Lemma quiet_raise {A} (e : exn) : quiet P (@raise A e).
Proof. intros w s. apply frame_refl. Qed.

Lemma quiet_lift {A} (r : result A) : quiet P (lift r).
Proof. intros w s. apply frame_refl. Qed.

Lemma quiet_gets {A} (f : State -> A) : quiet P (gets f).
Proof. intros w s. apply frame_refl. Qed.

Lemma quiet_bind {A B} (m : M A) (k : A -> M B) :
  quiet P m -> (forall a, quiet P (k a)) -> quiet P (bind m k).
Proof.
  intros Hm Hk w s. unfold bind. specialize (Hm w s).
  destruct (m w s) as [[a|e] s1]; simpl in *; [|exact Hm].
  eapply frame_trans; [exact Hm|apply Hk].
Qed.

Lemma quiet_try_except {A} (m : M A) (h : exn -> M A) :
  quiet P m -> (forall e, quiet P (h e)) -> quiet P (try_except m h).
Proof.
  intros Hm Hh w s. unfold try_except. specialize (Hm w s).
  destruct (m w s) as [[a|e] s1]; simpl in *; [exact Hm|].
  eapply frame_trans; [exact Hm|apply Hh].
Qed.

Lemma quiet_emit (e : event) : P e = true -> quiet P (emit e).
Proof.
  intros He w s. repeat split. exists [e]. simpl. now rewrite He.
Qed.

Hypothesis P_other :
  forall e, is_request e = false -> is_session_event e = false -> P e = true.

Lemma quiet_print (s e : str) : quiet P (print s e).
Proof. apply quiet_emit, P_other; reflexivity. Qed.

Lemma quiet_println (s : str) : quiet P (println s).
Proof. apply quiet_print. Qed.

Lemma quiet_set_LOGIN_FORM (f : form) : quiet P (set_LOGIN_FORM f).
Proof. intros w s. repeat split. exists []. simpl. now rewrite app_nil_r. Qed.

Lemma quiet_BeautifulSoup (markup : str) : quiet P (BeautifulSoup markup).
Proof. intros w s. apply frame_refl. Qed.

Lemma quiet_answer {A} (f : World -> trace -> result A) :
  quiet P (fun w s => (f w (log s), s)).
Proof. intros w s. apply frame_refl. Qed.

Lemma quiet_ask_http (e : event) : P e = true -> quiet P (ask_http e).
Proof.
  intros He. apply quiet_bind; [now apply quiet_emit|].
  intros _. apply (quiet_answer http_answer).
Qed.

Lemma quiet_ask_smtp (e : event) :
  is_request e = false -> is_session_event e = false -> quiet P (ask_smtp e).
Proof.
  intros H1 H2. apply quiet_bind; [apply quiet_emit, P_other; assumption|].
  intros _ w s. simpl. destruct (smtp_answer w (log s)); apply frame_refl.
Qed.

Lemma quiet_getpass : quiet P getpass.
Proof.
  apply quiet_bind; [apply quiet_emit, P_other; reflexivity|].
  intros _. apply (quiet_answer getpass_answer).
Qed.

Lemma quiet_raise_for_status (r : PageType) : quiet P (raise_for_status r).
Proof.
  unfold raise_for_status.
  destruct (http_error r); [apply quiet_raise|apply quiet_ret].
Qed.

Lemma quiet_set_header (n v : str) (msg : EmailMessage) : quiet P (set_header n v msg).
Proof.
  unfold set_header. destruct (_ <? _)%nat; [apply quiet_raise|].
  intros w s. destruct (header_answer w n v); apply frame_refl.
Qed.

Lemma quiet_SMTP_with {A} (body : M A) : quiet P body -> quiet P (SMTP_with body).
Proof.
  intros Hb w s. unfold SMTP_with. specialize (Hb w s).
  destruct (body w s) as [r s1]. cbn [snd] in Hb.
  assert (Hq : frame P s1 (push s1 ESmtpQuit)).
  { repeat split. exists [ESmtpQuit]. split; [reflexivity|].
    cbn [forallb]. rewrite P_other; reflexivity. }
  destruct (smtp_answer w (log (push s1 ESmtpQuit))) as [x|];
    [destruct (is_disconnected x)|]; cbn [snd];
    (eapply frame_trans; [exact Hb|exact Hq]).
Qed.

Lemma quiet_mail_error (cfg : MailCfg) (m subj : str) (page : option PageType) :
  quiet P (_mail_error cfg m subj page).
Proof.
  unfold _mail_error.
  apply quiet_bind; [apply quiet_ask_smtp; reflexivity|]. intros _.
  apply quiet_SMTP_with.
  apply quiet_bind; [apply quiet_ask_smtp; reflexivity|]. intros _.
  apply quiet_bind; [apply quiet_set_header|]. intros m1.
  apply quiet_bind; [apply quiet_set_header|]. intros m2.
  apply quiet_bind; [apply quiet_set_header|]. intros m3.
  apply quiet_ask_smtp; reflexivity.
Qed.

Lemma quiet_getattr_SESSION (method : str) :
  quiet P (TeveClubLink.getattr_SESSION method).
Proof.
  unfold TeveClubLink.getattr_SESSION.
  apply quiet_bind; [apply quiet_gets|].
  intros session. destruct (TeveClubLink.lookup_method _ _).
  - destruct session; [apply quiet_ret|apply quiet_raise].
  - intros w s. destruct (has_attribute w session method); apply frame_refl.
Qed.

Lemma quiet_call (a : attribute) (link_url : str) (hdrs data : option form) :
  (forall m, P (ERequest m link_url hdrs data) = true) ->
  quiet P (TeveClubLink.call a link_url hdrs data).
Proof.
  intros Hp. destruct a as [m|name]; cbn [TeveClubLink.call].
  - apply quiet_ask_http, Hp.
  - apply quiet_bind; [apply quiet_emit, P_other; reflexivity|].
    intros _. apply (quiet_answer call_answer).
Qed.

Lemma quiet_request (link : option str) (uh : bool) (method : str)
    (data : option form) :
  (forall m h, P (ERequest m (link_url_of link) h data) = true) ->
  quiet P (TeveClubLink.request link uh method data).
Proof.
  intros Hp. unfold TeveClubLink.request.
  apply quiet_bind; [apply quiet_getattr_SESSION|]. intros m.
  apply quiet_bind; [apply quiet_call; intros; apply Hp|]. intros r.
  apply quiet_bind; [apply quiet_raise_for_status|]. intros _. apply quiet_ret.
Qed.

Lemma quiet_ensure_login (cfg : MailCfg) (r : PageType) : quiet P (_ensure_login cfg r).
Proof.
  unfold _ensure_login. destruct (truthy _);
    [apply quiet_println|apply quiet_mail_error].
Qed.

Lemma get_name_loop_extends (lines : list (result str)) (tr : trace) :
  exists evs, snd (_get_name_loop lines tr) = tr ++ evs /\ forallb P evs = true.
Proof.
  revert tr. induction lines as [|[name|e] rest IH]; intros tr.
  - eexists. split; [reflexivity|]. cbn [forallb]. rewrite P_other; reflexivity.
  - destruct name as [|c name].
    + cbn [_get_name_loop]. edestruct IH as (evs & He & Hp). rewrite He.
      eexists. rewrite <- !app_assoc. split; [reflexivity|].
      cbn [forallb app]. rewrite !P_other by reflexivity. exact Hp.
    + eexists. split; [reflexivity|]. cbn [forallb]. rewrite P_other; reflexivity.
  - cbn [_get_name_loop]. destruct (exn_cls e);
      try (eexists; split; [reflexivity|]; cbn [forallb];
           rewrite P_other; reflexivity).
    edestruct IH as (evs & He & Hp). rewrite He.
    eexists. rewrite <- !app_assoc. split; [reflexivity|].
    cbn [forallb app]. rewrite !P_other by reflexivity. exact Hp.
Qed.

Lemma quiet_get_name : quiet P _get_name.
Proof.
  intros w s. unfold _get_name.
  pose proof (get_name_loop_extends (stdin s) (log s)) as H.
  destruct (_get_name_loop (stdin s) (log s)) as [[r rest] tr].
  simpl in *. repeat split. exact H.
Qed.

Lemma quiet_get_from_user_if_none (v : option str) (f : M str) :
  quiet P f -> quiet P (_get_from_user_if_none v f).
Proof. intros Hf. destruct v; [apply quiet_ret|exact Hf]. Qed.

Lemma quiet_print_page_error (page : PageType) : quiet P (Teve._print_page_error page).
Proof. apply quiet_println. Qed.

Lemma quiet_etet (self : Teve.self_t) :
  (forall m h d, P (ERequest m pet_url h d) = true) ->
  quiet P (Teve.etet self).
Proof.
  intros Hp. unfold Teve.etet.
  apply quiet_bind; [apply quiet_print|]. intros _.
  apply quiet_bind; [apply quiet_request; intros; apply Hp|]. intros r.
  apply quiet_bind; [apply quiet_BeautifulSoup|]. intros soup.
  apply quiet_bind; [apply quiet_lift|]. intros k.
  apply quiet_bind; [apply quiet_lift|]. intros p.
  destruct (_ && _)%bool; [apply quiet_println|].
  apply quiet_bind; [apply quiet_request; intros; apply Hp|]. intros r'.
  destruct (truthy _); [apply quiet_println|].
  apply quiet_bind; [apply quiet_print_page_error|]. intros _.
  apply quiet_mail_error.
Qed.

Lemma quiet_tanit (self : Teve.self_t) :
  (forall m h d, P (ERequest m teach_url h d) = true) ->
  quiet P (Teve.tanit self).
Proof.
  intros Hp. unfold Teve.tanit.
  apply quiet_bind; [apply quiet_print|]. intros _.
  apply quiet_bind; [apply quiet_request; intros; apply Hp|]. intros r.
  destruct (truthy _); [apply quiet_println|].
  apply quiet_bind; [apply quiet_print_page_error|]. intros _.
  apply quiet_mail_error.
Qed.

End Frames.

(** ** Requests, entry and exit *)

Lemma lookup_get :
  TeveClubLink.lookup_method TeveClubLink.session_methods (py "get") = Some GET.
Proof. vm_compute. reflexivity. Qed.

Lemma lookup_post :
  TeveClubLink.lookup_method TeveClubLink.session_methods (py "post") = Some POST.
Proof. vm_compute. reflexivity. Qed.

Lemma request_eq link uh method data m w s :
  SESSION s <> None ->
  TeveClubLink.lookup_method TeveClubLink.session_methods method = Some m ->
  TeveClubLink.request link uh method data w s
  = let s1 := push s (request_event m link uh data) in
    (request_outcome (http_answer w (log s1)), s1).
Proof.
  intros Hs Hm.
  unfold TeveClubLink.request, TeveClubLink.getattr_SESSION, bind, gets.
  rewrite Hm. destruct (SESSION s) as [x|]; [|congruence].
  unfold ret, TeveClubLink.call, ask_http, bind, emit, raise_for_status,
    request_event, link_url_of.
  cbv zeta.
  destruct (http_answer w _) as [r|y]; [|reflexivity].
  simpl. destruct (http_error r); reflexivity.
Qed.

Lemma close_session_eq w s :
  TeveClubLink.close_session w s
  = (Ok tt, match SESSION s with
            | Some _ => push (push s ECloseSession) ESessionExit
            | None => push s ECloseSession
            end).
Proof.
  unfold TeveClubLink.close_session, bind, emit, gets. simpl.
  destruct (SESSION s); reflexivity.
Qed.

Lemma exit_eq self w s :
  SESSION s <> None ->
  Teve.__exit__ self w s
  = if logged_in s then
      let s1 := push s (request_event GET (Some TeveClubLink.LOGOUT_LINK) true None) in
      match request_outcome (http_answer w (log s1)) with
      | Ok _ =>
          TeveClubLink.close_session w
            (push (snd (set_logged_in false w s1))
                  (EPrint (py "Kijelentkeztem! :)" ++ [LF])))
      | Raise x => (Raise x, s1)
      end
    else TeveClubLink.close_session w s.
Proof.
  intros Hs. unfold Teve.__exit__.
  unfold bind at 1. unfold gets at 1.
  destruct (logged_in s).
  - unfold bind at 1. unfold bind at 1.
    rewrite request_eq with (m := GET) by (assumption || apply lookup_get). cbv zeta.
    destruct (request_outcome _); reflexivity.
  - reflexivity.
Qed.

Lemma count_app p (a b : trace) : count p (a ++ b) = (count p a + count p b)%nat.
Proof. unfold count. now rewrite filter_app, length_app. Qed.

Lemma workflow_event_counts (evs : trace) :
  forallb workflow_event evs = true ->
  count is_logout_request evs = 0%nat /\ count is_close_session evs = 0%nat.
Proof.
  unfold count. induction evs as [|e evs IH]; simpl; [auto|].
  intros H. apply andb_true_iff in H as [He Hevs].
  apply andb_true_iff in He as [H1 H2].
  apply negb_true_iff in H1, H2. rewrite H1, H2. now apply IH.
Qed.

Lemma workflow_event_other (e : event) :
  is_request e = false -> is_session_event e = false -> workflow_event e = true.
Proof. destruct e; simpl; intros; try discriminate; reflexivity. Qed.

Lemma exit_spec self w s :
  SESSION s <> None ->
  let r := Teve.__exit__ self w s in
  exists evs,
    log (snd r) = log s ++ evs
    /\ count is_logout_request evs = (if logged_in s then 1 else 0)%nat
    /\ count is_close_session evs = (if is_ok (fst r) then 1 else 0)%nat
    /\ (logged_in s = false -> is_ok (fst r) = true).
Proof.
  intros Hs. cbv zeta. rewrite exit_eq by assumption.
  destruct (logged_in s).
  - cbv zeta. destruct (request_outcome _).
    + rewrite close_session_eq. simpl SESSION.
      destruct (SESSION s); [|congruence].
      eexists. split; [simpl; rewrite <- !app_assoc; reflexivity|].
      repeat split.
    + eexists. split; [reflexivity|]. repeat split. discriminate.
  - rewrite close_session_eq. destruct (SESSION s); [|congruence].
    eexists. split; [simpl; rewrite <- !app_assoc; reflexivity|].
    repeat split.
Qed.

Lemma sets_flag_bind {A B} (m : M A) (k : A -> M B) :
  quiet workflow_event m -> (forall a, sets_flag (k a)) -> sets_flag (bind m k).
Proof.
  intros Hm Hk w s. unfold bind. cbv zeta.
  destruct (Hm w s) as (Hl & Hs & evs & He & Hp).
  destruct (m w s) as [[a|e] s1]; simpl in *.
  - destruct (Hk a w s1) as (Hs' & Hl' & evs' & He' & Hp').
    split; [congruence|]. split.
    + rewrite Hl'. destruct (is_ok _); congruence.
    + exists (evs ++ evs'). rewrite He', He, <- app_assoc. split; [reflexivity|].
      now rewrite forallb_app, Hp, Hp'.
  - split; [assumption|]. split; [assumption|]. now exists evs.
Qed.

Lemma sets_flag_set_logged_in : sets_flag (set_logged_in true).
Proof.
  intros w s. simpl. repeat split. exists []. now rewrite app_nil_r.
Qed.

Ltac quiet_workflow :=
  first
    [ apply quiet_get_from_user_if_none;
        [ apply quiet_get_name || apply quiet_getpass ]
    | apply quiet_gets | apply quiet_set_LOGIN_FORM | apply quiet_print
    | apply quiet_request | apply quiet_raise_for_status
    | apply quiet_ensure_login | apply quiet_etet | apply quiet_tanit
    | apply quiet_mail_error | apply quiet_raise ];
  try apply workflow_event_other; try (intros; reflexivity).

Lemma enter_spec self w s :
  logged_in s = false ->
  let r := Teve.__enter__ self w s in
  SESSION (snd r) <> None
  /\ logged_in (snd r) = is_ok (fst r)
  /\ exists evs,
       log (snd r) = log s ++ evs
       /\ count is_logout_request evs = 0%nat
       /\ count is_close_session evs = (if is_ok (fst r) then 0 else 1)%nat.
Proof.
  intros Hli. unfold Teve.__enter__, try_except. cbv zeta.
  match goal with
  | |- context [bind TeveClubLink.start_session ?K w s] =>
      change (bind TeveClubLink.start_session K w s)
        with (K tt w (snd (TeveClubLink.start_session w s)));
      assert (HK : sets_flag (K tt))
  end.
  { repeat (apply sets_flag_bind; [quiet_workflow|intros]).
    apply sets_flag_set_logged_in. }
  cbv beta in *.
  match type of HK with sets_flag ?m => set (body := m) in * end.
  remember (snd (TeveClubLink.start_session w s)) as s1 eqn:Es1.
  assert (Hs1 : SESSION s1 = Some LiveSession) by (subst s1; reflexivity).
  assert (Hl1 : logged_in s1 = false) by (subst s1; exact Hli).
  assert (He1 : log s1 = log s ++ [EStartSession]) by (subst s1; reflexivity).
  clear Es1.
  destruct (HK w s1) as (Hs & Hl & evs & He & Hp). cbv zeta in *.
  apply workflow_event_counts in Hp as [Hc1 Hc2].
  destruct (body w s1) as [[[]|e] s2]; simpl in *.
  - split; [congruence|]. split; [assumption|].
    exists (EStartSession :: evs). rewrite He, He1, <- app_assoc.
    split; [reflexivity|]. unfold count in *. simpl. auto.
  - unfold bind.
    assert (Hs2 : SESSION s2 = Some LiveSession) by congruence.
    assert (Hl2 : logged_in s2 = false) by congruence.
    rewrite exit_eq by congruence. rewrite Hl2, close_session_eq, Hs2.
    simpl. split; [congruence|]. split; [assumption|].
    exists ([EStartSession] ++ evs ++ [ECloseSession; ESessionExit]).
    rewrite He, He1, <- !app_assoc. split; [reflexivity|].
    rewrite !count_app, Hc1, Hc2. split; reflexivity.
Qed.

Lemma with_spec self (body : M unit) w s :
  logged_in s = false ->
  quiet workflow_event body ->
  let r := Teve.with_ self body w s in
  let entered := is_ok (fst (Teve.__enter__ self w s)) in
  exists evs,
    log (snd r) = log s ++ evs
    /\ count is_logout_request evs = (if entered then 1 else 0)%nat
    /\ (count is_close_session evs <= 1)%nat
    /\ (is_ok (fst r) = true -> count is_close_session evs = 1%nat)
    /\ (entered = false -> count is_close_session evs = 1%nat).
Proof.
  intros Hli Hbody. cbv zeta. unfold Teve.with_, bind.
  destruct (enter_spec self w s Hli) as (Hs & Hl & evs & He & Hc1 & Hc2).
  cbv zeta in *.
  destruct (Teve.__enter__ self w s) as [[[]|e] s1]; simpl in *.
  - destruct (Hbody w s1) as (Hl2 & Hs2 & evs2 & He2 & Hp2).
    apply workflow_event_counts in Hp2 as [Hb1 Hb2].
    assert (Hs3 : SESSION (snd (body w s1)) <> None) by congruence.
    destruct (exit_spec self w _ Hs3) as (evs3 & He3 & Hx1 & Hx2 & _).
    cbv zeta in *. rewrite Hl2, Hl in Hx1.
    destruct (body w s1) as [[[]|e] s2]; simpl in *;
      destruct (Teve.__exit__ self w s2) as [[[]|e'] s3]; simpl in *;
      exists (evs ++ evs2 ++ evs3);
      rewrite He3, He2, He, <- !app_assoc;
      (split; [reflexivity|]);
      rewrite !count_app, Hc1, Hc2, Hb1, Hb2, Hx1, Hx2;
      repeat split; auto; discriminate.
  - exists evs. split; [assumption|]. rewrite Hc1, Hc2. repeat split; auto.
Qed.

Lemma main_spec config w lines :
  let s0 := initial_state lines in
  let r := main config w s0 in
  let entered := is_ok (fst (Teve.__enter__ (self_of config) w s0)) in
  count is_logout_request (log (snd r)) = (if entered then 1 else 0)%nat
  /\ (count is_close_session (log (snd r)) <= 1)%nat
  /\ (is_ok (fst r) = true -> count is_close_session (log (snd r)) = 1%nat)
  /\ (entered = false -> count is_close_session (log (snd r)) = 1%nat).
Proof.
  cbv zeta. unfold main, try_except, workflow.
  change (bind (Teve.__init__ config)
            (fun teve => Teve.with_ teve (bind (Teve.etet teve) (fun _ => Teve.tanit teve)))
            w (initial_state lines))
    with (Teve.with_ (self_of config)
            (bind (Teve.etet (self_of config)) (fun _ => Teve.tanit (self_of config)))
            w (initial_state lines)).
  destruct (with_spec (self_of config)
              (bind (Teve.etet (self_of config)) (fun _ => Teve.tanit (self_of config)))
              w (initial_state lines) eq_refl) as (evs & He & Hc1 & Hc2 & Hok & Hne).
  { apply quiet_bind; [|intros _]; quiet_workflow. }
  cbv zeta in *. simpl log in He.
  destruct (Teve.with_ _ _ w (initial_state lines)) as [[[]|e] s1]; simpl in *.
  - rewrite He. auto.
  - match goal with
    | |- context [bind ?h ?k w s1] =>
        assert (Hq : quiet workflow_event (bind h k))
          by (apply quiet_bind; [|intros _]; quiet_workflow);
        destruct (Hq w s1) as (_ & _ & evs' & He' & Hp');
        assert (Hnok : is_ok (fst (bind h k w s1)) = false)
          by (unfold bind; destruct (h w s1) as [[?|?] ?]; reflexivity);
        destruct (bind h k w s1) as [ra s2]
    end.
    simpl in *. apply workflow_event_counts in Hp' as [Hh1 Hh2].
    rewrite He', He. change (evs ++ evs') with (evs ++ evs').
    rewrite !count_app, Hh1, Hh2, !Nat.add_0_r.
    repeat split; auto.
    congruence.
Qed.

(** ** The session wrapper *)

(** C4.  The wrapper returns a response whose final status is 304, which is
    not 2xx, instead of raising: [raise_for_status] raises for 400..599
    only. *)
Theorem request_returns_non_2xx_response :
  fst (TeveClubLink.request (Some TeveClubLink.TEVE_LINK) true (py "get") None
         not_modified_world live_state)
  = Ok (page 304 pet_url []).
Proof. vm_compute. reflexivity. Qed.

Lemma http_error_none_iff (r : PageType) :
  http_error r = None <-> ~ (400 <= status_code r < 600).
Proof.
  unfold http_error.
  destruct (Z.leb_spec 400 (status_code r)), (Z.ltb_spec (status_code r) 500),
    (Z.leb_spec 500 (status_code r)), (Z.ltb_spec (status_code r) 600);
    simpl; split; intros; try discriminate; try reflexivity; lia.
Qed.

(** What the wrapper does for every final status: it returns the response
    unless the status lies in 400..599, and then it raises [HTTPError]. *)
Lemma request_by_status link uh method data m w s r :
  SESSION s <> None ->
  TeveClubLink.lookup_method TeveClubLink.session_methods method = Some m ->
  http_answer w (log s ++ [request_event m link uh data]) = Ok r ->
  (~ (400 <= status_code r < 600) ->
   fst (TeveClubLink.request link uh method data w s) = Ok r)
  /\ (400 <= status_code r < 600 ->
      exists e, fst (TeveClubLink.request link uh method data w s) = Raise e
                /\ exn_cls e = HTTPError).
Proof.
  intros Hs Hm Ha. rewrite request_eq with (m := m) by assumption.
  cbv zeta. simpl log. rewrite Ha. simpl. split.
  - intros H. apply http_error_none_iff in H. now rewrite H.
  - intros H. unfold http_error.
    destruct (Z.leb_spec 400 (status_code r)), (Z.ltb_spec (status_code r) 500),
      (Z.leb_spec 500 (status_code r)), (Z.ltb_spec (status_code r) 600);
      simpl; try lia; eexists; split; reflexivity.
Qed.

(** ** Logout and login *)



(** ** Releasing the session *)

(** C2.  When the feed step raises and the logout request of [__exit__]
    raises too, [close_session] is never invoked: the run ends with the
    session still open. *)
Theorem session_not_released_when_logout_raises :
  let r := main demo_config offline_after_login_world (initial_state []) in
  is_ok (fst r) = false
  /\ count is_logout_request (log (snd r)) = 1%nat
  /\ count is_close_session (log (snd r)) = 0%nat.
Proof. vm_compute. repeat split. Qed.

(** On every run [close_session] is invoked at most once; it is invoked
    exactly once when the run ends without an exception and when the entry
    step raised. *)
Lemma close_session_at_most_once (config : Config) (w : World)
    (lines : list (result str)) :
  let r := main config w (initial_state lines) in
  (count is_close_session (log (snd r)) <= 1)%nat
  /\ (is_ok (fst r) = true -> count is_close_session (log (snd r)) = 1%nat)
  /\ (is_ok (fst (Teve.__enter__ (self_of config) w (initial_state lines))) = false ->
      count is_close_session (log (snd r)) = 1%nat).
Proof. apply main_spec. Qed.

(** ** The top-level handler *)

(** C5.  The feed step raises [HTTPError]; the handler connects to the mail
    relay but sends nothing, and the exception that leaves the run is the
    [ValueError] of the message header, not the one that was caught. *)
Theorem fatal_error_is_not_mailed :
  let r := main demo_config broken_pet_page_world (initial_state []) in
  fst r = Raise (Exn ValueError
                   (py "Header values may not contain linefeed or carriage return characters"))
  /\ existsb (fun e => match e with ESmtpConnect => true | _ => false end)
       (log (snd r)) = true
  /\ count is_send_message (log (snd r)) = 0%nat.
Proof. vm_compute. repeat split. Qed.

Lemma fatal_subject_multiline (exc : exn) :
  (1 <? List.length (splitlines (fatal_subject exc)))%nat = true.
Proof.
  unfold fatal_subject, format_two_paragraphs.
  destruct (exn_str exc); reflexivity.
Qed.

Lemma push_all_app (s : State) (a b : list event) :
  push_all (push_all s a) b = push_all s (a ++ b).
Proof. unfold push_all. now rewrite fold_left_app. Qed.

Lemma log_push_all (s : State) (evs : list event) :
  log (push_all s evs) = log s ++ evs.
Proof.
  revert s. induction evs as [|e evs IH]; intros s; cbn [push_all fold_left].
  - now rewrite app_nil_r.
  - fold (push_all (push s e) evs). rewrite IH. cbn [push log].
    now rewrite <- app_assoc.
Qed.

Lemma session_push_all (s : State) (evs : list event) :
  SESSION (push_all s evs) = SESSION s.
Proof.
  revert s. induction evs as [|e evs IH]; intros s; cbn [push_all fold_left];
    [reflexivity|]. fold (push_all (push s e) evs). now rewrite IH.
Qed.

Lemma set_header_eq (name value : str) (msg : EmailMessage) (w : World) (s : State) :
  set_header name value msg w s
  = (match header_refusal w name value with
     | Some x => Raise x
     | None => Ok {| content := content msg; headers := headers msg ++ [(name, value)] |}
     end, s).
Proof.
  unfold set_header, header_refusal, single_line.
  destruct (1 <? List.length (splitlines value))%nat; cbn [negb]; [reflexivity|].
  destruct (header_answer w name value); reflexivity.
Qed.

(** Every run of [_mail_error]: the calls it makes to the relay and what
    comes of them. *)
Lemma mail_error_eq (cfg : MailCfg) (error_message subject : str)
    (page : option PageType) (w : World) (s : State) :
  _mail_error cfg error_message subject page w s
  = let login := ESmtpLogin (sender cfg) (mail_pass cfg) in
    let msg := mail_of cfg error_message subject page in
    match smtp_answer w (log s ++ [ESmtpConnect]) with
    | Some x => (Raise x, push s ESmtpConnect)
    | None =>
        match stopped_before_sending w (log s ++ [ESmtpConnect; login]) cfg subject with
        | Some x =>
            (Raise (after_quit
                      (smtp_answer w (log s ++ [ESmtpConnect; login; ESmtpQuit])) x),
             push_all s [ESmtpConnect; login; ESmtpQuit])
        | None =>
            let quit := smtp_answer w (log s ++ mail_events cfg msg) in
            (match smtp_answer w (log s ++ mail_calls cfg msg) with
             | Some x => Raise (after_quit quit x)
             | None =>
                 match quit with
                 | None => Ok tt
                 | Some x => if is_disconnected x then Ok tt else Raise x
                 end
             end,
             push_all s (mail_events cfg msg))
        end
    end.
Proof.
  cbv zeta. unfold _mail_error. unfold bind at 1. unfold ask_smtp at 1.
  unfold bind at 1. unfold emit at 1. cbn [log push].
  destruct (smtp_answer w (log s ++ [ESmtpConnect])) as [x|]; [reflexivity|].
  unfold SMTP_with, stopped_before_sending.
  unfold bind at 1. unfold ask_smtp at 1. unfold bind at 1. unfold emit at 1.
  cbn [log push]. rewrite <- app_assoc. cbn [app].
  assert (Hstop : forall x : exn,
             (let (r, s1) :=
                (@Raise unit x,
                 push (push s ESmtpConnect) (ESmtpLogin (sender cfg) (mail_pass cfg))) in
              let s2 := push s1 ESmtpQuit in
              match smtp_answer w (log s2) with
              | None => (r, s2)
              | Some y => if is_disconnected y then (r, s2) else (Raise y, s2)
              end)
             = (Raise (after_quit
                         (smtp_answer w
                            (log s ++ [ESmtpConnect;
                                       ESmtpLogin (sender cfg) (mail_pass cfg);
                                       ESmtpQuit])) x),
                push_all s [ESmtpConnect; ESmtpLogin (sender cfg) (mail_pass cfg);
                            ESmtpQuit])).
  { intros x. cbn [log push push_all fold_left]. rewrite <- !app_assoc. cbn [app].
    destruct (smtp_answer w _) as [y|]; cbn [after_quit];
      [destruct (is_disconnected y)|]; reflexivity. }
  destruct (smtp_answer w (log s ++ [ESmtpConnect;
                                     ESmtpLogin (sender cfg) (mail_pass cfg)]))
    as [x|]; [apply Hstop|].
  unfold headers_refusal. unfold bind at 1. rewrite set_header_eq.
  destruct (header_refusal w (py "Subject") subject) as [x|]; [apply Hstop|].
  unfold bind at 1. rewrite set_header_eq.
  destruct (header_refusal w (py "From") (sender cfg)) as [x|]; [apply Hstop|].
  unfold bind at 1. rewrite set_header_eq.
  destruct (header_refusal w (py "To") (recipient cfg)) as [x|]; [apply Hstop|].
  clear Hstop.
  unfold ask_smtp, bind, emit, mail_events, mail_calls, mail_of, _page_text.
  destruct page;
    cbn [set_content content headers app log push push_all fold_left];
    rewrite <- !app_assoc; cbn [app];
    (destruct (smtp_answer w _) as [x|];
     cbn [log push]; rewrite <- ?app_assoc; cbn [app];
     destruct (smtp_answer w _) as [y|]; cbn [after_quit];
     try destruct (is_disconnected y); reflexivity).
Qed.

Lemma fatal_subject_refused (w : World) (cfg : MailCfg) (exc : exn) :
  headers_refusal w cfg (fatal_subject exc) = Some header_error.
Proof.
  unfold headers_refusal, header_refusal, single_line.
  now rewrite fatal_subject_multiline.
Qed.

(** Whatever was caught and whatever the mail relay answers, the call of
    [_mail_error] in the handler raises and sends no message. *)
Lemma fatal_mail_never_sent (cfg : MailCfg) (exc : exn) (w : World) (s : State) :
  let r := _mail_error cfg fatal_message (fatal_subject exc) None w s in
  is_ok (fst r) = false
  /\ exists evs, log (snd r) = log s ++ evs /\ count is_send_message evs = 0%nat.
Proof.
  cbv zeta. rewrite mail_error_eq. cbv zeta.
  destruct (smtp_answer w (log s ++ [ESmtpConnect])).
  - split; [reflexivity|]. eexists. split; reflexivity.
  - unfold stopped_before_sending. rewrite fatal_subject_refused.
    destruct (smtp_answer w _);
      (split; [reflexivity|]); eexists; (split; [apply log_push_all|reflexivity]).
Qed.

(** The body of the message the handler asks for is the fixed text: the
    text of the exception is part of the subject only. *)
Lemma handler_body_is_fixed (cfg : MailCfg) (exc : exn) :
  content (mail_of cfg fatal_message (fatal_subject exc) None) = fatal_message
  /\ dict_get (headers (mail_of cfg fatal_message (fatal_subject exc) None))
       (py "Subject")
     = Some (py "Elpusztult az egész!!! ÁÁÁÁ!!!" ++ [LF; LF] ++ exn_str exc).
Proof. split; reflexivity. Qed.

(** Whenever the workflow raises, the run ends with an exception and the
    handler has sent no message. *)
Lemma no_mail_from_handler (config : Config) (w : World) (s s1 : State)
    (exc : exn) :
  workflow config w s = (Raise exc, s1) ->
  is_ok (fst (main config w s)) = false
  /\ exists evs,
       log (snd (main config w s)) = log s1 ++ evs
       /\ count is_send_message evs = 0%nat.
Proof.
  intros Hw. unfold main, try_except. rewrite Hw.
  destruct (fatal_mail_never_sent (mail config) exc w s1) as (Hnok & evs & He & Hc).
  cbv zeta in *. unfold bind.
  destruct (_mail_error (mail config) fatal_message (fatal_subject exc) None w s1)
    as [[[]|e] s2]; cbn [fst snd] in *; [discriminate|].
  split; [reflexivity|]. exists evs. auto.
Qed.

(** ** The feed step *)

Lemma no_request_other (e : event) :
  is_request e = false -> is_session_event e = false -> no_request e = true.
Proof. unfold no_request. now intros ->. Qed.

Lemma no_request_filter (evs : trace) :
  forallb no_request evs = true -> filter is_request evs = [].
Proof.
  induction evs as [|e evs IH]; simpl; [reflexivity|].
  intros H. apply andb_true_iff in H as [He Hevs].
  apply negb_true_iff in He. rewrite He. now apply IH.
Qed.

Lemma request_ok_live link uh method data m w s r s1 :
  TeveClubLink.lookup_method TeveClubLink.session_methods method = Some m ->
  TeveClubLink.request link uh method data w s = (Ok r, s1) ->
  SESSION s1 <> None /\ logged_in s1 = logged_in s.
Proof.
  intros Hm. destruct (SESSION s) as [x|] eqn:Hs.
  - rewrite request_eq with (m := m) by congruence. cbv zeta.
    intros Heq. injection Heq as _ <-.
    cbn [SESSION logged_in push]. rewrite Hs. split; [discriminate|reflexivity].
  - unfold TeveClubLink.request, TeveClubLink.getattr_SESSION, bind, gets, raise.
    rewrite Hm, Hs. discriminate.
Qed.

(** C7.  Once the pet page is fetched and both maxima are computed, the
    requests the feed step goes on to make are: none when both maxima are
    0, and otherwise exactly one POST to the pet page whose form holds the
    two maxima and the fixed field ["etet": "Mehet!"]. *)
Theorem feed_post_unless_both_zero (self : Teve.self_t) (w : World) (s s1 : State)
    (response : PageType) (max_kaja max_pia : Z) :
  TeveClubLink.request (Some TeveClubLink.TEVE_LINK) true (py "get") None w
    (snd (print (py "Etetés... ") [] w s)) = (Ok response, s1) ->
  Teve._max_option (html_parser w (text response)) (py "kaja") = Ok max_kaja ->
  Teve._max_option (html_parser w (text response)) (py "pia") = Ok max_pia ->
  exists evs,
    log (snd (Teve.etet self w s)) = log s1 ++ evs
    /\ filter is_request evs
       = if (max_kaja =? 0) && (max_pia =? 0) then []
         else [ERequest POST pet_url (Some TeveClubLink.HEADER)
                 (Some (feed_form max_kaja max_pia))].
Proof.
  intros Hget Hk Hp.
  destruct (request_ok_live _ _ _ _ _ _ _ _ _ lookup_get Hget) as [Hlive _].
  unfold Teve.etet. unfold bind at 1. cbn [print emit fst snd] in *.
  unfold bind at 1. rewrite Hget.
  unfold bind at 1. unfold BeautifulSoup, _page_text.
  unfold bind at 1. unfold lift at 1. rewrite Hk.
  unfold bind at 1. unfold lift at 1. rewrite Hp.
  destruct ((max_kaja =? 0) && (max_pia =? 0)).
  - eexists. split; [reflexivity|]. reflexivity.
  - unfold bind at 1. rewrite request_eq with (m := POST) by (assumption || apply lookup_post).
    cbv zeta.
    match goal with
    | |- context [request_outcome ?a] => destruct (request_outcome a) as [r|x]
    end.
    + match goal with
      | |- context [log (snd (?m w ?s'))] =>
          assert (Hq : quiet no_request m)
      end.
      { destruct (truthy _); [apply quiet_println, no_request_other|].
        apply quiet_bind; [apply quiet_print_page_error, no_request_other|].
        intros _. apply quiet_mail_error, no_request_other. }
      match type of Hq with
      | quiet _ ?m =>
          destruct (Hq w (push s1 (request_event POST (Some TeveClubLink.TEVE_LINK) true
                                     (Some (feed_form max_kaja max_pia)))))
            as (_ & _ & evs & He & Hn)
      end.
      eexists. split.
      * etransitivity; [exact He|]. simpl log. rewrite <- app_assoc. reflexivity.
      * simpl. rewrite (no_request_filter _ Hn). reflexivity.
    + eexists. split; [reflexivity|]. reflexivity.
Qed.

Lemma mail_error_starts (cfg : MailCfg) (m subj : str) (page : option PageType)
    (w : World) (s : State) :
  exists rest,
    log (snd (_mail_error cfg m subj page w s)) = log s ++ ESmtpConnect :: rest.
Proof.
  rewrite mail_error_eq. cbv zeta.
  destruct (smtp_answer w (log s ++ [ESmtpConnect])); [exists []; reflexivity|].
  destruct (stopped_before_sending _ _ _ _); cbn [snd]; rewrite log_push_all;
    unfold mail_events, mail_calls; cbn [app]; eexists; reflexivity.
Qed.

Lemma comprehension_raises {A B} (f : A -> result B) (l : list A) (e : exn) :
  Builtins.comprehension f l = Raise e -> exists x, In x l /\ f x = Raise e.
Proof.
  induction l as [|x l IH]; simpl; [discriminate|].
  destruct (f x) as [y|e'] eqn:E.
  - destruct (Builtins.comprehension f l); [discriminate|].
    intros H. destruct (IH H) as (x' & Hin & Hx). exists x'. auto.
  - intros H. injection H as <-. exists x. auto.
Qed.

(** [_max_option] raises nothing but [ValueError]. *)
Lemma max_option_raises_ValueError (soup : Soup.node) (name : str) (e : exn) :
  Teve._max_option soup name = Raise e -> exn_cls e = ValueError.
Proof.
  unfold Teve._max_option.
  destruct (Soup.find_attrs soup (py "name") name); [|discriminate].
  destruct (Builtins.comprehension _ _) as [l|e'] eqn:E.
  - destruct l; simpl; [|discriminate]. intros H. now injection H as <-.
  - intros H. injection H as <-.
    apply comprehension_raises in E as (x & _ & Hx).
    unfold Builtins.int in Hx. destruct (Builtins.parse_int _); [discriminate|].
    now injection Hx as <-.
Qed.

(** C10.  When the first element of the fetched pet page named "kaja" (or
    "pia") has no [option] element below it, [_max_option] raises the
    [ValueError] of [max] on an empty list; the feed step raises a
    [ValueError] right after the page was fetched, and the run goes through
    [__exit__] into the top-level handler and ends with an exception. *)
Theorem empty_control_aborts_feed (self : Teve.self_t) (w : World) (s s1 : State)
    (response : PageType) (name : str) (options : Soup.node) :
  TeveClubLink.request (Some TeveClubLink.TEVE_LINK) true (py "get") None w
    (snd (print (py "Etetés... ") [] w s)) = (Ok response, s1) ->
  name = py "kaja" \/ name = py "pia" ->
  Soup.find_attrs (html_parser w (text response)) (py "name") name = Some options ->
  Soup.find_all options (py "option") = [] ->
  Teve._max_option (html_parser w (text response)) name
    = Raise (Exn ValueError (py "max() arg is an empty sequence"))
  /\ (exists e, Teve.etet self w s = (Raise e, s1) /\ exn_cls e = ValueError)
  /\ (forall config lines,
        self = self_of config ->
        Teve.__enter__ self w (initial_state lines) = (Ok tt, s) ->
        let r := main config w (initial_state lines) in
        is_ok (fst r) = false
        /\ exists evs rest,
             log (snd r) = log s1 ++ evs ++ ESmtpConnect :: rest
             /\ filter is_request evs = [logout_event]).
Proof.
  intros Hget Hname Hfind Hnone.
  assert (Hmax : Teve._max_option (html_parser w (text response)) name
                 = Raise (Exn ValueError (py "max() arg is an empty sequence"))).
  { unfold Teve._max_option. rewrite Hfind, Hnone. reflexivity. }
  assert (Hetet : exists e, Teve.etet self w s = (Raise e, s1) /\ exn_cls e = ValueError).
  { unfold Teve.etet. unfold bind at 1. cbn [print emit fst snd] in *.
    unfold bind at 1. rewrite Hget.
    unfold bind at 1. unfold BeautifulSoup, _page_text.
    unfold bind at 1. unfold lift at 1.
    destruct Hname as [-> | ->].
    - rewrite Hmax. eexists. split; reflexivity.
    - destruct (Teve._max_option _ (py "kaja")) as [k|e] eqn:Ek.
      + unfold bind at 1. unfold lift at 1. rewrite Hmax.
        eexists. split; reflexivity.
      + exists e. split; [reflexivity|].
        eapply max_option_raises_ValueError; eassumption. }
  split; [exact Hmax|]. split; [exact Hetet|].
  intros config lines -> Henter. cbv zeta.
  destruct Hetet as (e & Hetet & _).
  destruct (request_ok_live _ _ _ _ _ _ _ _ _ lookup_get Hget) as [Hlive Hli].
  pose proof (enter_spec (self_of config) w (initial_state lines) eq_refl) as Hen.
  cbv zeta in Hen. rewrite Henter in Hen. simpl in Hen.
  destruct Hen as (_ & Hlogged & _). simpl in Hli. rewrite Hlogged in Hli.
  unfold main, try_except, workflow.
  change (bind (Teve.__init__ config)
            (fun teve => Teve.with_ teve (bind (Teve.etet teve) (fun _ => Teve.tanit teve)))
            w (initial_state lines))
    with (Teve.with_ (self_of config)
            (bind (Teve.etet (self_of config)) (fun _ => Teve.tanit (self_of config)))
            w (initial_state lines)).
  assert (Hwith : Teve.with_ (self_of config)
                    (bind (Teve.etet (self_of config)) (fun _ => Teve.tanit (self_of config)))
                    w (initial_state lines)
                  = let (r0, s2) := Teve.__exit__ (self_of config) w s1 in
                    match r0 with
                    | Ok _ => (Raise e, s2)
                    | Raise e' => (Raise e', s2)
                    end).
  { unfold Teve.with_, bind. rewrite Henter, Hetet. reflexivity. }
  rewrite Hwith. clear Hwith.
  rewrite exit_eq by assumption. rewrite Hli. cbv zeta.
  fold logout_event.
  assert (Hhandler : forall exc s3 evs,
             log s3 = log s1 ++ evs ->
             filter is_request evs = [logout_event] ->
             let r := bind (_mail_error (mail config) fatal_message (fatal_subject exc) None)
                        (fun _ => @raise unit exc) w s3 in
             is_ok (fst r) = false
             /\ exists evs rest,
                  log (snd r) = log s1 ++ evs ++ ESmtpConnect :: rest
                  /\ filter is_request evs = [logout_event]).
  { intros exc s3 evs He Hf. cbv zeta.
    destruct (mail_error_starts (mail config) fatal_message (fatal_subject exc) None w s3)
      as (rest & Hrest).
    unfold bind.
    destruct (_mail_error _ _ _ _ w s3) as [[[]|x] s4]; simpl in *;
      (split; [reflexivity|]); exists evs, rest;
      rewrite Hrest, He, <- app_assoc; auto. }
  destruct (request_outcome _) as [r|x].
  - rewrite close_session_eq. simpl SESSION.
    destruct (SESSION s1) eqn:Hs; [|congruence].
    cbv beta iota.
    eapply Hhandler; [simpl; rewrite <- !app_assoc; reflexivity|reflexivity].
  - cbv beta iota. eapply Hhandler; [reflexivity|reflexivity].
Qed.

(** ** A refused login *)

Lemma mail_error_delivers cfg error_message subject page w s :
  headers_accepted w cfg subject ->
  mail_goes_through w (log s) cfg (mail_of cfg error_message subject page) ->
  _mail_error cfg error_message subject page w s
  = (Ok tt, push_all s (mail_events cfg (mail_of cfg error_message subject page))).
Proof.
  unfold headers_accepted, mail_goes_through. intros Hh (Ha & Hb & Hc & Hq).
  rewrite mail_error_eq. cbv zeta. cbn [firstn mail_calls] in Ha, Hb.
  rewrite Ha. unfold stopped_before_sending. rewrite Hb, Hh, Hc.
  unfold quit_passes in Hq. revert Hq.
  destruct (smtp_answer w (log s ++ mail_events _ _)) as [x|];
    [intros ->|intros _]; reflexivity.
Qed.

Lemma enter_after_login self w s response s1 :
  login_step self w s = (Ok response, s1) ->
  Teve.__enter__ self w s
  = match (_ensure_login (Teve.mail_cfg self) response ;; set_logged_in true) w s1 with
    | (Ok a, s') => (Ok a, s')
    | (Raise e, s') => (Teve.__exit__ self ;; raise e) w s'
    end.
Proof.
  unfold login_step, Teve.__enter__, try_except, bind.
  intros H.
  repeat match type of H with
         | context [match ?x with _ => _ end] =>
             destruct x as [[?|?] ?] eqn:?; try discriminate
         end.
  unfold ret in H. injection H as -> ->. reflexivity.
Qed.

Lemma any_event_other (e : event) :
  is_request e = false -> is_session_event e = false -> any_event e = true.
Proof. reflexivity. Qed.

Lemma etet_starts self w s :
  SESSION s <> None ->
  exists rest, log (snd (Teve.etet self w s)) = log s ++ feed_begins ++ rest.
Proof.
  intros Hs. unfold Teve.etet. unfold bind at 1. cbn [print emit].
  unfold bind at 1.
  rewrite request_eq with (m := GET) by (assumption || apply lookup_get).
  cbv zeta.
  destruct (request_outcome _) as [r|x].
  - match goal with
    | |- context [log (snd (?k w ?s'))] =>
        assert (Hq : quiet any_event k);
        [|destruct (Hq w s') as (_ & _ & evs & He & _)]
    end.
    { apply quiet_bind; [apply quiet_BeautifulSoup|]. intros soup.
      apply quiet_bind; [apply quiet_lift|]. intros k.
      apply quiet_bind; [apply quiet_lift|]. intros p.
      destruct (_ && _)%bool; [apply quiet_println, any_event_other|].
      apply quiet_bind; [apply quiet_request; reflexivity|]. intros r'.
      destruct (truthy _); [apply quiet_println, any_event_other|].
      apply quiet_bind; [apply quiet_print_page_error, any_event_other|].
      intros _. apply quiet_mail_error, any_event_other. }
    exists evs. etransitivity; [exact He|].
    cbn [log push]. rewrite <- !app_assoc. reflexivity.
  - exists []. cbn [log push snd]. rewrite <- !app_assoc. reflexivity.
Qed.

Lemma tanit_starts self w s :
  SESSION s <> None ->
  exists rest, log (snd (Teve.tanit self w s)) = log s ++ teach_begins ++ rest.
Proof.
  intros Hs. unfold Teve.tanit. unfold bind at 1. cbn [print emit].
  cbv zeta. unfold bind at 1.
  rewrite request_eq with (m := POST) by (assumption || apply lookup_post).
  cbv zeta.
  destruct (request_outcome _) as [r|x].
  - match goal with
    | |- context [log (snd (?k w ?s'))] =>
        assert (Hq : quiet any_event k);
        [|destruct (Hq w s') as (_ & _ & evs & He & _)]
    end.
    { destruct (truthy _); [apply quiet_println, any_event_other|].
      apply quiet_bind; [apply quiet_print_page_error, any_event_other|].
      intros _. apply quiet_mail_error, any_event_other. }
    exists evs. etransitivity; [exact He|].
    cbn [log push]. rewrite <- !app_assoc. reflexivity.
  - exists []. cbn [log push snd]. rewrite <- !app_assoc. reflexivity.
Qed.

(** Once the entry step has returned, the run goes on with the body of the
    [with] statement: its trace is the trace of the body, then whatever
    [__exit__] and the handler add. *)
Lemma main_after_entry config w lines s2 :
  Teve.__enter__ (self_of config) w (initial_state lines) = (Ok tt, s2) ->
  exists rest,
    log (snd (main config w (initial_state lines)))
    = log (snd ((Teve.etet (self_of config) ;; Teve.tanit (self_of config)) w s2))
      ++ rest.
Proof.
  intros Henter.
  pose proof (enter_spec (self_of config) w (initial_state lines) eq_refl) as Hen.
  cbv zeta in Hen. rewrite Henter in Hen. cbn [fst snd] in Hen.
  destruct Hen as (Hlive & _ & _).
  set (body := Teve.etet (self_of config) ;; Teve.tanit (self_of config)).
  assert (Hq : quiet any_event body).
  { apply quiet_bind; [apply quiet_etet|intros _; apply quiet_tanit];
      (apply any_event_other || reflexivity). }
  destruct (Hq w s2) as (_ & Hs & _).
  assert (Hlive' : SESSION (snd (body w s2)) <> None) by congruence.
  destruct (exit_spec (self_of config) w _ Hlive') as (evs & He & _).
  cbv zeta in He.
  unfold main, try_except, workflow.
  change (bind (Teve.__init__ config)
            (fun teve => Teve.with_ teve (bind (Teve.etet teve) (fun _ => Teve.tanit teve)))
            w (initial_state lines))
    with (Teve.with_ (self_of config) body w (initial_state lines)).
  assert (Hwith : exists r s3,
             Teve.with_ (self_of config) body w (initial_state lines) = (r, s3)
             /\ log s3 = log (snd (body w s2)) ++ evs).
  { unfold Teve.with_. unfold bind at 1. rewrite Henter.
    destruct (body w s2) as [[[]|e] sb]; cbn [snd] in *.
    - destruct (Teve.__exit__ (self_of config) w sb) as [r s3].
      exists r, s3. auto.
    - destruct (Teve.__exit__ (self_of config) w sb) as [[[]|e'] s3];
        eexists; eexists; split; try reflexivity; assumption. }
  destruct Hwith as (r & s3 & -> & He3).
  destruct r as [[]|exc].
  - exists evs. exact He3.
  - assert (Hh : quiet any_event
                   (_mail_error (mail config) fatal_message (fatal_subject exc) None ;;
                    @raise unit exc)).
    { apply quiet_bind; [apply quiet_mail_error, any_event_other|].
      intros _. apply quiet_raise. }
    destruct (Hh w s3) as (_ & _ & evs' & He' & _).
    exists (evs ++ evs'). rewrite He', He3, <- app_assoc. reflexivity.
Qed.

Lemma login_step_frame self w s r s1 :
  login_step self w s = (r, s1) ->
  SESSION s1 = Some LiveSession /\ logged_in s1 = logged_in s.
Proof.
  unfold login_step.
  match goal with
  | |- context [bind TeveClubLink.start_session ?K w s] =>
      change (bind TeveClubLink.start_session K w s)
        with (K tt w (snd (TeveClubLink.start_session w s)));
      assert (HK : quiet any_event (K tt))
  end.
  { apply quiet_bind;
      [apply quiet_get_from_user_if_none, quiet_get_name, any_event_other|].
    intros v. apply quiet_bind; [apply quiet_gets|]. intros f.
    apply quiet_bind; [apply quiet_set_LOGIN_FORM|]. intros _.
    apply quiet_bind;
      [apply quiet_get_from_user_if_none, quiet_getpass, any_event_other|].
    intros v'. apply quiet_bind; [apply quiet_gets|]. intros f'.
    apply quiet_bind; [apply quiet_set_LOGIN_FORM|]. intros _.
    apply quiet_bind; [apply quiet_print, any_event_other|]. intros _.
    apply quiet_bind; [apply quiet_gets|]. intros f''.
    apply quiet_bind; [apply quiet_request; reflexivity|]. intros r'.
    apply quiet_bind; [apply quiet_raise_for_status|]. intros _.
    apply quiet_ret. }
  cbv beta.
  match type of HK with
  | quiet _ ?m =>
      destruct (HK w (snd (TeveClubLink.start_session w s))) as (Hl & Hs & _);
      intros Hstep; rewrite Hstep in Hl, Hs
  end.
  cbn [snd] in Hl, Hs. split; [exact Hs|exact Hl].
Qed.

(** C6, as stated, fails: the site answers the login with the failure
    phrase, the classifier reports failure, and the mail relay cannot be
    reached.  The notification raises, the entry step raises with it, and
    the run ends with an exception: no message is sent and the login POST is
    the only request, so neither the feed step nor the teach step is
    reached. *)
Lemma refused_login_aborts_counterexample :
  let r := main demo_config relay_down_world (initial_state []) in
  fst (login_step demo_self relay_down_world (initial_state []))
  = Ok refused_login_response
  /\ truthy (_parse_login_status refused_login_response) = false
  /\ is_ok (fst (Teve.__enter__ demo_self relay_down_world (initial_state []))) = false
  /\ is_ok (fst r) = false
  /\ count is_send_message (log (snd r)) = 0%nat
  /\ filter is_request (log (snd r))
     = [ERequest POST login_url (Some TeveClubLink.HEADER)
          (Some (login_form_of Teve.LOGIN_FORM_0 (py "Macska") (py "SoseTudodMeg")))].
Proof. vm_compute. repeat split. Qed.

(** C6, amended.  The site answers the login with a page that the login
    classifier rejects.  When the notification goes through (the message
    policy and the header parser take subject, sender and recipient, the
    relay accepts the connection, the login and the message, and the QUIT on
    leaving the [with] block passes), the entry step does not raise: it
    sends one message whose body is the text "Nem sikerült bejelentkezni!?",
    a blank line and the body of the response, marks the camel as logged in,
    and the run goes on with the feed step and, when that one returns, with
    the teach step.  When the notification raises, the entry step releases
    the session and raises the same exception, and the run ends with an
    exception without another request. *)
Theorem login_failure_is_not_fatal (config : Config) (w : World)
    (lines : list (result str)) (response : PageType) (s1 : State) :
  login_step (self_of config) w (initial_state lines) = (Ok response, s1) ->
  truthy (_parse_login_status response) = false ->
  (headers_accepted w (mail config) (py "Automatikus belépési hiba!!!") ->
   mail_goes_through w (log s1) (mail config)
     (login_failure_mail (mail config) response) ->
   exists s2,
     Teve.__enter__ (self_of config) w (initial_state lines) = (Ok tt, s2)
     /\ logged_in s2 = true
     /\ log s2 = log s1
                 ++ mail_events (mail config) (login_failure_mail (mail config) response)
     /\ content (login_failure_mail (mail config) response)
        = py "Nem sikerült bejelentkezni!?" ++ [LF; LF] ++ text response
     /\ (exists rest,
           log (snd (main config w (initial_state lines)))
           = log s2 ++ feed_begins ++ rest)
     /\ (forall s3,
           Teve.etet (self_of config) w s2 = (Ok tt, s3) ->
           exists rest,
             log (snd (main config w (initial_state lines)))
             = log s3 ++ teach_begins ++ rest))
  /\ (forall e s2,
        _mail_error (mail config) (py "Nem sikerült bejelentkezni!?")
          (py "Automatikus belépési hiba!!!") (Some response) w s1 = (Raise e, s2) ->
        Teve.__enter__ (self_of config) w (initial_state lines)
        = (Raise e, push_all s2 [ECloseSession; ESessionExit])
        /\ is_ok (fst (main config w (initial_state lines))) = false
        /\ exists evs,
             log (snd (main config w (initial_state lines)))
             = log s2 ++ [ECloseSession; ESessionExit] ++ evs
             /\ filter is_request evs = []).
Proof.
  intros Hlogin Hfail. split.
  - intros Hheaders Hmail.
    assert (Henter : Teve.__enter__ (self_of config) w (initial_state lines)
                     = (Ok tt,
                        snd (set_logged_in true w
                               (push_all s1 (mail_events (mail config)
                                  (login_failure_mail (mail config) response)))))).
    { rewrite (enter_after_login _ _ _ _ _ Hlogin).
      unfold bind, _ensure_login. rewrite Hfail.
      cbn [Teve.mail_cfg self_of].
      unfold login_failure_mail in *.
      rewrite (mail_error_delivers _ _ _ _ _ _ Hheaders Hmail).
      reflexivity. }
    eexists. split; [exact Henter|].
    split; [reflexivity|].
    split; [cbn [set_logged_in snd log]; apply log_push_all|].
    split; [reflexivity|].
    pose proof (enter_spec (self_of config) w (initial_state lines) eq_refl) as Hen.
    cbv zeta in Hen. rewrite Henter in Hen. cbn [fst snd] in Hen.
    destruct Hen as (Hlive & _ & _).
    destruct (main_after_entry config w lines _ Henter) as (rest & Hmain).
    unfold bind in Hmain.
    split.
    + destruct (etet_starts (self_of config) w _ Hlive) as (r1 & He).
      destruct (Teve.etet (self_of config) w _) as [[[]|e] s3] eqn:Eetet;
        cbn [snd] in *.
      * assert (Hq : quiet any_event (Teve.tanit (self_of config)))
          by (apply quiet_tanit; (apply any_event_other || reflexivity)).
        destruct (Hq w s3) as (_ & _ & evs & Ht & _).
        exists (r1 ++ evs ++ rest). rewrite Hmain, Ht, He, <- !app_assoc. reflexivity.
      * exists (r1 ++ rest). rewrite Hmain, He, <- !app_assoc. reflexivity.
    + intros s3 Hetet. rewrite Hetet in Hmain.
      assert (Hq : quiet any_event (Teve.etet (self_of config)))
        by (apply quiet_etet; (apply any_event_other || reflexivity)).
      pose proof (Hq w (snd (set_logged_in true w
                               (push_all s1 (mail_events (mail config)
                                  (login_failure_mail (mail config) response))))))
        as (_ & Hs & _).
      rewrite Hetet in Hs. cbn [snd] in Hs.
      assert (Hlive3 : SESSION s3 <> None) by congruence.
      destruct (tanit_starts (self_of config) w s3 Hlive3) as (r2 & Ht).
      exists (r2 ++ rest). rewrite Hmain, Ht, <- !app_assoc. reflexivity.
  - intros e s2 Hraise.
    destruct (login_step_frame _ _ _ _ _ Hlogin) as [Hs1 Hl1].
    cbn [initial_state logged_in] in Hl1.
    pose proof (quiet_mail_error any_event any_event_other (mail config)
                  (py "Nem sikerült bejelentkezni!?")
                  (py "Automatikus belépési hiba!!!") (Some response) w s1)
      as (Hl2 & Hs2 & _).
    rewrite Hraise in Hl2, Hs2.
    cbn [snd] in Hl2, Hs2.
    assert (Henter : Teve.__enter__ (self_of config) w (initial_state lines)
                     = (Raise e, push_all s2 [ECloseSession; ESessionExit])).
    { rewrite (enter_after_login _ _ _ _ _ Hlogin).
      unfold bind, _ensure_login. rewrite Hfail.
      cbn [Teve.mail_cfg self_of].
      rewrite Hraise. rewrite exit_eq by congruence.
      rewrite Hl2, Hl1, close_session_eq, Hs2, Hs1. reflexivity. }
    split; [exact Henter|].
    assert (Hmain : main config w (initial_state lines)
                    = (_mail_error (mail config) fatal_message (fatal_subject e) None ;;
                       @raise unit e) w (push_all s2 [ECloseSession; ESessionExit])).
    { unfold main, try_except, workflow, Teve.with_.
      unfold bind at 1. unfold bind at 1.
      change (Teve.__init__ config w (initial_state lines))
        with (Ok (self_of config), initial_state lines).
      cbv beta iota. rewrite Henter. reflexivity. }
    rewrite Hmain.
    assert (Hh : quiet no_request
                   (_mail_error (mail config) fatal_message (fatal_subject e) None ;;
                    @raise unit e)).
    { apply quiet_bind; [apply quiet_mail_error, no_request_other|].
      intros _. apply quiet_raise. }
    destruct (Hh w (push_all s2 [ECloseSession; ESessionExit]))
      as (_ & _ & evs & He & Hn).
    split.
    + unfold bind.
      destruct (_mail_error (mail config) fatal_message (fatal_subject e) None w _)
        as [[[]|x] s3]; reflexivity.
    + exists evs. rewrite He, log_push_all, <- app_assoc.
      split; [reflexivity|]. now apply no_request_filter.
Qed.

(** ** Instances of the conditional theorems *)

Lemma max_option_is_maximum_witness :
  Soup.find_attrs hungry_page (py "name") (py "kaja") = Some kaja_select
  /\ option_values kaja_select = Ok [1; 2; 3]
  /\ (exists m, Teve._max_option hungry_page (py "kaja") = Ok m
                /\ is_maximum m [1; 2; 3])
  /\ Soup.find_attrs hungry_page (py "name") (py "bor") = None
  /\ Teve._max_option hungry_page (py "bor") = Ok 0.
Proof.
  assert (H1 : Soup.find_attrs hungry_page (py "name") (py "kaja") = Some kaja_select)
    by (vm_compute; reflexivity).
  assert (H2 : option_values kaja_select = Ok [1; 2; 3])
    by (vm_compute; reflexivity).
  assert (H3 : Soup.find_attrs hungry_page (py "name") (py "bor") = None)
    by (vm_compute; reflexivity).
  destruct (max_option_is_maximum hungry_page (py "kaja")) as [_ Hpresent].
  destruct (max_option_is_maximum hungry_page (py "bor")) as [Habsent _].
  split; [exact H1|]. split; [exact H2|].
  split; [apply (Hpresent _ _ H1 H2); discriminate|].
  split; [exact H3|]. apply Habsent, H3.
Defined.

Lemma feed_post_unless_both_zero_witness :
  (exists evs,
     log (snd (Teve.etet demo_self friendly_world (entered_state friendly_world)))
     = log (fetched_state friendly_world) ++ evs
     /\ filter is_request evs
        = [ERequest POST pet_url (Some TeveClubLink.HEADER) (Some (feed_form 3 2))])
  /\ (exists evs,
        log (snd (Teve.etet demo_self sated_world (entered_state sated_world)))
        = log (fetched_state sated_world) ++ evs
        /\ filter is_request evs = []).
Proof.
  split.
  - apply (feed_post_unless_both_zero demo_self friendly_world
             (entered_state friendly_world) (fetched_state friendly_world)
             pet_page_response 3 2); vm_compute; reflexivity.
  - apply (feed_post_unless_both_zero demo_self sated_world
             (entered_state sated_world) (fetched_state sated_world)
             pet_page_response 0 0); vm_compute; reflexivity.
Defined.

Lemma empty_control_aborts_feed_witness :
  Teve._max_option empty_control_page (py "kaja")
    = Raise (Exn ValueError (py "max() arg is an empty sequence"))
  /\ (exists e, Teve.etet demo_self empty_control_world
                  (entered_state empty_control_world)
                = (Raise e, fetched_state empty_control_world)
                /\ exn_cls e = ValueError)
  /\ is_ok (fst (main demo_config empty_control_world (initial_state []))) = false.
Proof.
  destruct (empty_control_aborts_feed demo_self empty_control_world
              (entered_state empty_control_world)
              (fetched_state empty_control_world)
              pet_page_response (py "kaja") (select_tag (py "kaja") []))
    as (Hmax & Hetet & Hmain).
  - vm_compute. reflexivity.
  - left. reflexivity.
  - vm_compute. reflexivity.
  - vm_compute. reflexivity.
  - split; [exact Hmax|]. split; [exact Hetet|].
    apply (Hmain demo_config []); [reflexivity|].
    vm_compute. reflexivity.
Defined.

Lemma login_failure_is_not_fatal_witness :
  truthy (_parse_login_status refused_login_response) = false
  /\ (exists s2,
        Teve.__enter__ demo_self refused_login_world (initial_state []) = (Ok tt, s2)
        /\ logged_in s2 = true
        /\ exists rest,
             log (snd (main demo_config refused_login_world (initial_state [])))
             = log s2 ++ feed_begins ++ rest)
  /\ is_ok (fst (main demo_config relay_down_world (initial_state []))) = false.
Proof.
  assert (Hfail : truthy (_parse_login_status refused_login_response) = false)
    by (vm_compute; reflexivity).
  split; [exact Hfail|]. split.
  - destruct (login_failure_is_not_fatal demo_config refused_login_world []
                refused_login_response
                (snd (login_step demo_self refused_login_world (initial_state []))))
      as [Hgoes _].
    + vm_compute. reflexivity.
    + exact Hfail.
    + destruct Hgoes as (s2 & Henter & Hflag & _ & _ & Hfeed & _).
      * vm_compute. reflexivity.
      * unfold mail_goes_through. repeat split; vm_compute; reflexivity.
      * exists s2. auto.
  - destruct (login_failure_is_not_fatal demo_config relay_down_world []
                refused_login_response
                (snd (login_step demo_self relay_down_world (initial_state []))))
      as [_ Hfails].
    + vm_compute. reflexivity.
    + exact Hfail.
    + destruct (Hfails
                  (Exn (OtherException (py "ConnectionRefusedError"))
                     (py "[Errno 111] Connection refused"))
                  (push (snd (login_step demo_self relay_down_world (initial_state [])))
                     ESmtpConnect))
        as (_ & Hmain & _).
      * vm_compute. reflexivity.
      * exact Hmain.
Defined.

(* ================================================================== *)
(** * Further properties of the script *)
(* ================================================================== *)

Section FeedPattern.

Import Re.

Lemma match_here_star_cons (a : atom) (p : list item) (c : N) (t : str) :
  match_here (Star a :: p) (c :: t)
  = if atom_matches a c then
      match match_here (Star a :: p) t with
      | Some n => Some (S n)
      | None => match_here p (c :: t)
      end
    else match_here p (c :: t).
Proof. reflexivity. Qed.

Lemma match_here_star_nil (a : atom) (p : list item) :
  match_here (Star a :: p) [] = match_here p [].
Proof. reflexivity. Qed.

Lemma match_here_dot_star (p : list item) (t : str) :
  match_here (Star Dot :: p) t <> None
  <-> exists mid rest, t = mid ++ rest /\ ~ In LF mid /\ match_here p rest <> None.
Proof.
  split.
  - induction t as [|c t IH].
    + rewrite match_here_star_nil. intros H. exists [], []. auto.
    + rewrite match_here_star_cons. unfold atom_matches.
      destruct (N.eqb_spec c LF) as [->|Hc]; cbn [negb].
      * intros H. exists [], (LF :: t). auto.
      * destruct (match_here (Star Dot :: p) t) eqn:E.
        -- intros _. destruct IH as (mid & rest & -> & Hmid & Hrest); [discriminate|].
           exists (c :: mid), rest. split; [reflexivity|]. split; [|assumption].
           intros [Hin|Hin]; [congruence|auto].
        -- intros H. exists [], (c :: t). auto.
  - intros (mid & rest & -> & Hmid & Hrest). induction mid as [|c mid IH].
    + cbn [app]. destruct rest as [|c rest].
      * now rewrite match_here_star_nil.
      * rewrite match_here_star_cons.
        destruct (atom_matches Dot c); [|assumption].
        destruct (match_here (Star Dot :: p) rest); [discriminate|assumption].
    + cbn [app]. rewrite match_here_star_cons. unfold atom_matches.
      destruct (N.eqb_spec c LF) as [->|Hc]; [exfalso; apply Hmid; now left|].
      cbn [negb].
      specialize (IH (fun Hin => Hmid (or_intror Hin))).
      destruct (match_here (Star Dot :: p) (mid ++ rest)); [discriminate|congruence].
Qed.

Lemma match_here_literal_app (s : str) (p : list item) (t : str) :
  match_here (literal s ++ p) t <> None
  <-> exists rest, t = s ++ rest /\ match_here p rest <> None.
Proof.
  revert t. induction s as [|c s IH]; intros t; cbn [literal map app].
  - split; [intros H; now exists t|intros (rest & -> & H); exact H].
  - cbn [match_here]. destruct t as [|x t].
    + split; [congruence|intros (rest & Hr & _); discriminate].
    + unfold atom_matches. destruct (N.eqb_spec c x) as [->|Hcx].
      * fold (literal s). split.
        -- intros H. destruct (match_here (literal s ++ p) t) eqn:E; [|now cbn in H].
           destruct (proj1 (IH t)) as (rest & -> & Hr); [congruence|].
           now exists rest.
        -- intros (rest & Hr & Hp). injection Hr as ->.
           destruct (match_here (literal s ++ p) (s ++ rest)) eqn:E; [discriminate|].
           exfalso. apply (proj2 (IH (s ++ rest))); [now exists rest|exact E].
      * split; [congruence|]. intros (rest & Hr & _). congruence.
Qed.

Lemma search_from_matches (p : list item) (t : str) (i : nat) :
  search_from p t i <> None
  <-> exists pre rest, t = pre ++ rest /\ match_here p rest <> None.
Proof.
  split.
  - revert i. induction t as [|c t IH]; intros i; cbn [search_from].
    + destruct (match_here p []) eqn:E; [|congruence].
      intros _. exists [], []. split; [reflexivity|congruence].
    + destruct (match_here p (c :: t)) eqn:E.
      * intros _. exists [], (c :: t). split; [reflexivity|congruence].
      * intros H. destruct (IH _ H) as (pre & rest & -> & Hr).
        now exists (c :: pre), rest.
  - intros (pre & rest & -> & Hr). revert i.
    induction pre as [|c pre IH]; intros i.
    + cbn [app]. destruct rest; cbn [search_from];
        destruct (match_here p _); congruence.
    + cbn [app search_from].
      destruct (match_here p (c :: pre ++ rest)); [discriminate|apply IH].
Qed.

Lemma feeding_pattern_parsed :
  parse feeding_is_still_possible
  = literal feed_offer_head ++ Star Dot :: literal feed_offer_tail ++ [].
Proof. vm_compute. reflexivity. Qed.

Lemma search_feeding_pattern (body : str) :
  search feeding_is_still_possible body <> None <-> offers_feeding body.
Proof.
  unfold search, offers_feeding. rewrite feeding_pattern_parsed, search_from_matches.
  split.
  - intros (pre & rest & -> & H).
    apply match_here_literal_app in H as (r1 & -> & H).
    apply match_here_dot_star in H as (mid & r2 & -> & Hmid & H).
    apply match_here_literal_app in H as (post & -> & _).
    now exists pre, mid, post.
  - intros (pre & mid & post & -> & Hmid).
    exists pre, (feed_offer_head ++ mid ++ feed_offer_tail ++ post).
    split; [reflexivity|].
    apply match_here_literal_app. eexists. split; [reflexivity|].
    apply match_here_dot_star. exists mid, (feed_offer_tail ++ post).
    split; [reflexivity|]. split; [assumption|].
    apply match_here_literal_app. exists post. split; [reflexivity|].
    discriminate.
Qed.

End FeedPattern.

(** X1.  The feed classifier returns [False] exactly when the body holds
    "Adok neki ", then any text without a line feed, then
    " napra elég ennivalót"; otherwise it returns [True].  A line feed
    between the two parts hides the offer from it. *)
Theorem feed_success_false_iff_offer (response : PageType) :
  (_parse_feed_success response = VBool false <-> offers_feeding (text response))
  /\ (_parse_feed_success response = VBool true <-> ~ offers_feeding (text response)).
Proof.
  pose proof (search_feeding_pattern (text response)) as H.
  unfold _parse_feed_success, _page_text, py_not.
  destruct (Re.search feeding_is_still_possible (text response)) as [m|];
    cbn [of_search truthy negb]; split; split.
  - intros _. apply H. discriminate.
  - reflexivity.
  - discriminate.
  - intros Hn. exfalso. apply Hn, H. discriminate.
  - discriminate.
  - intros Hc. apply H in Hc. congruence.
  - intros _ Hc. apply H in Hc. congruence.
  - reflexivity.
Qed.

Lemma get_name_loop_skips (lines tail : list (result str)) (tr : trace) :
  forallb skipped_line lines = true ->
  _get_name_loop (lines ++ tail) tr
  = _get_name_loop tail (tr ++ rounds (List.length lines)).
Proof.
  revert tr. induction lines as [|r lines IH]; intros tr H.
  - cbn [app List.length rounds]. now rewrite app_nil_r.
  - cbn [forallb] in H. apply andb_true_iff in H as [Hr Hl].
    cbn [app List.length rounds].
    destruct r as [[|c name]|e]; cbn [skipped_line] in Hr; try discriminate.
    + cbn [_get_name_loop]. rewrite IH by assumption.
      rewrite <- !app_assoc. reflexivity.
    + cbn [_get_name_loop]. destruct (exn_cls e); try discriminate.
      rewrite IH by assumption. rewrite <- !app_assoc. reflexivity.
Qed.

Lemma get_name_loop_decides (r : result str) (rest : list (result str)) (tr : trace) :
  skipped_line r = false ->
  _get_name_loop (r :: rest) tr = (r, rest, tr ++ [name_prompt]).
Proof.
  destruct r as [[|c name]|e]; cbn [skipped_line _get_name_loop];
    try discriminate; try reflexivity.
  destruct (exn_cls e); try discriminate; reflexivity.
Qed.

(** X2.  [_get_name] answers with the first line of standard input that is
    neither empty nor a [SyntaxError]: a name is returned, any other
    exception is raised.  Before that it has asked once per line read and
    complained once per line it did not accept, and it leaves the lines
    after the decisive one unread. *)
Theorem get_name_first_decisive_line (w : World) (s : State)
    (lines rest : list (result str)) (r : result str) :
  stdin s = lines ++ r :: rest ->
  forallb skipped_line lines = true ->
  skipped_line r = false ->
  _get_name w s
  = (r, after_input s rest (log s ++ rounds (List.length lines) ++ [name_prompt])).
Proof.
  intros Hin Hskip Hr. unfold _get_name. rewrite Hin.
  rewrite get_name_loop_skips by assumption.
  rewrite get_name_loop_decides by assumption.
  unfold after_input. rewrite <- app_assoc. reflexivity.
Qed.

(** X3.  When standard input holds only lines that [_get_name] does not
    accept (or none at all), [_get_name] raises [EOFError] once the input is
    used up, after one more prompt. *)
Theorem get_name_end_of_input (w : World) (s : State) :
  forallb skipped_line (stdin s) = true ->
  _get_name w s
  = (Raise (Exn EOFError (py "EOF when reading a line")),
     after_input s []
       (log s ++ rounds (List.length (stdin s)) ++ [name_prompt])).
Proof.
  intros Hskip. unfold _get_name.
  rewrite <- (app_nil_r (stdin s)) at 1.
  rewrite get_name_loop_skips by assumption.
  cbn [_get_name_loop input_line fst].
  unfold after_input. rewrite <- app_assoc. reflexivity.
Qed.

Lemma get_name_loop_nonempty (lines : list (result str)) (tr : trace) (name : str) :
  fst (fst (_get_name_loop lines tr)) = Ok name -> name <> [].
Proof.
  revert tr. induction lines as [|[[|c n]|e] rest IH]; intros tr; cbn [_get_name_loop].
  - discriminate.
  - apply IH.
  - cbn [fst]. intros H. injection H as <-. discriminate.
  - destruct (exn_cls e); try (cbn [fst]; discriminate). apply IH.
Qed.

(** X4.  A name that [_get_name] returns is never the empty string. *)
Theorem get_name_never_empty (w : World) (s s' : State) (name : str) :
  _get_name w s = (Ok name, s') -> name <> [].
Proof.
  unfold _get_name. intros H.
  apply (get_name_loop_nonempty (stdin s) (log s)).
  destruct (_get_name_loop (stdin s) (log s)) as [[r rest] tr].
  cbn [fst]. now injection H as -> _.
Qed.

Lemma get_name_first_decisive_line_witness :
  fst (_get_name friendly_world (initial_state three_answers)) = Ok (py "Macska")
  /\ stdin (snd (_get_name friendly_world (initial_state three_answers)))
     = [Ok (py "Kutya")]
  /\ log (snd (_get_name friendly_world (initial_state three_answers)))
     = [name_prompt; name_complaint; name_prompt; name_complaint; name_prompt].
Proof.
  rewrite (get_name_first_decisive_line friendly_world (initial_state three_answers)
             [Ok []; Raise (Exn SyntaxError [])] [Ok (py "Kutya")] (Ok (py "Macska"))
             eq_refl eq_refl eq_refl).
  repeat split.
Defined.

Lemma get_name_end_of_input_witness :
  fst (_get_name friendly_world (initial_state [Ok []; Ok []]))
  = Raise (Exn EOFError (py "EOF when reading a line")).
Proof.
  rewrite (get_name_end_of_input friendly_world (initial_state [Ok []; Ok []]) eq_refl).
  reflexivity.
Defined.

Lemma get_name_never_empty_witness : py "Macska" <> [].
Proof.
  apply (get_name_never_empty friendly_world (initial_state three_answers)
           (snd (_get_name friendly_world (initial_state three_answers)))).
  vm_compute. reflexivity.
Defined.

Lemma str_eqb_eq (a b : str) : str_eqb a b = true <-> a = b.
Proof.
  revert b. induction a as [|x a IH]; intros [|y b]; cbn [str_eqb];
    try (split; [discriminate|discriminate]); [split; reflexivity|].
  rewrite andb_true_iff, N.eqb_eq, IH. split.
  - intros [-> ->]. reflexivity.
  - intros H. injection H as -> ->. auto.
Qed.

Lemma str_eqb_refl (a : str) : str_eqb a a = true.
Proof. now apply str_eqb_eq. Qed.

Lemma dict_get_set_same (d : form) (k v : str) :
  dict_get (dict_set d k v) k = Some v.
Proof.
  induction d as [|[k' v'] d IH]; cbn [dict_set dict_get].
  - now rewrite str_eqb_refl.
  - destruct (str_eqb k' k) eqn:E; cbn [dict_get]; rewrite E; [reflexivity|exact IH].
Qed.

Lemma dict_get_set_other (d : form) (k v k0 : str) :
  k0 <> k -> dict_get (dict_set d k v) k0 = dict_get d k0.
Proof.
  intros Hne. induction d as [|[k' v'] d IH]; cbn [dict_set dict_get].
  - destruct (str_eqb k k0) eqn:E; [|reflexivity].
    apply str_eqb_eq in E. congruence.
  - destruct (str_eqb k' k) eqn:E; cbn [dict_get].
    + apply str_eqb_eq in E. subst k'.
      destruct (str_eqb k k0) eqn:E0; [|reflexivity].
      apply str_eqb_eq in E0. congruence.
    + destruct (str_eqb k' k0); [reflexivity|exact IH].
Qed.

Lemma login_step_eq (self : Teve.self_t) (w : World) (s : State) (n p : str) :
  Teve.name self = Some n ->
  Teve.password self = Some p ->
  login_step self w s
  = (request_outcome (http_answer w (log (login_posted s n p))), login_posted s n p).
Proof.
  intros Hn Hp. unfold login_step, _get_from_user_if_none. rewrite Hn, Hp.
  unfold bind, TeveClubLink.start_session, bind, emit, set_SESSION, ret, gets,
    set_LOGIN_FORM, print, emit.
  cbn [fst snd push SESSION LOGIN_FORM logged_in stdin log].
  rewrite request_eq with (m := POST) by (discriminate || apply lookup_post).
  cbv zeta. unfold login_posted, login_begins, login_form_of, request_event,
    link_url_of, login_url, push.
  cbn [fst snd SESSION LOGIN_FORM logged_in stdin log].
  rewrite <- !app_assoc. cbn [app].
  rewrite app_nil_r.
  destruct (http_answer w _) as [r|x]; cbn [request_outcome]; [|reflexivity].
  destruct (http_error r) eqn:E; [reflexivity|].
  unfold raise_for_status. rewrite E. reflexivity.
Qed.

Lemma enter_when_login_step_raises self w s e s1 :
  login_step self w s = (Raise e, s1) ->
  Teve.__enter__ self w s = (Teve.__exit__ self ;; raise e) w s1.
Proof.
  unfold login_step, Teve.__enter__, try_except, bind.
  intros H.
  repeat match type of H with
         | context [match ?x with _ => _ end] =>
             destruct x as [[?|?] ?] eqn:?; try discriminate
         end;
    try (unfold ret in H; discriminate);
    injection H as -> ->; reflexivity.
Qed.

Lemma exit_then_raise_extends self (e : exn) w s :
  SESSION s <> None ->
  exists rest, log (snd ((Teve.__exit__ self ;; @raise unit e) w s)) = log s ++ rest.
Proof.
  intros Hs. destruct (exit_spec self w s Hs) as (evs & He & _). cbv zeta in He.
  unfold bind. destruct (Teve.__exit__ self w s) as [[[]|x] s']; exists evs; exact He.
Qed.

(** X5.  When the configuration gives name and password, even empty ones,
    the entry step asks nobody for them: the first things it does are to
    start the session, to print its message and to post the login form to
    the site address with the header.  The form posted holds the name under
    "tevenev" and the password under "pass", every other field as it was;
    on a fresh form that is x, y, login, tevenev, pass in this order. *)
Theorem login_post_carries_credentials (self : Teve.self_t) (w : World) (s : State)
    (n p : str) :
  Teve.name self = Some n ->
  Teve.password self = Some p ->
  (exists rest,
     log (snd (Teve.__enter__ self w s))
     = log s ++ login_begins (LOGIN_FORM s) n p ++ rest)
  /\ dict_get (login_form_of (LOGIN_FORM s) n p) Teve.NAME_FIELD = Some n
  /\ dict_get (login_form_of (LOGIN_FORM s) n p) Teve.PASSWORD_FIELD = Some p
  /\ (forall k, k <> Teve.NAME_FIELD -> k <> Teve.PASSWORD_FIELD ->
        dict_get (login_form_of (LOGIN_FORM s) n p) k = dict_get (LOGIN_FORM s) k)
  /\ (LOGIN_FORM s = Teve.LOGIN_FORM_0 ->
      login_form_of (LOGIN_FORM s) n p
      = Teve.LOGIN_FORM_0 ++ [(Teve.NAME_FIELD, n); (Teve.PASSWORD_FIELD, p)]).
Proof.
  intros Hn Hp. split; [|split; [|split; [|split]]].
  - pose proof (login_step_eq self w s n p Hn Hp) as Hstep.
    assert (Hlive : SESSION (login_posted s n p) <> None) by discriminate.
    destruct (request_outcome _) as [r|e].
    + rewrite (enter_after_login _ _ _ _ _ Hstep).
      assert (Hq : quiet any_event (_ensure_login (Teve.mail_cfg self) r))
        by apply quiet_ensure_login, any_event_other.
      destruct (Hq w (login_posted s n p)) as (_ & Hs & evs & He & _).
      unfold bind.
      destruct (_ensure_login (Teve.mail_cfg self) r w (login_posted s n p))
        as [[[]|x] s2]; cbn [snd] in *.
      * exists evs. cbn [set_logged_in snd log]. rewrite He.
        cbn [login_posted log]. now rewrite <- app_assoc.
      * assert (Hlive2 : SESSION s2 <> None) by congruence.
        destruct (exit_then_raise_extends self x w s2 Hlive2) as (rest & Hr).
        unfold bind in Hr. exists (evs ++ rest). rewrite Hr, He.
        cbn [login_posted log]. now rewrite <- !app_assoc.
    + rewrite (enter_when_login_step_raises _ _ _ _ _ Hstep).
      destruct (exit_then_raise_extends self e w _ Hlive) as (rest & Hr).
      exists rest. rewrite Hr. cbn [login_posted log]. now rewrite <- app_assoc.
  - unfold login_form_of. rewrite dict_get_set_other by (vm_compute; discriminate).
    apply dict_get_set_same.
  - apply dict_get_set_same.
  - intros k Hk1 Hk2. unfold login_form_of.
    rewrite !dict_get_set_other by assumption. reflexivity.
  - intros ->. reflexivity.
Qed.

(** X6.  When the statements of the entry step up to the login request
    raise (no answer at the prompt, no connection, an error status), the
    entry step calls [close_session], which releases the session, sends no
    logout request, leaves [logged_in] false and raises the same
    exception. *)
Theorem enter_reraises_after_closing (self : Teve.self_t) (w : World) (s s1 : State)
    (e : exn) :
  logged_in s = false ->
  login_step self w s = (Raise e, s1) ->
  Teve.__enter__ self w s = (Raise e, push (push s1 ECloseSession) ESessionExit)
  /\ logged_in s1 = false.
Proof.
  intros Hli Hstep.
  assert (Hs1 : SESSION s1 = Some LiveSession /\ logged_in s1 = false).
  { revert Hstep. unfold login_step.
    match goal with
    | |- context [bind TeveClubLink.start_session ?K w s] =>
        change (bind TeveClubLink.start_session K w s)
          with (K tt w (snd (TeveClubLink.start_session w s)));
        assert (HK : quiet any_event (K tt))
    end.
    { apply quiet_bind;
        [apply quiet_get_from_user_if_none, quiet_get_name, any_event_other|].
      intros v. apply quiet_bind; [apply quiet_gets|]. intros f.
      apply quiet_bind; [apply quiet_set_LOGIN_FORM|]. intros _.
      apply quiet_bind;
        [apply quiet_get_from_user_if_none, quiet_getpass, any_event_other|].
      intros v'. apply quiet_bind; [apply quiet_gets|]. intros f'.
      apply quiet_bind; [apply quiet_set_LOGIN_FORM|]. intros _.
      apply quiet_bind; [apply quiet_print, any_event_other|]. intros _.
      apply quiet_bind; [apply quiet_gets|]. intros f''.
      apply quiet_bind; [apply quiet_request; reflexivity|]. intros r.
      apply quiet_bind; [apply quiet_raise_for_status|]. intros _.
      apply quiet_ret. }
    cbv beta.
    match type of HK with
    | quiet _ ?m =>
        destruct (HK w (snd (TeveClubLink.start_session w s))) as (Hl & Hs & _);
        intros Hstep; rewrite Hstep in Hl, Hs
    end.
    cbn [snd] in Hl, Hs. split; [exact Hs|]. rewrite Hl. exact Hli. }
  destruct Hs1 as [Hs1 Hl1]. split; [|exact Hl1].
  rewrite (enter_when_login_step_raises _ _ _ _ _ Hstep).
  unfold bind. rewrite exit_eq by congruence.
  rewrite Hl1, close_session_eq, Hs1. reflexivity.
Qed.

(** X7.  When the login form was posted and the answer does not hold the
    failure phrase, the entry step prints its greeting, sets [logged_in]
    and returns; the mail relay is not contacted. *)
Theorem enter_after_accepted_login (self : Teve.self_t) (w : World) (s s1 : State)
    (response : PageType) :
  login_step self w s = (Ok response, s1) ->
  ~ contains login_failure_pattern (text response) ->
  Teve.__enter__ self w s
  = (Ok tt, snd (set_logged_in true w (push s1 login_greeting))).
Proof.
  intros Hstep Hno. rewrite (enter_after_login _ _ _ _ _ Hstep).
  unfold bind, _ensure_login, _parse_login_status, _page_text.
  destruct (Re.search login_failure_pattern (text response)) as [m|] eqn:E.
  - exfalso. apply Hno.
    apply (search_literal _ _ login_failure_pattern_literal). congruence.
  - reflexivity.
Qed.

(** X8.  Without a session, [request] with one of the seven verbs of a
    session as method raises the [AttributeError] of [getattr] on [None],
    which names the verb, before anything is sent: the state, the trace
    included, is as it was. *)
Theorem request_needs_session (link : option str) (uh : bool)
    (method : str) (data : option form) (m : http_method) (w : World) (s : State) :
  SESSION s = None ->
  TeveClubLink.lookup_method TeveClubLink.session_methods method = Some m ->
  TeveClubLink.request link uh method data w s
  = (Raise (Exn AttributeError
              (py "'NoneType' object has no attribute '" ++ method ++ py "'")),
     s).
Proof.
  intros Hs Hm.
  unfold TeveClubLink.request, TeveClubLink.getattr_SESSION, bind, gets, raise,
    TeveClubLink.no_attribute.
  rewrite Hm, Hs. reflexivity.
Qed.

(** X9.  With a session and a method of it, [request] makes exactly one call
    of that method, to the site address or to the address of the sub-link,
    with the header when asked for and with the data given.  An exception of
    the call is passed on; a response is returned unless its status lies in
    400..599, and then [HTTPError] is raised with the message of
    [raise_for_status]. *)
Theorem request_outcome_by_status (link : option str) (uh : bool) (method : str)
    (data : option form) (m : http_method) (w : World) (s : State) :
  SESSION s <> None ->
  TeveClubLink.lookup_method TeveClubLink.session_methods method = Some m ->
  snd (TeveClubLink.request link uh method data w s)
  = push s (request_event m link uh data)
  /\ (forall x,
        http_answer w (log s ++ [request_event m link uh data]) = Raise x ->
        fst (TeveClubLink.request link uh method data w s) = Raise x)
  /\ (forall r,
        http_answer w (log s ++ [request_event m link uh data]) = Ok r ->
        (~ (400 <= status_code r < 600) ->
         fst (TeveClubLink.request link uh method data w s) = Ok r)
        /\ (400 <= status_code r < 500 ->
            fst (TeveClubLink.request link uh method data w s)
            = Raise (Exn HTTPError (http_error_msg (py " Client Error: ") r)))
        /\ (500 <= status_code r < 600 ->
            fst (TeveClubLink.request link uh method data w s)
            = Raise (Exn HTTPError (http_error_msg (py " Server Error: ") r)))).
Proof.
  intros Hs Hm. rewrite request_eq with (m := m) by assumption.
  cbv zeta. cbn [fst snd push log]. split; [reflexivity|]. split.
  - intros x ->. reflexivity.
  - intros r ->. cbn [request_outcome]. unfold http_error.
    destruct (Z.leb_spec 400 (status_code r)), (Z.ltb_spec (status_code r) 500),
      (Z.leb_spec 500 (status_code r)), (Z.ltb_spec (status_code r) 600);
      cbn [andb]; repeat split; intros; try reflexivity; lia.
Qed.

Lemma tanit_eq (self : Teve.self_t) (w : World) (s : State) :
  SESSION s <> None ->
  Teve.tanit self w s
  = match request_outcome (http_answer w (log s ++ teach_begins)) with
    | Raise e => (Raise e, push_all s teach_begins)
    | Ok r =>
        if truthy (_parse_teach_success r)
        then (Ok tt, push_all s (teach_begins ++ [ok_line]))
        else _mail_error (Teve.mail_cfg self) (py "Nem sikerült a tanítás!")
               (py "Automatikus tanítási fennforgattyú!") (Some r) w
               (push_all s (teach_begins ++ [error_line r]))
    end.
Proof.
  intros Hs. unfold Teve.tanit. unfold bind at 1. cbn [print emit].
  cbv zeta. unfold bind at 1.
  rewrite request_eq with (m := POST) by (assumption || apply lookup_post).
  cbv zeta. cbn [log push]. rewrite <- app_assoc.
  change ([EPrint (py "Tanítás... " ++ [])]
          ++ [request_event POST (Some TeveClubLink.TEACH_LINK) true
                (Some [(py "farmdoit", py "tanit"); (py "learn", py "Tanulj teve!")])])
    with teach_begins.
  destruct (request_outcome _) as [r|e]; [|reflexivity].
  destruct (truthy (_parse_teach_success r)); [reflexivity|].
  unfold bind, Teve._print_page_error, println, print, emit, _page_text.
  reflexivity.
Qed.

(** X10.  When the answer to the teach form holds the phrase
    "A tevédet ma már tanítottad", the teach step prints OK and returns; it
    has made the one POST of the form to the teach page and nothing
    else. *)
Theorem tanit_taught (self : Teve.self_t) (w : World) (s : State) (r : PageType) :
  SESSION s <> None ->
  request_outcome (http_answer w (log s ++ teach_begins)) = Ok r ->
  contains teach_success_pattern (text r) ->
  Teve.tanit self w s = (Ok tt, push_all s (teach_begins ++ [ok_line])).
Proof.
  intros Hs Ha Hc. rewrite tanit_eq by assumption. rewrite Ha.
  apply (search_literal _ _ teach_success_pattern_literal) in Hc.
  unfold _parse_teach_success, _page_text.
  destruct (Re.search teach_success_pattern (text r)); [reflexivity|congruence].
Qed.

(** X11.  When the answer to the teach form lacks the phrase and the
    notification goes through (the message policy and the header parser take
    subject, sender and recipient, the relay accepts the connection, the
    login and the message, and the QUIT on leaving the [with] block passes),
    the teach step prints "ERROR: " and the body, sends one message,
    "Nem sikerült a tanítás!", a blank line and the body, under the subject
    "Automatikus tanítási fennforgattyú!", says QUIT and returns without an
    exception. *)
Theorem tanit_reports_failure (self : Teve.self_t) (w : World) (s : State)
    (r : PageType) :
  SESSION s <> None ->
  request_outcome (http_answer w (log s ++ teach_begins)) = Ok r ->
  ~ contains teach_success_pattern (text r) ->
  headers_accepted w (Teve.mail_cfg self) (py "Automatikus tanítási fennforgattyú!") ->
  mail_goes_through w (log s ++ teach_begins ++ [error_line r]) (Teve.mail_cfg self)
    (teach_failure_mail (Teve.mail_cfg self) r) ->
  Teve.tanit self w s
  = (Ok tt,
     push_all s (teach_begins ++ [error_line r]
                 ++ mail_events (Teve.mail_cfg self)
                      (teach_failure_mail (Teve.mail_cfg self) r)))
  /\ content (teach_failure_mail (Teve.mail_cfg self) r)
     = py "Nem sikerült a tanítás!" ++ [LF; LF] ++ text r.
Proof.
  intros Hs Ha Hc Hheaders Hmail. split; [|reflexivity].
  rewrite tanit_eq by assumption. rewrite Ha.
  unfold _parse_teach_success, _page_text.
  destruct (Re.search teach_success_pattern (text r)) eqn:E.
  - exfalso. apply Hc. apply (search_literal _ _ teach_success_pattern_literal).
    congruence.
  - cbn [of_search truthy]. unfold teach_failure_mail in *.
    rewrite mail_error_delivers;
      [|exact Hheaders|rewrite log_push_all; exact Hmail].
    rewrite push_all_app, <- app_assoc. reflexivity.
Qed.

(** X12.  When the POST of the teach form raises or comes back with an
    error status, the teach step raises that exception at once: it prints
    no error line and does not contact the mail relay. *)
Theorem tanit_request_failure (self : Teve.self_t) (w : World) (s : State)
    (e : exn) :
  SESSION s <> None ->
  request_outcome (http_answer w (log s ++ teach_begins)) = Raise e ->
  Teve.tanit self w s = (Raise e, push_all s teach_begins).
Proof.
  intros Hs Ha. rewrite tanit_eq by assumption. now rewrite Ha.
Qed.

Lemma etet_eq (self : Teve.self_t) (w : World) (s s1 : State)
    (response : PageType) (max_kaja max_pia : Z) :
  TeveClubLink.request (Some TeveClubLink.TEVE_LINK) true (py "get") None w
    (snd (print (py "Etetés... ") [] w s)) = (Ok response, s1) ->
  Teve._max_option (html_parser w (text response)) (py "kaja") = Ok max_kaja ->
  Teve._max_option (html_parser w (text response)) (py "pia") = Ok max_pia ->
  (max_kaja =? 0) && (max_pia =? 0) = false ->
  Teve.etet self w s
  = match request_outcome
            (http_answer w (log s1 ++ [feed_post max_kaja max_pia])) with
    | Raise e => (Raise e, push s1 (feed_post max_kaja max_pia))
    | Ok r =>
        if truthy (_parse_feed_success r)
        then (Ok tt, push_all s1 [feed_post max_kaja max_pia; ok_line])
        else _mail_error (Teve.mail_cfg self) (py "Nem sikerült az etetés!")
               (py "Automatikus etetési kalamajka!") (Some r) w
               (push_all s1 [feed_post max_kaja max_pia; error_line r])
    end.
Proof.
  intros Hget Hk Hp Hnz.
  destruct (request_ok_live _ _ _ _ _ _ _ _ _ lookup_get Hget) as [Hlive _].
  unfold Teve.etet. unfold bind at 1. cbn [print emit fst snd] in *.
  unfold bind at 1. rewrite Hget.
  unfold bind at 1. unfold BeautifulSoup, _page_text.
  unfold bind at 1. unfold lift at 1. rewrite Hk.
  unfold bind at 1. unfold lift at 1. rewrite Hp, Hnz.
  unfold bind at 1.
  rewrite request_eq with (m := POST) by (assumption || apply lookup_post).
  cbv zeta. cbn [log push].
  change (request_event POST (Some TeveClubLink.TEVE_LINK) true
            (Some [(py "kaja", str_of_int max_kaja); (py "pia", str_of_int max_pia);
                   (py "etet", py "Mehet!")]))
    with (feed_post max_kaja max_pia).
  destruct (request_outcome _) as [r|e]; [|reflexivity].
  destruct (truthy (_parse_feed_success r)); [reflexivity|].
  unfold bind, Teve._print_page_error, println, print, emit, _page_text.
  reflexivity.
Qed.

(** X13.  After a feed POST whose answer no longer offers feeding, the feed
    step prints OK and returns: nothing is mailed. *)
Theorem etet_fed (self : Teve.self_t) (w : World) (s s1 : State)
    (response r : PageType) (max_kaja max_pia : Z) :
  TeveClubLink.request (Some TeveClubLink.TEVE_LINK) true (py "get") None w
    (snd (print (py "Etetés... ") [] w s)) = (Ok response, s1) ->
  Teve._max_option (html_parser w (text response)) (py "kaja") = Ok max_kaja ->
  Teve._max_option (html_parser w (text response)) (py "pia") = Ok max_pia ->
  (max_kaja =? 0) && (max_pia =? 0) = false ->
  request_outcome (http_answer w (log s1 ++ [feed_post max_kaja max_pia])) = Ok r ->
  ~ offers_feeding (text r) ->
  Teve.etet self w s
  = (Ok tt, push_all s1 [feed_post max_kaja max_pia; ok_line]).
Proof.
  intros Hget Hk Hp Hnz Ha Hno.
  rewrite (etet_eq self w s s1 response max_kaja max_pia) by assumption.
  rewrite Ha. unfold _parse_feed_success, _page_text.
  destruct (Re.search feeding_is_still_possible (text r)) eqn:E; [|reflexivity].
  exfalso. apply Hno, search_feeding_pattern. congruence.
Qed.

(** X14.  After a feed POST whose answer still offers feeding, and when the
    notification goes through (the message policy and the header parser take
    subject, sender and recipient, the relay accepts the connection, the
    login and the message, and the QUIT on leaving the [with] block passes),
    the feed step prints "ERROR: " and the body, sends one message,
    "Nem sikerült az etetés!", a blank line and the body, under the subject
    "Automatikus etetési kalamajka!", says QUIT and returns without an
    exception. *)
Theorem etet_reports_failure (self : Teve.self_t) (w : World) (s s1 : State)
    (response r : PageType) (max_kaja max_pia : Z) :
  TeveClubLink.request (Some TeveClubLink.TEVE_LINK) true (py "get") None w
    (snd (print (py "Etetés... ") [] w s)) = (Ok response, s1) ->
  Teve._max_option (html_parser w (text response)) (py "kaja") = Ok max_kaja ->
  Teve._max_option (html_parser w (text response)) (py "pia") = Ok max_pia ->
  (max_kaja =? 0) && (max_pia =? 0) = false ->
  request_outcome (http_answer w (log s1 ++ [feed_post max_kaja max_pia])) = Ok r ->
  offers_feeding (text r) ->
  headers_accepted w (Teve.mail_cfg self) (py "Automatikus etetési kalamajka!") ->
  mail_goes_through w (log s1 ++ [feed_post max_kaja max_pia; error_line r])
    (Teve.mail_cfg self) (feed_failure_mail (Teve.mail_cfg self) r) ->
  Teve.etet self w s
  = (Ok tt,
     push_all s1 ([feed_post max_kaja max_pia; error_line r]
                  ++ mail_events (Teve.mail_cfg self)
                       (feed_failure_mail (Teve.mail_cfg self) r)))
  /\ content (feed_failure_mail (Teve.mail_cfg self) r)
     = py "Nem sikerült az etetés!" ++ [LF; LF] ++ text r.
Proof.
  intros Hget Hk Hp Hnz Ha Hoffer Hheaders Hmail. split; [|reflexivity].
  rewrite (etet_eq self w s s1 response max_kaja max_pia) by assumption.
  rewrite Ha. unfold _parse_feed_success, _page_text.
  destruct (Re.search feeding_is_still_possible (text r)) eqn:E.
  - cbn [of_search truthy py_not negb]. unfold feed_failure_mail in *.
    rewrite mail_error_delivers;
      [|exact Hheaders|rewrite log_push_all; exact Hmail].
    rewrite push_all_app. reflexivity.
  - exfalso. apply search_feeding_pattern in Hoffer. congruence.
Qed.


(** X16.  The main block swallows nothing and adds nothing: it returns
    exactly when the workflow returns, then in the very state the workflow
    ended in, and it raises whenever the workflow raises. *)
Theorem main_keeps_outcome (config : Config) (w : World) (s : State) :
  is_ok (fst (main config w s)) = is_ok (fst (workflow config w s))
  /\ (is_ok (fst (workflow config w s)) = true ->
      main config w s = workflow config w s).
Proof.
  unfold main, try_except.
  destruct (workflow config w s) as [[[]|exc] s1]; cbn [fst is_ok].
  - split; reflexivity.
  - split; [|discriminate]. unfold bind.
    destruct (_mail_error _ _ _ _ w s1) as [[[]|e] s2]; reflexivity.
Qed.

(** X17.  When the workflow raises, the handler connects to the mail relay
    and, if that works, logs in and, whatever came of the login, says QUIT
    on leaving the [with] block; it never gets as far as sending.  The
    exception that ends the run is the one the relay raised at the
    connection; or else the one it raised at QUIT, unless that is
    [SMTPServerDisconnected]; or else the one it raised at the login; or
    else the [ValueError] of the subject header. *)
Theorem handler_stops_before_sending (config : Config) (w : World) (s s1 : State)
    (exc : exn) :
  workflow config w s = (Raise exc, s1) ->
  (exists e,
     main config w s = (Raise e, push s1 ESmtpConnect)
     /\ smtp_answer w (log s1 ++ [ESmtpConnect]) = Some e)
  \/ (smtp_answer w (log s1 ++ [ESmtpConnect]) = None
      /\ main config w s
         = (Raise
              (after_quit
                 (smtp_answer w
                    (log s1 ++ [ESmtpConnect;
                                ESmtpLogin (sender (mail config)) (mail_pass (mail config));
                                ESmtpQuit]))
                 match smtp_answer w
                         (log s1 ++ [ESmtpConnect;
                                     ESmtpLogin (sender (mail config))
                                       (mail_pass (mail config))]) with
                 | Some e => e
                 | None => header_error
                 end),
            push_all s1 [ESmtpConnect;
                         ESmtpLogin (sender (mail config)) (mail_pass (mail config));
                         ESmtpQuit])).
Proof.
  intros Hw. unfold main, try_except. rewrite Hw. unfold bind.
  rewrite mail_error_eq. cbv zeta.
  destruct (smtp_answer w (log s1 ++ [ESmtpConnect])) as [e|].
  - left. exists e. split; reflexivity.
  - right. split; [reflexivity|].
    unfold stopped_before_sending. rewrite fatal_subject_refused.
    destruct (smtp_answer w
                (log s1 ++ [ESmtpConnect;
                            ESmtpLogin (sender (mail config)) (mail_pass (mail config))]));
      reflexivity.
Qed.

(** X18.  The feed step and the teach step leave [logged_in] and the session
    as they are, and neither sends the logout request nor calls
    [close_session], however the site and the mail relay answer. *)
Theorem feed_and_teach_keep_session (self : Teve.self_t) (w : World) (s : State) :
  logged_in (snd ((Teve.etet self ;; Teve.tanit self) w s)) = logged_in s
  /\ SESSION (snd ((Teve.etet self ;; Teve.tanit self) w s)) = SESSION s
  /\ exists evs,
       log (snd ((Teve.etet self ;; Teve.tanit self) w s)) = log s ++ evs
       /\ count is_logout_request evs = 0%nat
       /\ count is_close_session evs = 0%nat.
Proof.
  assert (Hq : quiet workflow_event (Teve.etet self ;; Teve.tanit self)).
  { apply quiet_bind; [|intros _]; quiet_workflow. }
  destruct (Hq w s) as (Hl & Hs & evs & He & Hp).
  split; [exact Hl|]. split; [exact Hs|]. exists evs. split; [exact He|].
  now apply workflow_event_counts.
Qed.

Lemma comprehension_first_failure {A B} (f : A -> result B) (l1 l2 : list A)
    (x : A) (e : exn) :
  Forall (fun y => is_ok (f y) = true) l1 ->
  f x = Raise e ->
  Builtins.comprehension f (l1 ++ x :: l2) = Raise e.
Proof.
  intros Hok Hx. induction Hok as [|y l1 Hy _ IH]; cbn [app Builtins.comprehension].
  - now rewrite Hx.
  - destruct (f y); [|discriminate]. now rewrite IH.
Qed.

(** X19.  When the text of an [option] element of the control is no integer
    literal, [_max_option] raises the [ValueError] of [int] for the first
    such element, whatever the other options are; its message ends with the
    [repr] of that text, cut after 200 characters. *)
Theorem max_option_rejects_non_integer (soup options : Soup.node) (name : str)
    (before after : list Soup.node) (bad : Soup.node) :
  Soup.find_attrs soup (py "name") name = Some options ->
  Soup.find_all options (py "option") = before ++ bad :: after ->
  Forall (fun o => Builtins.parse_int (Soup.get_text o) <> None) before ->
  Builtins.parse_int (Soup.get_text bad) = None ->
  Teve._max_option soup name
  = Raise (Exn ValueError
             (py "invalid literal for int() with base 10: "
              ++ firstn 200 (Builtins.repr (Soup.get_text bad)))).
Proof.
  intros Hfind Hall Hbefore Hbad. unfold Teve._max_option.
  rewrite Hfind, Hall.
  rewrite comprehension_first_failure
    with (e := Exn ValueError
                 (py "invalid literal for int() with base 10: "
                  ++ firstn 200 (Builtins.repr (Soup.get_text bad)))).
  - reflexivity.
  - eapply Forall_impl; [|exact Hbefore]. intros o Ho. cbv beta in *.
    unfold Builtins.int.
    destruct (Builtins.parse_int (Soup.get_text o)); [reflexivity|congruence].
  - unfold Builtins.int. now rewrite Hbad.
Qed.

(** X20.  An exception of the body of the [with] statement is lost when the
    logout request of [__exit__] raises as well: the exception of the logout
    request is the one that goes on to the handler, and [close_session] is
    not called. *)
Theorem logout_failure_masks_body_failure (self : Teve.self_t) (body : M unit)
    (w : World) (s s1 s2 : State) (e e' : exn) :
  Teve.__enter__ self w s = (Ok tt, s1) ->
  body w s1 = (Raise e, s2) ->
  logged_in s2 = true ->
  SESSION s2 <> None ->
  request_outcome (http_answer w (log s2 ++ [logout_event])) = Raise e' ->
  Teve.with_ self body w s = (Raise e', push s2 logout_event).
Proof.
  intros Henter Hbody Hli Hs Hout.
  unfold Teve.with_. unfold bind at 1. rewrite Henter, Hbody.
  rewrite exit_eq by assumption. rewrite Hli. cbv zeta.
  fold logout_event. cbn [log push]. rewrite Hout. reflexivity.
Qed.

(** X21.  After [__exit__] has returned, [logged_in] is false; calling it
    again sends no second logout request. *)
Theorem exit_logs_out_once (self : Teve.self_t) (w : World) (s s1 : State) :
  SESSION s <> None ->
  Teve.__exit__ self w s = (Ok tt, s1) ->
  logged_in s1 = false
  /\ Teve.__exit__ self w s1
     = (Ok tt, push (push s1 ECloseSession) ESessionExit).
Proof.
  intros Hs Hexit.
  assert (H1 : logged_in s1 = false /\ SESSION s1 = SESSION s).
  { rewrite exit_eq in Hexit by assumption.
    destruct (logged_in s) eqn:Hli.
    - cbv zeta in Hexit. destruct (request_outcome _); [|discriminate].
      rewrite close_session_eq in Hexit. cbn [SESSION push set_logged_in snd] in Hexit.
      destruct (SESSION s) eqn:E; [|congruence].
      injection Hexit as <-. cbn. split; congruence.
    - rewrite close_session_eq in Hexit.
      destruct (SESSION s) eqn:E; [|congruence].
      injection Hexit as <-. cbn. split; congruence. }
  destruct H1 as [Hl1 Hs1]. split; [exact Hl1|].
  rewrite exit_eq by congruence. rewrite Hl1, close_session_eq.
  destruct (SESSION s1) eqn:E; [reflexivity|congruence].
Qed.

Section Numerals.

Import Builtins.













End Numerals.


(** X23.  A run in which everything works: name and password come from the
    configuration, the site accepts the login, serves a pet page with
    something to give, no longer offers feeding after the feed form, says
    that the camel has been taught, and answers the logout.  Then the main
    block returns without an exception, the trace is the login, the
    greeting, the feed step, the teach step, the logout and the release of
    the session in this order, nothing is mailed, nothing is read from
    standard input, and [logged_in] is false again. *)
Theorem everything_works (config : Config) (w : World) (lines : list (result str))
    (n p : str) (k q : Z) (r0 r1 r2 r3 r4 : PageType) :
  teve_name config = Some n ->
  teve_pass config = Some p ->
  request_outcome (http_answer w (login_begins Teve.LOGIN_FORM_0 n p)) = Ok r0 ->
  ~ contains login_failure_pattern (text r0) ->
  request_outcome (http_answer w (trace_to_feed n p)) = Ok r1 ->
  Teve._max_option (html_parser w (text r1)) (py "kaja") = Ok k ->
  Teve._max_option (html_parser w (text r1)) (py "pia") = Ok q ->
  (k =? 0) && (q =? 0) = false ->
  request_outcome (http_answer w (trace_to_feed n p ++ [feed_post k q])) = Ok r2 ->
  ~ offers_feeding (text r2) ->
  request_outcome (http_answer w (trace_to_teach n p k q)) = Ok r3 ->
  contains teach_success_pattern (text r3) ->
  request_outcome (http_answer w (trace_to_logout n p k q)) = Ok r4 ->
  exists s',
    main config w (initial_state lines) = (Ok tt, s')
    /\ log s' = whole_trace n p k q
    /\ logged_in s' = false
    /\ stdin s' = lines.
Proof.
  intros Hn Hp H0 Hlogin H1 Hk Hq Hnz H2 Hfed H3 Htaught H4.
  set (s0 := initial_state lines).
  set (self := self_of config).
  (* entry *)
  pose proof (login_step_eq self w s0 n p Hn Hp) as Hstep.
  change (log (login_posted s0 n p)) with (login_begins Teve.LOGIN_FORM_0 n p) in Hstep.
  rewrite H0 in Hstep.
  set (sE := snd (set_logged_in true w (push (login_posted s0 n p) login_greeting))).
  assert (Henter : Teve.__enter__ self w s0 = (Ok tt, sE)).
  { rewrite (enter_after_login _ _ _ _ _ Hstep).
    unfold bind, _ensure_login, _parse_login_status, _page_text.
    destruct (Re.search login_failure_pattern (text r0)) as [m|] eqn:E; [|reflexivity].
    exfalso. apply Hlogin.
    apply (search_literal _ _ login_failure_pattern_literal). congruence. }
  (* feed *)
  set (sG := push_all sE feed_begins).
  assert (HlogG : log sG = trace_to_feed n p).
  { unfold sG. rewrite log_push_all. reflexivity. }
  assert (Hget : TeveClubLink.request (Some TeveClubLink.TEVE_LINK) true (py "get") None w
                   (snd (print (py "Etetés... ") [] w sE)) = (Ok r1, sG)).
  { rewrite request_eq with (m := GET) by (discriminate || apply lookup_get).
    cbv zeta.
    change (push (snd (print (py "Etetés... ") [] w sE))
              (request_event GET (Some TeveClubLink.TEVE_LINK) true None))
      with sG.
    rewrite HlogG, H1. reflexivity. }
  set (sF := push_all sG [feed_post k q; ok_line]).
  assert (Hetet : Teve.etet self w sE = (Ok tt, sF)).
  { rewrite (etet_eq self w sE sG r1 k q Hget Hk Hq Hnz).
    rewrite HlogG, H2. unfold _parse_feed_success, _page_text.
    destruct (Re.search feeding_is_still_possible (text r2)) eqn:E; [|reflexivity].
    exfalso. apply Hfed, search_feeding_pattern. congruence. }
  (* teach *)
  assert (HlogF : log sF ++ teach_begins = trace_to_teach n p k q).
  { unfold sF. rewrite log_push_all, HlogG. unfold trace_to_teach.
    now rewrite <- !app_assoc. }
  set (sT := push_all sF (teach_begins ++ [ok_line])).
  assert (Htanit : Teve.tanit self w sF = (Ok tt, sT)).
  { rewrite tanit_eq by discriminate. rewrite HlogF, H3.
    apply (search_literal _ _ teach_success_pattern_literal) in Htaught.
    unfold _parse_teach_success, _page_text.
    destruct (Re.search teach_success_pattern (text r3)); [reflexivity|congruence]. }
  (* exit *)
  assert (HlogT : log sT ++ [logout_event] = trace_to_logout n p k q).
  { unfold sT. rewrite log_push_all. unfold trace_to_logout.
    rewrite <- HlogF. now rewrite <- !app_assoc. }
  set (sX := push (push (push (snd (set_logged_in false w (push sT logout_event)))
                           goodbye_line) ECloseSession) ESessionExit).
  assert (Hexit : Teve.__exit__ self w sT = (Ok tt, sX)).
  { rewrite exit_eq by discriminate.
    change (logged_in sT) with true. cbv iota zeta.
    fold logout_event. cbn [log push]. rewrite HlogT, H4.
    rewrite close_session_eq. reflexivity. }
  exists sX. split; [|split; [|split]].
  - unfold main, try_except, workflow, Teve.with_, bind.
    change (Teve.__init__ config w s0) with (Ok self, s0). cbv beta iota.
    rewrite Henter, Hetet, Htanit, Hexit. reflexivity.
  - unfold sX. cbn [log push set_logged_in snd].
    rewrite <- !app_assoc. rewrite app_assoc. rewrite HlogT.
    unfold whole_trace. reflexivity.
  - reflexivity.
  - reflexivity.
Qed.

Lemma login_post_carries_credentials_witness :
  (exists rest,
     log (snd (Teve.__enter__ demo_self friendly_world (initial_state [])))
     = login_begins Teve.LOGIN_FORM_0 (py "Macska") (py "SoseTudodMeg") ++ rest)
  /\ login_form_of Teve.LOGIN_FORM_0 (py "Macska") (py "SoseTudodMeg")
     = [(py "x", py "26"); (py "y", py "22"); (py "login", py "Gyere!");
        (py "tevenev", py "Macska"); (py "pass", py "SoseTudodMeg")].
Proof.
  destruct (login_post_carries_credentials demo_self friendly_world (initial_state [])
              (py "Macska") (py "SoseTudodMeg") eq_refl eq_refl)
    as (H1 & _ & _ & _ & H5).
  split; [exact H1|]. apply (H5 eq_refl).
Defined.

Lemma enter_reraises_after_closing_witness :
  fst (Teve.__enter__ nameless_self friendly_world (initial_state []))
  = Raise (Exn EOFError (py "EOF when reading a line"))
  /\ log (snd (Teve.__enter__ nameless_self friendly_world (initial_state [])))
     = [EStartSession; name_prompt; ECloseSession; ESessionExit].
Proof.
  destruct (enter_reraises_after_closing nameless_self friendly_world (initial_state [])
              (snd (login_step nameless_self friendly_world (initial_state [])))
              (Exn EOFError (py "EOF when reading a line")) eq_refl)
    as [H _].
  - vm_compute. reflexivity.
  - rewrite H. split; reflexivity.
Defined.

Lemma not_refused (link : str) :
  ~ contains login_failure_pattern (text (friendly_answer link)).
Proof.
  intros Hc. apply (search_literal _ _ login_failure_pattern_literal) in Hc.
  apply Hc. vm_compute. reflexivity.
Qed.

Lemma enter_after_accepted_login_witness :
  Teve.__enter__ demo_self friendly_world (initial_state [])
  = (Ok tt,
     snd (set_logged_in true friendly_world
            (push (snd (login_step demo_self friendly_world (initial_state [])))
               login_greeting))).
Proof.
  apply (enter_after_accepted_login demo_self friendly_world (initial_state [])
           (snd (login_step demo_self friendly_world (initial_state [])))
           (friendly_answer login_url)).
  - vm_compute. reflexivity.
  - apply not_refused.
Defined.

Lemma request_needs_session_witness :
  TeveClubLink.request (Some TeveClubLink.TEVE_LINK) true (py "get") None
    friendly_world (initial_state [])
  = (Raise (Exn AttributeError
              (py "'NoneType' object has no attribute '" ++ py "get" ++ py "'")),
     initial_state []).
Proof.
  apply (request_needs_session (Some TeveClubLink.TEVE_LINK) true (py "get") None GET
           friendly_world (initial_state [])).
  - reflexivity.
  - vm_compute. reflexivity.
Defined.

Lemma request_outcome_by_status_witness :
  TeveClubLink.request (Some TeveClubLink.TEVE_LINK) true (py "get") None
    friendly_world live_state
  = (Ok (friendly_answer pet_url),
     push live_state (request_event GET (Some TeveClubLink.TEVE_LINK) true None)).
Proof.
  destruct (request_outcome_by_status (Some TeveClubLink.TEVE_LINK) true (py "get") None
              GET friendly_world live_state) as (Hstate & _ & Hok).
  - discriminate.
  - vm_compute. reflexivity.
  - destruct (Hok (friendly_answer pet_url)) as (Hret & _ & _);
      [vm_compute; reflexivity|].
    rewrite <- Hstate, <- Hret; [|vm_compute; intros [H _]; apply H; reflexivity].
    apply surjective_pairing.
Defined.

Lemma taught_page (link : str) :
  contains teach_success_pattern (text (friendly_answer link)).
Proof. exists [], []. vm_compute. reflexivity. Qed.

Lemma tanit_taught_witness :
  Teve.tanit demo_self friendly_world live_state
  = (Ok tt, push_all live_state (teach_begins ++ [ok_line])).
Proof.
  apply (tanit_taught demo_self friendly_world live_state (friendly_answer teach_url)).
  - discriminate.
  - vm_compute. reflexivity.
  - apply taught_page.
Defined.

Lemma not_taught (link : str) :
  ~ contains teach_success_pattern (text (greeting_page link)).
Proof.
  intros Hc. apply (search_literal _ _ teach_success_pattern_literal) in Hc.
  apply Hc. vm_compute. reflexivity.
Qed.

Lemma tanit_reports_failure_witness :
  fst (Teve.tanit demo_self broken_pet_page_world live_state) = Ok tt
  /\ count is_send_message
       (log (snd (Teve.tanit demo_self broken_pet_page_world live_state))) = 1%nat.
Proof.
  destruct (tanit_reports_failure demo_self broken_pet_page_world live_state
              (greeting_page teach_url)) as [H _].
  - discriminate.
  - vm_compute. reflexivity.
  - apply not_taught.
  - vm_compute. reflexivity.
  - unfold mail_goes_through. repeat split; vm_compute; reflexivity.
  - rewrite H. split; [reflexivity|]. vm_compute. reflexivity.
Defined.

Lemma tanit_request_failure_witness :
  Teve.tanit demo_self offline_after_login_world live_state
  = (Raise (Exn ConnectionError (py "Connection aborted.")),
     push_all live_state teach_begins).
Proof.
  apply tanit_request_failure.
  - discriminate.
  - vm_compute. reflexivity.
Defined.

Lemma no_offer (link : str) : ~ offers_feeding (text (friendly_answer link)).
Proof.
  intros H. apply search_feeding_pattern in H. apply H. vm_compute. reflexivity.
Qed.

Lemma etet_fed_witness :
  Teve.etet demo_self friendly_world (entered_state friendly_world)
  = (Ok tt, push_all (fetched_state friendly_world) [feed_post 3 2; ok_line]).
Proof.
  apply (etet_fed demo_self friendly_world (entered_state friendly_world)
           (fetched_state friendly_world) pet_page_response (friendly_answer pet_url) 3 2).
  - vm_compute. reflexivity.
  - vm_compute. reflexivity.
  - vm_compute. reflexivity.
  - reflexivity.
  - vm_compute. reflexivity.
  - apply no_offer.
Defined.

Lemma offer_page_offers : offers_feeding (text offer_page).
Proof.
  exists [], (py "2"), []. split; [vm_compute; reflexivity|].
  vm_compute. intros [H|[]]. discriminate.
Qed.

Lemma etet_reports_failure_witness :
  fst (Teve.etet demo_self still_hungry_world (entered_state still_hungry_world)) = Ok tt
  /\ count is_send_message
       (log (snd (Teve.etet demo_self still_hungry_world
                    (entered_state still_hungry_world)))) = 1%nat.
Proof.
  destruct (etet_reports_failure demo_self still_hungry_world
              (entered_state still_hungry_world) (fetched_state still_hungry_world)
              (greeting_page pet_url) offer_page 3 2) as [H _].
  - vm_compute. reflexivity.
  - vm_compute. reflexivity.
  - vm_compute. reflexivity.
  - reflexivity.
  - vm_compute. reflexivity.
  - apply offer_page_offers.
  - vm_compute. reflexivity.
  - unfold mail_goes_through. repeat split; vm_compute; reflexivity.
  - rewrite H. split; [reflexivity|]. vm_compute. reflexivity.
Defined.

Lemma handler_stops_before_sending_witness :
  fst (main demo_config broken_pet_page_world (initial_state [])) = Raise header_error.
Proof.
  destruct (handler_stops_before_sending demo_config broken_pet_page_world
              (initial_state [])
              (snd (workflow demo_config broken_pet_page_world (initial_state [])))
              (Exn HTTPError
                 (http_error_msg (py " Server Error: ")
                    (page 500 pet_url (py "Internal Server Error")))))
    as [(e & _ & Hc) | (_ & Hm)].
  - vm_compute. reflexivity.
  - vm_compute in Hc. discriminate.
  - rewrite Hm. reflexivity.
Defined.

Lemma max_option_rejects_non_integer_witness :
  Builtins.int (py "٣") = Ok 3
  /\ Teve._max_option odd_page (py "kaja")
     = Raise (Exn ValueError (py "invalid literal for int() with base 10: 'sok\n'")).
Proof.
  split; [vm_compute; reflexivity|].
  rewrite (max_option_rejects_non_integer odd_page odd_select (py "kaja")
             [option_tag (py "٣")] [option_tag (py "3")]
             (option_tag (py "sok" ++ [LF]))).
  - vm_compute. reflexivity.
  - vm_compute. reflexivity.
  - vm_compute. reflexivity.
  - constructor; [vm_compute; discriminate|constructor].
  - vm_compute. reflexivity.
Defined.

Lemma logout_failure_masks_body_failure_witness :
  fst (Teve.with_ demo_self (Teve.etet demo_self ;; Teve.tanit demo_self)
         offline_after_login_world (initial_state []))
  = Raise (Exn ConnectionError (py "Connection aborted.")).
Proof.
  rewrite (logout_failure_masks_body_failure demo_self
             (Teve.etet demo_self ;; Teve.tanit demo_self)
             offline_after_login_world (initial_state [])
             (entered_state offline_after_login_world)
             (snd ((Teve.etet demo_self ;; Teve.tanit demo_self)
                     offline_after_login_world
                     (entered_state offline_after_login_world)))
             (Exn ConnectionError (py "Connection aborted."))
             (Exn ConnectionError (py "Connection aborted."))).
  - reflexivity.
  - vm_compute. reflexivity.
  - vm_compute. reflexivity.
  - reflexivity.
  - discriminate.
  - vm_compute. reflexivity.
Defined.

Lemma exit_logs_out_once_witness :
  logged_in (snd (Teve.__exit__ demo_self friendly_world (entered_state friendly_world)))
  = false
  /\ count is_logout_request
       (log (snd (Teve.__exit__ demo_self friendly_world
                    (snd (Teve.__exit__ demo_self friendly_world
                            (entered_state friendly_world))))))
     = 1%nat.
Proof.
  destruct (exit_logs_out_once demo_self friendly_world (entered_state friendly_world)
              (snd (Teve.__exit__ demo_self friendly_world (entered_state friendly_world))))
    as [H1 H2].
  - discriminate.
  - vm_compute. reflexivity.
  - split; [exact H1|]. rewrite H2. vm_compute. reflexivity.
Defined.

Lemma everything_works_witness :
  exists s',
    main demo_config friendly_world (initial_state []) = (Ok tt, s')
    /\ log s' = whole_trace (py "Macska") (py "SoseTudodMeg") 3 2
    /\ count is_send_message (log s') = 0%nat.
Proof.
  destruct (everything_works demo_config friendly_world []
              (py "Macska") (py "SoseTudodMeg") 3 2
              (friendly_answer login_url) (friendly_answer pet_url)
              (friendly_answer pet_url) (friendly_answer teach_url)
              (friendly_answer logout_url))
    as (s' & Hmain & Hlog & _ & _).
  - reflexivity.
  - reflexivity.
  - vm_compute. reflexivity.
  - apply not_refused.
  - vm_compute. reflexivity.
  - vm_compute. reflexivity.
  - vm_compute. reflexivity.
  - reflexivity.
  - vm_compute. reflexivity.
  - apply no_offer.
  - vm_compute. reflexivity.
  - apply taught_page.
  - vm_compute. reflexivity.
  - exists s'. split; [exact Hmain|]. split; [exact Hlog|].
    rewrite Hlog. vm_compute. reflexivity.
Defined.

Lemma enter_shape self w s :
  logged_in s = false ->
  exists evs,
    forallb workflow_event evs = true
    /\ log (snd (Teve.__enter__ self w s))
       = log s ++ EStartSession :: evs
         ++ (if is_ok (fst (Teve.__enter__ self w s)) then []
             else [ECloseSession; ESessionExit])
    /\ SESSION (snd (Teve.__enter__ self w s)) <> None
    /\ logged_in (snd (Teve.__enter__ self w s))
       = is_ok (fst (Teve.__enter__ self w s)).
Proof.
  intros Hli. unfold Teve.__enter__, try_except.
  match goal with
  | |- context [bind TeveClubLink.start_session ?K w s] =>
      change (bind TeveClubLink.start_session K w s)
        with (K tt w (snd (TeveClubLink.start_session w s)));
      assert (HK : sets_flag (K tt))
  end.
  { repeat (apply sets_flag_bind; [quiet_workflow|intros]).
    apply sets_flag_set_logged_in. }
  cbv beta in *.
  match type of HK with sets_flag ?m => set (body := m) in * end.
  remember (snd (TeveClubLink.start_session w s)) as s1 eqn:Es1.
  assert (Hs1 : SESSION s1 = Some LiveSession) by (subst s1; reflexivity).
  assert (Hl1 : logged_in s1 = false) by (subst s1; exact Hli).
  assert (He1 : log s1 = log s ++ [EStartSession]) by (subst s1; reflexivity).
  clear Es1.
  destruct (HK w s1) as (Hs & Hl & evs & He & Hp). cbv zeta in *.
  exists evs. split; [exact Hp|].
  destruct (body w s1) as [[[]|e] s2]; cbn [fst snd is_ok] in *.
  - split; [|split; [congruence|assumption]].
    rewrite He, He1, <- app_assoc, app_nil_r. reflexivity.
  - unfold bind.
    assert (Hs2 : SESSION s2 = Some LiveSession) by congruence.
    assert (Hl2 : logged_in s2 = false) by congruence.
    rewrite exit_eq by congruence. rewrite Hl2, close_session_eq, Hs2.
    cbn [fst snd is_ok raise push log SESSION logged_in].
    split; [|split; [congruence|assumption]].
    rewrite He, He1, <- !app_assoc. reflexivity.
Qed.

Lemma split_after_prefix (a b pre post : trace) (c : event) :
  a ++ b = pre ++ c :: post ->
  ~ In c a ->
  exists mid, b = mid ++ c :: post.
Proof.
  revert pre. induction a as [|x a IH]; intros pre Heq Hnot.
  - now exists pre.
  - destruct pre as [|y pre]; cbn [app] in Heq; injection Heq as Hx Heq.
    + subst x. exfalso. apply Hnot. now left.
    + apply (IH pre Heq). intros Hin. apply Hnot. now right.
Qed.

Lemma no_close_not_in (a : trace) :
  count is_close_session a = 0%nat -> ~ In ECloseSession a.
Proof.
  unfold count. induction a as [|x a IH]; cbn [filter]; [auto|].
  destruct (is_close_session x) eqn:E; cbn [List.length]; [discriminate|].
  intros H [Hx|Hin]; [subst x; discriminate|now apply IH].
Qed.

Lemma filter_request_suffix (mid post : trace) (c : event) :
  filter is_request (mid ++ c :: post) = [] -> filter is_request post = [].
Proof.
  rewrite filter_app. cbn [filter]. intros H.
  apply app_eq_nil in H as [_ H]. destruct (is_request c); [discriminate|exact H].
Qed.

Lemma run_shape (config : Config) (w : World) (lines : list (result str)) :
  exists a b,
    log (snd (main config w (initial_state lines))) = EStartSession :: a ++ b
    /\ count is_close_session a = 0%nat
    /\ filter is_request b = [].
Proof.
  set (s0 := initial_state lines). set (self := self_of config).
  set (body := Teve.etet self ;; Teve.tanit self).
  assert (Hmain : main config w s0
                  = try_except (Teve.with_ self body)
                      (fun exc =>
                         _mail_error (mail config) fatal_message (fatal_subject exc) None ;;
                         raise exc) w s0) by reflexivity.
  rewrite Hmain. clear Hmain. unfold try_except.
  assert (Hhandler : forall exc s1 a b,
             log s1 = EStartSession :: a ++ b ->
             count is_close_session a = 0%nat ->
             filter is_request b = [] ->
             exists a' b',
               log (snd ((_mail_error (mail config) fatal_message (fatal_subject exc) None ;;
                          @raise unit exc) w s1)) = EStartSession :: a' ++ b'
               /\ count is_close_session a' = 0%nat
               /\ filter is_request b' = []).
  { intros exc s1 a b Hlog Ha Hb.
    assert (Hq : quiet no_request
                   (_mail_error (mail config) fatal_message (fatal_subject exc) None ;;
                    @raise unit exc)).
    { apply quiet_bind; [apply quiet_mail_error, no_request_other|].
      intros _. apply quiet_raise. }
    destruct (Hq w s1) as (_ & _ & hevs & He & Hn).
    exists a, (b ++ hevs). rewrite He, Hlog. split; [|split; [exact Ha|]].
    - cbn [app]. now rewrite <- app_assoc.
    - rewrite filter_app, Hb, (no_request_filter _ Hn). reflexivity. }
  destruct (enter_shape self w s0 eq_refl) as (evs & Hp & He & Hs & Hl).
  apply workflow_event_counts in Hp as [_ Hc].
  unfold Teve.with_. unfold bind at 1.
  destruct (Teve.__enter__ self w s0) as [[[]|e] s1]; cbn [fst snd is_ok] in *.
  - assert (Hq : quiet workflow_event body).
    { apply quiet_bind; [|intros _]; quiet_workflow. }
    destruct (Hq w s1) as (Hl2 & Hs2 & bevs & Hbe & Hbp).
    apply workflow_event_counts in Hbp as [_ Hbc].
    assert (Hlive : SESSION (snd (body w s1)) <> None) by congruence.
    pose proof (exit_eq self w _ Hlive) as Hexit.
    rewrite Hl2, Hl in Hexit. cbv zeta in Hexit. fold logout_event in Hexit.
    rewrite close_session_eq in Hexit.
    cbn [SESSION push set_logged_in snd] in Hexit.
    destruct (SESSION (snd (body w s1))) eqn:Esess; [|congruence].
    assert (Hlog2 : log (snd (body w s1)) = EStartSession :: (evs ++ bevs) ++ []).
    { rewrite Hbe, He. cbn [app]. now rewrite !app_nil_r, <- app_assoc. }
    assert (Hcount : count is_close_session (evs ++ bevs) = 0%nat)
      by (rewrite count_app, Hc, Hbc; reflexivity).
    destruct (body w s1) as [[[]|e] s2]; cbn [fst snd] in *; rewrite Hexit;
      destruct (request_outcome _) as [r|x]; cbv beta iota.
    + exists ((evs ++ bevs) ++ [logout_event; goodbye_line]),
        [ECloseSession; ESessionExit].
      cbn [snd log push]. rewrite Hlog2, app_nil_r.
      split; [cbn [app]; rewrite <- !app_assoc; reflexivity|].
      split; [rewrite count_app, Hcount; reflexivity|reflexivity].
    + apply Hhandler with (a := (evs ++ bevs) ++ [logout_event]) (b := []).
      * cbn [log push]. rewrite Hlog2, !app_nil_r. reflexivity.
      * rewrite count_app, Hcount. reflexivity.
      * reflexivity.
    + apply Hhandler with (a := (evs ++ bevs) ++ [logout_event; goodbye_line])
                          (b := [ECloseSession; ESessionExit]).
      * cbn [log push]. rewrite Hlog2, app_nil_r. cbn [app].
        rewrite <- !app_assoc. reflexivity.
      * rewrite count_app, Hcount. reflexivity.
      * reflexivity.
    + apply Hhandler with (a := (evs ++ bevs) ++ [logout_event]) (b := []).
      * cbn [log push]. rewrite Hlog2, !app_nil_r. reflexivity.
      * rewrite count_app, Hcount. reflexivity.
      * reflexivity.
  - apply Hhandler with (a := evs) (b := [ECloseSession; ESessionExit]).
    + rewrite He. reflexivity.
    + exact Hc.
    + reflexivity.
Qed.

(** X24.  Every request of a run is made on a live session: the first thing
    a run does is to start the session, and once [close_session] has been
    called no request follows, whatever the site, the mail relay and the
    user do. *)
Theorem requests_only_on_live_session (config : Config) (w : World)
    (lines : list (result str)) :
  (exists rest,
     log (snd (main config w (initial_state lines))) = EStartSession :: rest)
  /\ (forall pre post,
        log (snd (main config w (initial_state lines))) = pre ++ ECloseSession :: post ->
        filter is_request post = []).
Proof.
  destruct (run_shape config w lines) as (a & b & Hlog & Ha & Hb).
  split; [now exists (a ++ b)|].
  intros pre post Heq. rewrite Hlog in Heq.
  change (EStartSession :: a ++ b) with ((EStartSession :: a) ++ b) in Heq.
  destruct (split_after_prefix _ _ _ _ _ Heq) as (mid & Hmid).
  - intros [H|H]; [discriminate|]. now apply (no_close_not_in a).
  - rewrite Hmid in Hb. eapply filter_request_suffix. exact Hb.
Qed.
